(** * Store-Inventory (app.py): a shallow embedding and its verified properties

    The program keeps a table of products (peewee model [Product] over SQLite),
    loads [inventory.csv] into it at start-up ([add_csv]), lets the user add
    products interactively ([add_new_product]) and writes the table back to
    [backup_inventory.csv] ([backup_database]).

    Layout of this file:
    - [Py]: the Python built-ins the program calls ([str.strip], [str.index],
      [int], [float], [round], ["%.2f" %], [strptime], [strftime]);
    - [Db]: the [Product] table with its unique name column;
    - the functions of app.py, under their own names;
    - the properties.

    Characters are 8-bit [ascii]; Python text outside ASCII is not modelled. *)

From Stdlib Require Import ZArith List String Ascii Bool Lia Arith Sorted Permutation.
From Stdlib Require Import DecimalString DecimalZ DecimalN DecimalPos.
From Stdlib Require DecimalFacts.
Import ListNotations.

Local Open Scope string_scope.
Local Open Scope Z_scope.

(* ------------------------------------------------------------------------- *)
(** ** Exceptions and results *)

Inductive exn : Type :=
| ValueError       (* int(), float(), str.index, strptime, round(nan) *)
| OverflowError    (* round(inf); an int that does not fit an SQLite INTEGER *)
| IntegrityError   (* peewee: the unique constraint on product_name *)
| DoesNotExist     (* peewee: Model.get found no row *)
| InputError (msg : string)   (* app.py line 11 *)
| EOFError.        (* input() at end of input *)

Inductive result (A : Type) : Type :=
| Ok (a : A)
| Raise (e : exn).
Arguments Ok {A} a.
Arguments Raise {A} e.

Definition rbind {A B} (r : result A) (k : A -> result B) : result B :=
  match r with
  | Ok a => k a
  | Raise e => Raise e
  end.

Definition of_option {A} (e : exn) (o : option A) : result A :=
  match o with
  | Some a => Ok a
  | None => Raise e
  end.

Declare Scope py_scope.
Delimit Scope py_scope with py.
Notation "x <- r ;; k" := (rbind r (fun x => k))
  (at level 61, r at next level, right associativity) : py_scope.

Definition is_ValueError (e : exn) : bool :=
  match e with ValueError => true | _ => false end.
Definition is_IntegrityError (e : exn) : bool :=
  match e with IntegrityError => true | _ => false end.

(* ------------------------------------------------------------------------- *)
(** ** Python built-ins *)

Module Py.

(** *** Strings *)

Definition chr_eqb (a b : ascii) : bool := Ascii.eqb a b.

Definition is_digit (c : ascii) : bool :=
  let n := N_of_ascii c in ((48 <=? n) && (n <=? 57))%N.

(** C [isspace] in the "C" locale: what [int] and [float] skip on both sides of
    an ASCII string. *)
Definition is_space (c : ascii) : bool :=
  let n := N_of_ascii c in (((9 <=? n) && (n <=? 13)) || (n =? 32))%N.

Definition to_lower (c : ascii) : ascii :=
  let n := N_of_ascii c in
  if ((65 <=? n) && (n <=? 90))%N then ascii_of_N (n + 32) else c.

Fixpoint lower (s : string) : string :=
  match s with
  | EmptyString => EmptyString
  | String c s' => String (to_lower c) (lower s')
  end.

Fixpoint all_chars (p : ascii -> bool) (s : string) : bool :=
  match s with
  | EmptyString => true
  | String c s' => p c && all_chars p s'
  end.

Fixpoint lstrip (p : ascii -> bool) (s : string) : string :=
  match s with
  | EmptyString => EmptyString
  | String c s' => if p c then lstrip p s' else s
  end.

Fixpoint rstrip (p : ascii -> bool) (s : string) : string :=
  match s with
  | EmptyString => EmptyString
  | String c s' =>
      match rstrip p s' with
      | EmptyString => if p c then EmptyString else String c EmptyString
      | t => String c t
      end
  end.

(** [s.strip(chars)]: drop the leading and the trailing characters that are in
    [chars]. *)
Definition strip_by (p : ascii -> bool) (s : string) : string :=
  rstrip p (lstrip p s).

Fixpoint mem_chr (c : ascii) (chars : string) : bool :=
  match chars with
  | EmptyString => false
  | String d chars' => chr_eqb c d || mem_chr c chars'
  end.

Definition strip (s chars : string) : string :=
  strip_by (fun c => mem_chr c chars) s.

Definition len (s : string) : Z := Z.of_nat (String.length s).

(** [s.index(c)] for a one-character needle: the offset of its first
    occurrence, ValueError when there is none. *)
Fixpoint index_chr (c : ascii) (s : string) : result Z :=
  match s with
  | EmptyString => Raise ValueError
  | String d s' =>
      if chr_eqb d c then Ok 0
      else (i <- index_chr c s' ;; Ok (i + 1))%py
  end.

(** [s[i:]] for [0 <= i]. *)
Definition slice_from (s : string) (i : Z) : string :=
  String.substring (Z.to_nat i) (String.length s - Z.to_nat i) s.

(** The longest prefix of characters satisfying [p], and what follows it. *)
Fixpoint span (p : ascii -> bool) (s : string) : string * string :=
  match s with
  | EmptyString => (EmptyString, EmptyString)
  | String c s' =>
      if p c then let '(a, b) := span p s' in (String c a, b)
      else (EmptyString, s)
  end.

(** *** Integers: [int(str)] and [str(int)] *)

Definition digit_of (c : ascii) : Z := Z.of_N (N_of_ascii c) - 48.

(** Decimal digits read from the left, [acc] being the value read so far. *)
Fixpoint digits_acc (s : string) (acc : Z) : option Z :=
  match s with
  | EmptyString => Some acc
  | String c s' =>
      if is_digit c then digits_acc s' (10 * acc + digit_of c) else None
  end.

(** A non-empty run of decimal digits, read in base 10. *)
Definition digits_value (s : string) : option Z :=
  match s with
  | EmptyString => None
  | _ => digits_acc s 0
  end.

(** PEP 515: one underscore is allowed between two digits. This is the loop of
    [_Py_string_to_number_with_underscores]; [prev] is the previous character
    ([None] at the start). The result is the text without underscores. *)
Fixpoint drop_underscores (prev : option ascii) (s : string) : option string :=
  let after_underscore :=
    match prev with
    | Some p => chr_eqb p "_"
    | None => false
    end in
  match s with
  | EmptyString => if after_underscore then None else Some EmptyString
  | String c s' =>
      if chr_eqb c "_" then
        match prev with
        | Some p => if is_digit p then drop_underscores (Some c) s' else None
        | None => None
        end
      else if after_underscore && negb (is_digit c) then None
      else option_map (String c) (drop_underscores (Some c) s')
  end.

(** An optional sign in front of [s]: [(negative, rest)]. *)
Definition split_sign (s : string) : bool * string :=
  match s with
  | String c s' =>
      if chr_eqb c "-" then (true, s')
      else if chr_eqb c "+" then (false, s')
      else (false, s)
  | EmptyString => (false, s)
  end.

(** [int(s)] for a string [s], base 10. CPython 3.11 refuses a text of more
    than 4300 digits with ValueError ([sys.int_max_str_digits]); the digits
    are counted without sign, blanks and underscores. *)
Definition int_of_str (s : string) : result Z :=
  let '(neg, body) := split_sign (strip_by is_space s) in
  match drop_underscores None body with
  | None => Raise ValueError
  | Some ds =>
      if 4300 <? len ds then Raise ValueError
      else
        match digits_value ds with
        | Some n => Ok (if neg then - n else n)
        | None => Raise ValueError
        end
  end.

(** [str(n)] for an int [n]. *)
Definition str_of_int (n : Z) : string :=
  NilZero.string_of_int (Z.to_int n).

(** The decimal digits of [n >= 0], left-padded with zeros to [width]. *)
Fixpoint zero_pad (width : nat) (s : string) : string :=
  match width with
  | O => s
  | S w => if (String.length s <? S w)%nat then String "0" (zero_pad w s) else s
  end.

(** *** Floats: IEEE 754 binary64, round to nearest, ties to even

    A finite float is [(-1)^neg * m * 2^e] with [0 <= m]. Only the value and the
    sign matter to the program, so [m] is not kept normalised. *)

Inductive float : Type :=
| F_nan
| F_inf (neg : bool)
| F_fin (neg : bool) (m e : Z).

(** The integer nearest to [n / d] ([0 <= n], [0 < d]), ties to even. *)
Definition round_half_even (n d : Z) : Z :=
  let q := n / d in
  let r := n mod d in
  if 2 * r <? d then q
  else if d <? 2 * r then q + 1
  else if Z.even q then q else q + 1.

(** [n / (d * 2^e)] as a fraction, for [e] of either sign. *)
Definition scaled (n d e : Z) : Z * Z :=
  if 0 <=? e then (n, d * 2 ^ e) else (n * 2 ^ (- e), d).

(** [floor (log2 (n / d))] for [0 < n], [0 < d]. *)
Definition ilog2 (n d : Z) : Z :=
  let g := Z.log2 n - Z.log2 d in
  let '(a, b) := scaled n d g in
  if a <? b then g - 1 else g.

(** Round the non-negative rational [n / d] to binary64: 53 significant bits,
    least exponent -1074, overflow to infinity above (2^53 - 1) * 2^971. *)
Definition RN (neg : bool) (n d : Z) : float :=
  if n =? 0 then F_fin neg 0 0
  else
    let e := Z.max (ilog2 n d - 52) (-1074) in
    let '(a, b) := scaled n d e in
    let m := round_half_even a b in
    if (971 <? e) || ((e =? 971) && (m =? 2 ^ 53)) then F_inf neg
    else F_fin neg m e.

(** [float(n)] for an int [n]; Python raises OverflowError when [n] is too
    large for a float. *)
Definition float_of_int (n : Z) : result float :=
  match RN (n <? 0) (Z.abs n) 1 with
  | F_inf _ => Raise OverflowError
  | x => Ok x
  end.

(** [x * y] on floats. *)
Definition fmul (x y : float) : float :=
  match x, y with
  | F_nan, _ | _, F_nan => F_nan
  | F_inf s, F_inf t => F_inf (xorb s t)
  | F_inf s, F_fin t m _ | F_fin t m _, F_inf s =>
      if m =? 0 then F_nan else F_inf (xorb s t)
  | F_fin s m1 e1, F_fin t m2 e2 =>
      let '(a, b) := scaled (m1 * m2) 1 (- (e1 + e2)) in
      RN (xorb s t) a b
  end.

(** [x * n] and [n * x] for a float [x] and an int [n]: the int is converted
    first. *)
Definition fmul_int (x : float) (n : Z) : result float :=
  (y <- float_of_int n ;; Ok (fmul x y))%py.

Definition int_fmul (n : Z) (x : float) : result float :=
  (y <- float_of_int n ;; Ok (fmul y x))%py.

(** [round(x)] with one argument: the nearest int, ties to even. *)
Definition round (x : float) : result Z :=
  match x with
  | F_nan => Raise ValueError
  | F_inf _ => Raise OverflowError
  | F_fin neg m e =>
      let '(a, b) := scaled m 1 (- e) in
      let r := round_half_even a b in
      Ok (if neg then - r else r)
  end.

(** The number after the optional sign: [digits [. digits]] or [. digits], then
    an optional exponent; the whole text must be used. *)
Definition exponent_of (s : string) : option Z :=
  match s with
  | EmptyString => Some 0
  | String c s' =>
      if chr_eqb (to_lower c) "e" then
        let '(neg, ds) := split_sign s' in
        option_map (fun n => if neg then - n else n) (digits_value ds)
      else None
  end.

Definition decimal_of (neg : bool) (s : string) : option float :=
  let '(ip, r1) := span is_digit s in
  let '(fp, r2) :=
    match r1 with
    | String c r => if chr_eqb c "." then span is_digit r else (EmptyString, r1)
    | EmptyString => (EmptyString, r1)
    end in
  match digits_value (ip ++ fp), exponent_of r2 with
  | Some n, Some ex =>
      let k := ex - len fp in
      Some (if 0 <=? k then RN neg (n * 10 ^ k) 1 else RN neg n (10 ^ (- k)))
  | _, _ => None
  end.

(** [float(s)] for a string [s]: correctly rounded ([PyOS_string_to_double]);
    a decimal too large in magnitude gives an infinity. *)
Definition float_of_str (s : string) : result float :=
  let t := strip_by is_space s in
  match drop_underscores None t with
  | None => Raise ValueError
  | Some u =>
      let '(neg, body) := split_sign u in
      let low := lower body in
      if String.eqb low "inf" || String.eqb low "infinity" then Ok (F_inf neg)
      else if String.eqb low "nan" then Ok F_nan
      else of_option ValueError (decimal_of neg body)
  end.

(** ["%.2f" % x]: the exact value of [x] rounded to two decimals, ties to
    even. *)
Definition format_2f (x : float) : string :=
  match x with
  | F_nan => "nan"
  | F_inf neg => if neg then "-inf" else "inf"
  | F_fin neg m e =>
      let '(a, b) := scaled (m * 100) 1 (- e) in
      let c := round_half_even a b in
      (if neg then "-" else "")
        ++ str_of_int (c / 100) ++ "." ++ zero_pad 2 (str_of_int (c mod 100))
  end.

(** *** Dates

    Every datetime of the program is at midnight: [strptime] with a date-only
    layout, and [now().replace(hour=0, minute=0, second=0, microsecond=0)]. So a
    datetime is its calendar date; [>=] compares year, month, day in turn. *)

Record datetime : Type := mk_datetime { year : Z; month : Z; day : Z }.

Definition is_leap (y : Z) : bool :=
  ((y mod 4 =? 0) && negb (y mod 100 =? 0)) || (y mod 400 =? 0).

Definition days_in_month (y m : Z) : Z :=
  if m =? 2 then (if is_leap y then 29 else 28)
  else if (m =? 4) || (m =? 6) || (m =? 9) || (m =? 11) then 30
  else 31.

(** [datetime(y, m, d)]: ValueError outside the calendar. *)
Definition datetime_new (y m d : Z) : result datetime :=
  if (1 <=? y) && (y <=? 9999) && (1 <=? m) && (m <=? 12)
     && (1 <=? d) && (d <=? days_in_month y m)
  then Ok (mk_datetime y m d)
  else Raise ValueError.

Definition datetime_ltb (a b : datetime) : bool :=
  (year a <? year b)
  || ((year a =? year b)
      && ((month a <? month b)
          || ((month a =? month b) && (day a <? day b)))).

(** [a >= b] *)
Definition datetime_geb (a b : datetime) : bool := negb (datetime_ltb a b).

Definition datetime_eqb (a b : datetime) : bool :=
  (year a =? year b) && (month a =? month b) && (day a =? day b).

(** The directives of [_strptime]: %m is [1[0-2]|0[1-9]|[1-9]], %d is
    [3[01]|[12]\d|0[1-9]|[1-9]| [1-9]], %Y is four digits. None of them
    matches a slash, so in the layout %m/%d/%Y the first two fields end at the
    first two slashes, and the year must end the text. *)
Definition directive_m (s : string) : option Z :=
  match s with
  | String "1" (String c EmptyString) =>
      if chr_eqb c "0" || chr_eqb c "1" || chr_eqb c "2" then digits_value s
      else None
  | String "0" (String c EmptyString) =>
      if is_digit c && negb (chr_eqb c "0") then digits_value s else None
  | String c EmptyString =>
      if is_digit c && negb (chr_eqb c "0") then digits_value s else None
  | _ => None
  end.

Definition directive_d (s : string) : option Z :=
  match s with
  | String "3" (String c EmptyString) =>
      if chr_eqb c "0" || chr_eqb c "1" then digits_value s else None
  | String "1" (String c EmptyString)
  | String "2" (String c EmptyString) =>
      if is_digit c then digits_value s else None
  | String "0" (String c EmptyString)
  | String " " (String c EmptyString) =>
      if is_digit c && negb (chr_eqb c "0")
      then digits_value (String c EmptyString) else None
  | String c EmptyString =>
      if is_digit c && negb (chr_eqb c "0") then digits_value s else None
  | _ => None
  end.

Definition directive_Y (s : string) : option Z :=
  if (String.length s =? 4)%nat && all_chars is_digit s then digits_value s
  else None.

Definition not_slash (c : ascii) : bool := negb (chr_eqb c "/").

(** [datetime.strptime(s, '%m/%d/%Y')] *)
Definition strptime (s : string) : result datetime :=
  let '(ms, r1) := span not_slash s in
  match r1 with
  | String _ r1' =>
      let '(ds, r2) := span not_slash r1' in
      match r2 with
      | String _ ys =>
          match directive_m ms, directive_d ds, directive_Y ys with
          | Some m, Some d, Some y => datetime_new y m d
          | _, _, _ => Raise ValueError
          end
      | EmptyString => Raise ValueError
      end
  | EmptyString => Raise ValueError
  end.

(** [d.strftime('%m/%d/%Y')]: CPython hands the layout to the C library.
    Month and day are zero-filled to two digits; the year is written as
    glibc writes it, without padding, so a year below 1000 has fewer than
    four digits ([datetime(999, 1, 1)] gives 01/01/999). *)
Definition strftime (d : datetime) : string :=
  zero_pad 2 (str_of_int (month d)) ++ "/"
    ++ zero_pad 2 (str_of_int (day d)) ++ "/"
    ++ str_of_int (year d).

End Py.

(* ------------------------------------------------------------------------- *)
(** ** The Product table (peewee over SQLite) *)

Module Db.

Import Py.

(** class Product(Model), app.py lines 15-20. *)
Record Product : Type := mk_Product {
  product_id : Z;              (* AutoField() *)
  product_name : string;       (* CharField(unique=True) *)
  product_quantity : Z;        (* IntegerField() *)
  product_price : Z;           (* IntegerField() *)
  date_updated : datetime      (* DateTimeField() *)
}.

(** The rows in rowid order, which is the order of a plain
    [Product.select()]: SQLite walks the table by rowid. *)
Definition table : Type := list Product.

(** An SQLite INTEGER is a signed 64-bit value; the sqlite3 module raises
    OverflowError when asked to bind a larger Python int. *)
Definition fits_int64 (n : Z) : bool := (- 2 ^ 63 <=? n) && (n <? 2 ^ 63).

Definition has_name (name : string) (t : table) : bool :=
  existsb (fun p => String.eqb (product_name p) name) t.

(** The rowid given to a new row: one more than the largest in the table, 1 in
    an empty table. *)
Definition next_id (t : table) : Z :=
  match t with
  | [] => 1
  | p :: t' => 1 + fold_left Z.max (map product_id t') (product_id p)
  end.

(** [Product.create(...)]: one INSERT. *)
Definition create (name : string) (quantity price : Z) (date : datetime)
    (t : table) : result table :=
  if negb (fits_int64 quantity && fits_int64 price) then Raise OverflowError
  else if has_name name t then Raise IntegrityError
  else Ok (t ++ [mk_Product (next_id t) name quantity price date])%list.

(** [Product.get(Product.product_name == name)] *)
Definition get_by_name (name : string) (t : table) : result Product :=
  of_option DoesNotExist
    (find (fun p => String.eqb (product_name p) name) t).

(** [Product.get(Product.product_id == id)] *)
Definition get_by_id (id : Z) (t : table) : result Product :=
  of_option DoesNotExist (find (fun p => product_id p =? id) t).

(** [Product.select().order_by(Product.product_id.desc()).get()] *)
Definition get_last (t : table) : result Product :=
  match t with
  | [] => Raise DoesNotExist
  | p :: t' =>
      Ok (fold_left (fun a b => if product_id a <? product_id b then b else a)
            t' p)
  end.

(** [instance.save()] for an instance read from the table: one UPDATE of the
    row with the instance's primary key. The unique constraint is checked
    against the other rows. *)
Definition save (p : Product) (t : table) : result table :=
  if negb (fits_int64 (product_quantity p) && fits_int64 (product_price p))
  then Raise OverflowError
  else if existsb (fun r => String.eqb (product_name r) (product_name p)
                            && negb (product_id r =? product_id p)) t
  then Raise IntegrityError
  else Ok (map (fun r => if product_id r =? product_id p then p else r) t).

End Db.

(* ------------------------------------------------------------------------- *)
(** ** app.py *)

Import Py Db.

(** A row as [csv.DictReader] yields it and as [csv.DictWriter] takes it: the
    text of the four columns. The csv module's own quoting and line ends are
    not modelled, and every row is taken to have the four columns. *)
Record csv_row : Type := mk_csv_row {
  csv_product_name : string;
  csv_product_quantity : string;
  csv_product_price : string;
  csv_date_updated : string
}.

Record csv_file : Type := mk_csv_file {
  fieldnames : list string;
  rows : list csv_row
}.

(** The quantity in a dictionary is text on the CSV path and an int on the
    interactive path; [int(...)] is applied to it in both cases. *)
Inductive pyval : Type :=
| VStr (s : string)
| VInt (n : Z).

Definition int (v : pyval) : result Z :=
  match v with
  | VStr s => int_of_str s
  | VInt n => Ok n
  end.

(** The dictionary handed to [add_entry] and [update_duplicate]: price and
    date already converted. *)
Record dict : Type := mk_dict {
  d_product_name : string;
  d_product_quantity : pyval;
  d_product_price : Z;
  d_date_updated : datetime
}.

(** What the program acts on: the table, the terminal and the backup file. *)
Record world : Type := mk_world {
  db : table;
  stdin : list string;           (* the lines the user will type *)
  stdout : list string;          (* what was printed, oldest first *)
  backup_inventory : option csv_file
}.

Definition set_db (w : world) (t : table) : world :=
  mk_world t (stdin w) (stdout w) (backup_inventory w).
Definition set_stdin (w : world) (l : list string) : world :=
  mk_world (db w) l (stdout w) (backup_inventory w).
Definition echo (s : string) (w : world) : world :=
  mk_world (db w) (stdin w) (stdout w ++ [s])%list (backup_inventory w).
Definition set_backup (w : world) (f : csv_file) : world :=
  mk_world (db w) (stdin w) (stdout w) (Some f).

(** Computations that change the world and may raise. *)
Definition M (A : Type) : Type := world -> result A * world.

Definition ret {A} (a : A) : M A := fun w => (Ok a, w).
Definition raise {A} (e : exn) : M A := fun w => (Raise e, w).
Definition bind {A B} (m : M A) (k : A -> M B) : M B :=
  fun w =>
    match m w with
    | (Ok a, w') => k a w'
    | (Raise e, w') => (Raise e, w')
    end.
Definition lift {A} (r : result A) : M A := fun w => (r, w).

Declare Scope m_scope.
Delimit Scope m_scope with m.
Notation "x <- m ;; k" := (bind m (fun x => k))
  (at level 61, m at next level, right associativity) : m_scope.
Notation "m ;; k" := (bind m (fun _ => k))
  (at level 61, right associativity) : m_scope.

(** [try: m  except <handles>: h] *)
Definition try_except {A} (m : M A) (handles : exn -> bool) (h : M A) : M A :=
  fun w =>
    match m w with
    | (Raise e, w') => if handles e then h w' else (Raise e, w')
    | r => r
    end.

Definition query {A} (f : table -> result A) : M A := fun w => (f (db w), w).
Definition execute (f : table -> result table) : M unit :=
  fun w =>
    match f (db w) with
    | Ok t => (Ok tt, set_db w t)
    | Raise e => (Raise e, w)
    end.
Definition print (s : string) : M unit := fun w => (Ok tt, echo s w).

Definition nl : string := String (ascii_of_nat 10) EmptyString.

(** lines 32-37 *)
Definition add_entry (dictionary : dict) : M unit :=
  (quantity <- lift (int (d_product_quantity dictionary)) ;;
   execute (create (d_product_name dictionary) quantity
              (d_product_price dictionary) (d_date_updated dictionary)))%m.

(** lines 40-44 *)
Definition update_duplicate (dictionary : dict) (existing_product : Product)
    : M unit :=
  (quantity <- lift (int (d_product_quantity dictionary)) ;;
   execute (save (mk_Product (product_id existing_product)
                    (product_name existing_product)
                    quantity
                    (d_product_price dictionary)
                    (d_date_updated dictionary))))%m.

(** [round(float(s.strip('$'))*100)], lines 53 and 148 *)
Definition price_in_cents (s : string) : result Z :=
  (x <- float_of_str (strip s "$") ;;
   y <- fmul_int x 100 ;;
   round y)%py.

(** lines 52-53: the two conversions done on a row before it is stored. *)
Definition convert_row (row : csv_row) : result dict :=
  (date <- strptime (csv_date_updated row) ;;
   price <- price_in_cents (csv_product_price row) ;;
   Ok (mk_dict (csv_product_name row) (VStr (csv_product_quantity row))
         price date))%py.

(** lines 54-61: insert the row, or on a duplicate name update the stored
    product unless the row is older. *)
Definition reconcile (row : dict) : M unit :=
  try_except (add_entry row) is_IntegrityError
    (existing_product <- query (get_by_name (d_product_name row)) ;;
     if datetime_geb (d_date_updated row) (date_updated existing_product)
     then update_duplicate row existing_product
     else ret tt)%m.

(** The body of the [for] loop of [add_csv], lines 52-61. *)
Definition add_csv_row (row : csv_row) : M unit :=
  (row' <- lift (convert_row row) ;; reconcile row')%m.

(** lines 47-61; [inventory] is what DictReader read from inventory.csv. *)
Fixpoint add_csv (inventory : list csv_row) : M unit :=
  match inventory with
  | [] => ret tt
  | row :: rest => (add_csv_row row ;; add_csv rest)%m
  end.

Fixpoint repeat_string (n : nat) (s : string) : string :=
  match n with
  | O => EmptyString
  | S n' => s ++ repeat_string n' s
  end.

(** lines 64-67 *)
Definition print_heading (heading : string) : M unit :=
  (print "" ;; print heading ;;
   print (repeat_string (String.length heading) "-"))%m.

(** ["$%.2f" % float(price * .01)], lines 75 and 209; [.01] is the float
    nearest to 1/100. *)
Definition render_price (price : Z) : result string :=
  (x <- int_fmul price (RN false 1 100) ;; Ok ("$" ++ format_2f x))%py.

(** lines 70-76 *)
Definition print_product_details (selected_product : Z) : M unit :=
  (product <- query (get_by_id selected_product) ;;
   price <- lift (render_price (product_price product)) ;;
   print ("ID: " ++ str_of_int (product_id product) ++ "  |  "
            ++ "NAME: " ++ product_name product ++ "  |  "
            ++ "QUANTITY: " ++ str_of_int (product_quantity product) ++ "  |  "
            ++ "PRICE: " ++ price ++ "  |  "
            ++ "Date Updated: " ++ strftime (date_updated product)))%m.

(** lines 79-81 *)
Definition last_product_id : M Product := query get_last.

(** [while ...: x = input(prompt) ...]: a loop that reads one line per pass.
    [body] is the rest of the pass: [Some a] leaves the loop with [a], [None]
    goes round again. It recurses on the lines still to be read; input() at
    the end of the input raises EOFError. *)
Fixpoint input_loop {A} (prompt : string) (body : string -> M (option A))
    (lines : list string) : M A :=
  fun w =>
    match lines with
    | [] => (Raise EOFError, echo prompt (set_stdin w []))
    | l :: rest =>
        match body l (echo prompt (set_stdin w rest)) with
        | (Ok (Some a), w') => (Ok a, w')
        | (Ok None, w') => input_loop prompt body rest w'
        | (Raise e, w') => (Raise e, w')
        end
    end.

Definition while_input {A} (prompt : string) (body : string -> M (option A))
    : M A :=
  fun w => input_loop prompt body (stdin w) w.

(** lines 99-105 *)
Definition back_to_menu (question : string) : M string :=
  while_input question (fun l =>
    let stay := lower l in
    if String.eqb stay "y" || String.eqb stay "n" then ret (Some stay)
    else (print (nl ++ "Invalid Entry. Please try again with 'y' or 'n'.") ;;
          ret None))%m.

(** lines 125-130 *)
Definition decimal_check (s : string) : result bool :=
  (index <- index_chr "." s ;;
   if 3 <? len (slice_from s index) then Ok false else Ok true)%py.

(** The two messages of the price loop, lines 147 and 151. *)
Definition two_decimals_message : string :=
  "Invalid entry. You may only enter up to two decimal places.".

Definition format_message : string :=
  "Invalid Entry. Enter dollar amount in the format of '$#.##'".

(** lines 146-148: what one pass of the price loop computes from the line
    typed. *)
Definition price_attempt (s : string) : result Z :=
  (ok <- decimal_check s ;;
   if negb ok
   then Raise (InputError two_decimals_message)
   else price_in_cents s)%py.

(** lines 143-153: one pass after the line is read. *)
Definition price_pass (s : string) : M (option Z) :=
  match price_attempt s with
  | Ok cents => ret (Some cents)
  | Raise ValueError =>
      (print format_message ;; ret None)%m
  | Raise (InputError err) => (print err ;; ret None)%m
  | Raise e => raise e
  end.

Definition price_prompt : string := "Enter a product price ($#.##): ".

Definition ask_product_price : M Z := while_input price_prompt price_pass.

(** lines 139-142 *)
Definition ask_product_name : M string :=
  while_input "Enter a product name: " (fun l =>
    if (String.length l =? 0)%nat
    then (print "Product Name is a required field." ;; ret None)
    else ret (Some l))%m.

(** lines 154-159 *)
Definition ask_product_quantity : M Z :=
  while_input "Enter a product quantity: " (fun l =>
    match int_of_str l with
    | Ok n => ret (Some n)
    | Raise ValueError => (print "Invalid Entry. Enter a numeric." ;; ret None)
    | Raise e => raise e
    end)%m.

(** lines 172-184 *)
Definition ask_update (new_product_details : dict) (existing_product : Product)
    : M unit :=
  while_input
    "Do you want to update this product with the details you entered? (y/n): "
    (fun l =>
       let update := lower l in
       if String.eqb update "y" then
         (update_duplicate new_product_details existing_product ;;
          print (nl ++ "This product has been updated in the database.") ;;
          print_product_details (product_id existing_product) ;;
          ret (Some tt))
       else if String.eqb update "n" then
         (print "This product was not updated in the database." ;;
          ret (Some tt))
       else (print (nl ++ "Invalid entry. Please try again") ;; ret None))%m.

(** lines 136-189: one pass of the outer [while True]; [today] is
    [datetime.now()] cut to midnight. The result tells whether the loop goes
    on. *)
Definition add_new_product_pass (today : datetime) : M bool :=
  (print_heading "Add A New Product" ;;
   name <- ask_product_name ;;
   price <- ask_product_price ;;
   quantity <- ask_product_quantity ;;
   let new_product_details := mk_dict name (VInt quantity) price today in
   try_except
     (add_entry new_product_details ;;
      print (nl ++ "This product has been added to the database.") ;;
      last <- last_product_id ;;
      print_product_details (product_id last) ;;
      stay <- back_to_menu
                (nl ++ "Would you like to add another product (y/n): ") ;;
      ret (negb (String.eqb stay "n")))
     is_IntegrityError
     (existing_product <- query (get_by_name name) ;;
      (if datetime_geb today (date_updated existing_product)
       then
         (print (nl ++ "A product with this name already exists:") ;;
          print_product_details (product_id existing_product) ;;
          ask_update new_product_details existing_product)
       else
         print ("A product with the same name was added with a more recent "
                  ++ "Updated Date. Therefore, your entry was not added.")) ;;
      stay <- back_to_menu "Would you like to add another product (y/n): " ;;
      ret (negb (String.eqb stay "n"))))%m.

(** lines 133-189: the loop; [clock] gives the day of each pass. The call of
    [menu_loop] that follows the loop is not part of the model. The result is
    [false] when the clock readings ran out before the user left the loop. *)
Fixpoint add_new_product (clock : list datetime) : M bool :=
  match clock with
  | [] => ret false
  | today :: later =>
      (again <- add_new_product_pass today ;;
       if again then add_new_product later else ret true)%m
  end.

(** lines 207-212: the dictionary written for one product. *)
Definition backup_row (product : Product) : result csv_row :=
  (price <- render_price (product_price product) ;;
   Ok (mk_csv_row (product_name product)
         (str_of_int (product_quantity product))
         price
         (strftime (date_updated product))))%py.

Definition backup_fieldnames : list string :=
  ["product_name"; "product_price"; "product_quantity"; "date_updated"].

(** lines 206-212: the [for] loop over [Product.select()]. *)
Fixpoint write_rows (products : list Product) : M unit :=
  match products with
  | [] => ret tt
  | product :: rest =>
      (row <- lift (backup_row product) ;;
       (fun w =>
          match backup_inventory w with
          | Some f =>
              (Ok tt, set_backup w
                        (mk_csv_file (fieldnames f) (rows f ++ [row])%list))
          | None => (Ok tt, w)
          end) ;;
       write_rows rest)%m
  end.

(** lines 193-213; the call of [menu_loop] at the end is not part of the
    model. *)
Definition backup_database : M unit :=
  (print_heading "Inventory Backup" ;;
   (fun w => (Ok tt, set_backup w (mk_csv_file backup_fieldnames []))) ;;
   products <- (fun w => (Ok (db w), w)) ;;
   write_rows products ;;
   print "A backup inventory file has been created.")%m.

(* ------------------------------------------------------------------------- *)
(** ** Predicates used to state the properties *)

(** One row per product name. *)
Definition unique_names (t : table) : Prop := NoDup (map product_name t).

(** The table is in rowid order and no id occurs twice. *)
Definition ids_ascending (t : table) : Prop :=
  StronglySorted Z.lt (map product_id t).

Definition table_ok (t : table) : Prop := unique_names t /\ ids_ascending t.

(** [m] keeps the property [I] of the table, however it ends. *)
Definition preserves {A} (I : table -> Prop) (m : M A) : Prop :=
  forall w, I (db w) -> I (db (snd (m w))).

(** The row [existing] after [update_duplicate] took quantity, price and date
    from an incoming record. *)
Definition updated (existing : Product) (quantity price : Z) (date : datetime)
    : Product :=
  mk_Product (product_id existing) (product_name existing) quantity price date.

(** The table after the row with the id of [p] was overwritten by [p]. *)
Definition overwrite (p : Product) (t : table) : table :=
  map (fun r => if product_id r =? product_id p then p else r) t.

(** [float(100)] and the literal [.01], as binary64 numbers. *)
Definition f100 : float := F_fin false 7036874417766400 (-46).
Definition f001 : float := F_fin false 5764607523034235 (-59).

(** The number a run of digits stands for (0 for the empty run). *)
Definition num (s : string) : Z :=
  match digits_acc s 0 with
  | Some v => v
  | None => 0
  end.

(** A price written with at most two decimals: an optional "$", the dollars
    [ip], and optionally a point followed by the decimals [fp]. *)
Definition price_text (dollar : bool) (ip : string) (frac : option string)
    : string :=
  (if dollar then "$" else "")
    ++ ip
    ++ match frac with
       | Some fp => "." ++ fp
       | None => ""
       end.

(** The characters of such a text after the "$": digits and the point. *)
Definition plain (c : ascii) : bool := is_digit c || chr_eqb c ".".

(** The cents that text stands for, as a number. *)
Definition exact_cents (ip : string) (frac : option string) : Z :=
  match frac with
  | Some fp => 100 * num ip + num fp * 10 ^ (2 - len fp)
  | None => 100 * num ip
  end.

(** What a product is, its id apart. *)
Definition record_of (p : Product) : string * Z * Z * datetime :=
  (product_name p, product_quantity p, product_price p, date_updated p).

(** A calendar date from the year 1000 on. *)
Definition valid_date (d : datetime) : bool :=
  (1000 <=? year d) && (year d <=? 9999)
  && (1 <=? month d) && (month d <=? 12)
  && (1 <=? day d) && (day d <=? days_in_month (year d) (month d)).

(** A stored product with a price that is not negative. The columns hold
    64-bit integers. *)
Definition stored_ok (p : Product) : bool :=
  (0 <=? product_price p) && fits_int64 (product_price p)
  && fits_int64 (product_quantity p) && valid_date (date_updated p).


Definition two_digit_text (s : string) : bool :=
  match s with
  | String a (String b EmptyString) => is_digit a && is_digit b
  | _ => false
  end.

Definition four_digit_text (s : string) : bool :=
  (String.length s =? 4)%nat && all_chars is_digit s.

(** The layout MM/DD/YYYY. *)
Definition date_text (s : string) : bool :=
  match s with
  | String a (String b (String s1 (String c (String d (String s2 y))))) =>
      is_digit a && is_digit b && chr_eqb s1 "/"
      && is_digit c && is_digit d && chr_eqb s2 "/"
      && four_digit_text y
  | _ => false
  end.

(** [P] holds of [lo], [lo + 1], ..., [lo + n - 1]. *)
Fixpoint holds_from (P : Z -> bool) (lo : Z) (n : nat) : bool :=
  match n with
  | O => true
  | S n' => P lo && holds_from P (lo + 1) n'
  end.

(** *** Sample data *)

Definition empty_world : world := mk_world [] [] [] None.

Definition widget_2020 : csv_row :=
  mk_csv_row "Widget" "10" "$5.00" "01/01/2020".
Definition widget_2021 : csv_row :=
  mk_csv_row "Widget" "20" "$6.00" "01/02/2021".
Definition gadget : csv_row := mk_csv_row "Gadget" "3" "$2.50" "03/15/2020".
Definition bad_price : csv_row := mk_csv_row "Sprocket" "4" "$x.yz" "03/16/2020".
Definition gizmo : csv_row := mk_csv_row "Gizmo" "7" "$1.25" "03/17/2020".
Definition doohickey : csv_row :=
  mk_csv_row "Doohickey" "1" "$9.99" "03/18/2020".
Definition three_decimals : csv_row :=
  mk_csv_row "Thingamajig" "2" "$12.345" "03/19/2020".

Definition big_price : csv_row :=
  mk_csv_row "Yacht" "1" "$52542922533879.87" "03/20/2020".

(** A table of two products. *)
Definition stocked_world : world :=
  mk_world [mk_Product 1 "Widget" 10 500 (mk_datetime 2020 1 1);
            mk_Product 2 "Gadget" 3 250 (mk_datetime 2020 3 15)]
    [] [] None.

(** The table after [widget_2020] was imported into an empty one. *)
Definition widget_world : world :=
  mk_world [mk_Product 1 "Widget" 10 500 (mk_datetime 2020 1 1)] [] [] None.

(** *** The layouts of the backup file

    The layouts $#.## and MM/DD/YYYY written out digit by digit, to compare
    what [backup_database] writes with. *)

(** The character of the digit [n], [0 <= n <= 9]. *)
Definition digit_char (n : Z) : ascii := ascii_of_N (Z.to_N (48 + n)).

(** [n] in two digits, [0 <= n < 100]. *)
Definition two_digit (n : Z) : string :=
  String (digit_char (n / 10)) (String (digit_char (n mod 10)) EmptyString).

(** [n] in four digits, [0 <= n < 10000]. *)
Definition four_digit (n : Z) : string :=
  String (digit_char (n / 1000))
    (String (digit_char (n / 100 mod 10))
       (String (digit_char (n / 10 mod 10))
          (String (digit_char (n mod 10)) EmptyString))).


(** MM/DD/YYYY: month, day and year in this order, in two, two and four
    digits. *)
Definition layout_date (d : datetime) : string :=
  two_digit (month d) ++ "/" ++ two_digit (day d) ++ "/"
    ++ four_digit (year d).

(** Two rows that [add_csv] stores: a negative price, and a year below
    1000. *)
Definition refund : csv_row := mk_csv_row "Refund" "1" "$-0.05" "01/01/2020".

(** The table after [widget_2020], [refund] and [antique] were imported into
    an empty one. *)
Definition mixed_world : world :=
  mk_world [mk_Product 1 "Widget" 10 500 (mk_datetime 2020 1 1);
            mk_Product 2 "Refund" 1 (-5) (mk_datetime 2020 1 1);
            mk_Product 3 "Antique" 1 500 (mk_datetime 999 1 1)]
    [] [] None.

(** *** Changes of the table *)

(** The ids are 1, 2, ..., n in table order. *)
Definition dense_ids (t : table) : Prop :=
  map product_id t = map Z.of_nat (seq 1 (List.length t)).

(** One change of the table: a product appended under a name that is not
    stored, with the next id; or the quantity, price and date of a stored
    product overwritten, the date being no earlier than the one it had. *)
Inductive step (t : table) : table -> Prop :=
| step_insert (name : string) (quantity price : Z) (date : datetime) :
    has_name name t = false ->
    fits_int64 quantity = true -> fits_int64 price = true ->
    step t (t ++ [mk_Product (next_id t) name quantity price date])%list
| step_update (existing : Product) (quantity price : Z) (date : datetime) :
    In existing t ->
    datetime_geb date (date_updated existing) = true ->
    fits_int64 quantity = true -> fits_int64 price = true ->
    step t (overwrite (updated existing quantity price date) t).

(** Any number of such changes, one after the other. *)
Inductive steps (t : table) : table -> Prop :=
| steps_none : steps t t
| steps_more (t1 t2 : table) : steps t t1 -> step t1 t2 -> steps t t2.

(** [t'] has the products of [t] in the same places, each with the id and
    the name it had and a date no earlier, and possibly more products after
    them. *)
Definition grown (t t' : table) : Prop :=
  exists kept added,
    t' = (kept ++ added)%list
    /\ Forall2 (fun old new =>
                  product_id new = product_id old
                  /\ product_name new = product_name old
                  /\ datetime_geb (date_updated new) (date_updated old) = true)
         t kept.

(** [m] leaves the table alone and does not raise IntegrityError. *)
Definition quiet {A} (m : M A) : Prop :=
  forall w,
    db (snd (m w)) = db w
    /\ forall e, fst (m w) = Raise e -> is_IntegrityError e = false.

(** The terminal with [lines] still to be read, over the table of two
    products. *)
Definition typing (lines : list string) : world :=
  set_stdin stocked_world lines.

(** A row that [add_csv] can store: date and price convert, the quantity is
    the text of an int, and both numbers fit the 64-bit columns. *)
Definition importable (row : csv_row) : bool :=
  match convert_row row, int_of_str (csv_product_quantity row) with
  | Ok d, Ok quantity =>
      fits_int64 quantity && fits_int64 (d_product_price d)
  | _, _ => false
  end.

(** [m] acts on the table only: nothing is read, printed or written to the
    backup file. *)
Definition silent {A} (m : M A) : Prop :=
  forall w, exists t, snd (m w) = set_db w t.

(** What a row of the file does to the stored product [r] when its name is
    stored: a product of that name with a date that is not later takes the
    row's quantity, price and date; every other product stays. *)
Definition touched_by (row : csv_row) (r : Product) : Product :=
  match convert_row row, int_of_str (csv_product_quantity row) with
  | Ok d, Ok quantity =>
      if String.eqb (product_name r) (d_product_name d)
         && datetime_geb (d_date_updated d) (date_updated r)
      then updated r quantity (d_product_price d) (d_date_updated d)
      else r
  | _, _ => r
  end.

(** The product [r] after the rows of [inventory] in turn. *)
Definition touched_by_all (inventory : list csv_row) (r : Product) : Product :=
  fold_left (fun r row => touched_by row r) inventory r.

(* ------------------------------------------------------------------------- *)
(** ** The table *)

Section TableFacts.

Lemma has_name_In (name : string) (t : table) :
  has_name name t = true <-> In name (map product_name t).
Proof.
  unfold has_name. rewrite existsb_exists, in_map_iff.
  split; intros [p [H1 H2]]; exists p.
  - apply String.eqb_eq in H2. tauto.
  - split; [tauto | apply String.eqb_eq; tauto].
Qed.

Lemma get_by_name_found (name : string) (t : table) (p : Product) :
  get_by_name name t = Ok p -> In p t /\ product_name p = name.
Proof.
  unfold get_by_name.
  destruct (find _ t) as [q |] eqn:F; simpl; intros E; inversion E; subst.
  apply find_some in F. destruct F as [F1 F2].
  apply String.eqb_eq in F2. tauto.
Qed.

Lemma get_by_name_has_name (name : string) (t : table) (p : Product) :
  get_by_name name t = Ok p -> has_name name t = true.
Proof.
  intros H. apply get_by_name_found in H. destruct H as [H1 H2].
  apply has_name_In. rewrite <- H2. now apply in_map.
Qed.

Lemma fold_max_ge (l : list Z) (a : Z) :
  a <= fold_left Z.max l a /\ forall x, In x l -> x <= fold_left Z.max l a.
Proof.
  revert a. induction l as [| y l IH]; intros a; simpl.
  - split; [lia | tauto].
  - destruct (IH (Z.max a y)) as [H1 H2]. split; [lia |].
    intros x [-> | Hx]; [lia | now apply H2].
Qed.

Lemma next_id_above (t : table) (p : Product) :
  In p t -> product_id p < next_id t.
Proof.
  destruct t as [| q t]; [intros [] |].
  unfold next_id.
  destruct (fold_max_ge (map product_id t) (product_id q)) as [H1 H2].
  intros [E | Hp]; [subst; lia |].
  specialize (H2 (product_id p) (in_map product_id _ _ Hp)). lia.
Qed.

Lemma ids_ascending_snoc (t : table) (p : Product) :
  ids_ascending t -> (forall q, In q t -> product_id q < product_id p) ->
  ids_ascending (t ++ [p])%list.
Proof.
  unfold ids_ascending. induction t as [| a t IH]; simpl; intros S H.
  - constructor; constructor.
  - inversion S as [| ? ? S1 S2]; subst. constructor.
    + apply IH; auto.
    + rewrite map_app, Forall_app. split; [assumption |].
      constructor; [| constructor]. simpl. apply H. now left.
Qed.

Lemma ids_ascending_NoDup (t : table) :
  ids_ascending t -> NoDup (map product_id t).
Proof.
  unfold ids_ascending. induction (map product_id t) as [| a l IH]; intros S.
  - constructor.
  - inversion S as [| ? ? S1 S2]; subst. constructor; auto.
    intros Hin. rewrite Forall_forall in S2. specialize (S2 _ Hin). lia.
Qed.

Lemma create_table_ok name quantity price date (t t' : table) :
  table_ok t -> create name quantity price date t = Ok t' -> table_ok t'.
Proof.
  unfold create. intros [U S].
  destruct (negb _); [discriminate |].
  destruct (has_name name t) eqn:N; [discriminate |].
  intros E; inversion E; subst; clear E. split.
  - unfold unique_names. rewrite map_app. simpl.
    apply NoDup_app_remove_l with (l := []). simpl.
    apply (Permutation.Permutation_NoDup (l := name :: map product_name t)).
    + apply Permutation.Permutation_cons_append.
    + constructor; [| exact U].
      intros Hin. apply has_name_In in Hin. congruence.
  - apply ids_ascending_snoc; [exact S |]. simpl. apply next_id_above.
Qed.

(** The rows of [save p t] have the ids of [t], in the same order. *)
Lemma save_ids (p : Product) (t t' : table) :
  save p t = Ok t' -> map product_id t' = map product_id t.
Proof.
  unfold save. destruct (negb _); [discriminate |].
  destruct (existsb _ t); [discriminate |].
  intros E; inversion E; subst; clear E.
  rewrite map_map. apply map_ext_in. intros r _.
  destruct (product_id r =? product_id p) eqn:Q; [| reflexivity].
  apply Z.eqb_eq in Q. congruence.
Qed.

Lemma save_table_ok (p : Product) (t t' : table) :
  table_ok t -> save p t = Ok t' -> table_ok t'.
Proof.
  intros [U S] H. split.
  2:{ unfold ids_ascending. rewrite (save_ids _ _ _ H). exact S. }
  apply ids_ascending_NoDup in S.
  unfold save in H. destruct (negb _); [discriminate |].
  destruct (existsb _ t) eqn:X; [discriminate |].
  inversion H; subst; clear H.
  assert (X' : forall r, In r t -> product_id r <> product_id p ->
                         product_name r <> product_name p).
  { intros r Hr Hid Hn.
    assert (Hex : existsb (fun r => String.eqb (product_name r) (product_name p)
                            && negb (product_id r =? product_id p)) t = true).
    { apply existsb_exists. exists r. split; [exact Hr |].
      rewrite Hn, String.eqb_refl. simpl.
      apply negb_true_iff, Z.eqb_neq. exact Hid. }
    congruence. }
  clear X. unfold unique_names in *.
  induction t as [| a t IH]; simpl in *; [constructor |].
  inversion U as [| ? ? U1 U2]; subst. inversion S as [| ? ? S1 S2]; subst.
  constructor.
  - rewrite in_map_iff. intros [r' [E Hin]].
    apply in_map_iff in Hin. destruct Hin as [r [Er Hr]].
    destruct (product_id a =? product_id p) eqn:Qa;
      destruct (product_id r =? product_id p) eqn:Qr; subst r'.
    + apply Z.eqb_eq in Qa, Qr. apply S1. rewrite Qa, <- Qr.
      now apply in_map.
    + apply Z.eqb_neq in Qr. apply (X' r); auto.
    + apply Z.eqb_neq in Qa. apply (X' a); auto.
    + apply U1. rewrite <- E. now apply in_map.
  - apply IH; auto.
Qed.

End TableFacts.

(* ------------------------------------------------------------------------- *)
(** ** Properties kept by every computation *)

Section Preservation.

Variable I : table -> Prop.

Lemma preserves_ret {A} (a : A) : preserves I (ret a).
Proof. intros w H. exact H. Qed.

Lemma preserves_raise {A} (e : exn) : preserves I (@raise A e).
Proof. intros w H. exact H. Qed.

Lemma preserves_lift {A} (r : result A) : preserves I (lift r).
Proof. intros w H. exact H. Qed.

Lemma preserves_print (s : string) : preserves I (print s).
Proof. intros w H. exact H. Qed.

Lemma preserves_query {A} (f : table -> result A) : preserves I (query f).
Proof. intros w H. exact H. Qed.

Lemma preserves_same_db {A} (m : M A) :
  (forall w, db (snd (m w)) = db w) -> preserves I m.
Proof. intros E w H. now rewrite E. Qed.

Lemma preserves_bind {A B} (m : M A) (k : A -> M B) :
  preserves I m -> (forall a, preserves I (k a)) -> preserves I (bind m k).
Proof.
  intros Hm Hk w H. unfold bind. specialize (Hm w H).
  destruct (m w) as [[a | e] w']; simpl in *; [now apply Hk | exact Hm].
Qed.

Lemma preserves_try_except {A} (m h : M A) (handles : exn -> bool) :
  preserves I m -> preserves I h -> preserves I (try_except m handles h).
Proof.
  intros Hm Hh w H. unfold try_except. specialize (Hm w H).
  destruct (m w) as [[a | e] w']; simpl in *; [exact Hm |].
  destruct (handles e); [now apply Hh | exact Hm].
Qed.

Lemma preserves_execute (f : table -> result table) :
  (forall t t', I t -> f t = Ok t' -> I t') -> preserves I (execute f).
Proof.
  intros Hf w H. unfold execute.
  destruct (f (db w)) as [t' |] eqn:E; simpl; [| exact H].
  now apply (Hf (db w)).
Qed.

Lemma preserves_input_loop {A} (prompt : string)
    (body : string -> M (option A)) (lines : list string) :
  (forall l, preserves I (body l)) -> preserves I (input_loop prompt body lines).
Proof.
  intros Hb. induction lines as [| l rest IH]; intros w H; simpl; [exact H |].
  specialize (Hb l (echo prompt (set_stdin w rest)) H).
  destruct (body l _) as [[[a |] | e] w']; simpl in *; auto.
Qed.

Lemma preserves_while_input {A} (prompt : string)
    (body : string -> M (option A)) :
  (forall l, preserves I (body l)) -> preserves I (while_input prompt body).
Proof.
  intros Hb w H. unfold while_input. now apply preserves_input_loop.
Qed.

Lemma preserves_if {A} (b : bool) (m1 m2 : M A) :
  preserves I m1 -> preserves I m2 -> preserves I (if b then m1 else m2).
Proof. destruct b; auto. Qed.

End Preservation.

Create HintDb pres.
#[local] Hint Resolve preserves_ret preserves_raise preserves_lift
  preserves_print preserves_query preserves_bind preserves_try_except
  preserves_while_input preserves_if : pres.

Ltac pres := repeat (intro || eauto with pres || apply preserves_bind
                     || apply preserves_try_except || apply preserves_if
                     || apply preserves_while_input).

Section TableOkKept.

Lemma add_entry_table_ok (dictionary : dict) :
  preserves table_ok (add_entry dictionary).
Proof.
  unfold add_entry. apply preserves_bind; [apply preserves_lift |].
  intros q. apply preserves_execute. intros t t' H E.
  exact (create_table_ok _ _ _ _ _ _ H E).
Qed.

Lemma update_duplicate_table_ok (dictionary : dict) (existing : Product) :
  preserves table_ok (update_duplicate dictionary existing).
Proof.
  unfold update_duplicate. apply preserves_bind; [apply preserves_lift |].
  intros q. apply preserves_execute. intros t t' H E.
  exact (save_table_ok _ _ _ H E).
Qed.

Lemma reconcile_table_ok (row : dict) : preserves table_ok (reconcile row).
Proof.
  unfold reconcile. apply preserves_try_except; [apply add_entry_table_ok |].
  apply preserves_bind; [apply preserves_query |]. intros p.
  apply preserves_if; [apply update_duplicate_table_ok | apply preserves_ret].
Qed.

Lemma add_csv_row_table_ok (row : csv_row) :
  preserves table_ok (add_csv_row row).
Proof.
  unfold add_csv_row. apply preserves_bind; [apply preserves_lift |].
  intros d. apply reconcile_table_ok.
Qed.

Lemma add_csv_table_ok (inventory : list csv_row) :
  preserves table_ok (add_csv inventory).
Proof.
  induction inventory as [| row rest IH]; simpl.
  - apply preserves_ret.
  - apply preserves_bind; [apply add_csv_row_table_ok | intros _; exact IH].
Qed.

Lemma print_heading_keeps (I : table -> Prop) (heading : string) :
  preserves I (print_heading heading).
Proof. unfold print_heading. pres. Qed.

Lemma print_product_details_keeps (I : table -> Prop) (id : Z) :
  preserves I (print_product_details id).
Proof. unfold print_product_details. pres. Qed.

Lemma back_to_menu_keeps (I : table -> Prop) (question : string) :
  preserves I (back_to_menu question).
Proof.
  unfold back_to_menu. apply preserves_while_input. intros l.
  destruct (_ || _); pres.
Qed.

Lemma price_pass_keeps (I : table -> Prop) (s : string) :
  preserves I (price_pass s).
Proof.
  unfold price_pass. destruct (price_attempt s) as [c | []]; pres.
Qed.

Lemma ask_update_table_ok (details : dict) (existing : Product) :
  preserves table_ok (ask_update details existing).
Proof.
  unfold ask_update. apply preserves_while_input. intros l.
  destruct (String.eqb (lower l) "y").
  - apply preserves_bind; [apply update_duplicate_table_ok |]. intros _.
    apply preserves_bind; [apply preserves_print |]. intros _.
    apply preserves_bind; [apply print_product_details_keeps |]. intros _.
    apply preserves_ret.
  - destruct (String.eqb (lower l) "n"); pres.
Qed.

Lemma add_new_product_pass_table_ok (today : datetime) :
  preserves table_ok (add_new_product_pass today).
Proof.
  unfold add_new_product_pass.
  apply preserves_bind; [apply print_heading_keeps |]. intros _.
  apply preserves_bind.
  { unfold ask_product_name. apply preserves_while_input. intros l.
    destruct (_ =? _)%nat; pres. }
  intros name. apply preserves_bind.
  { unfold ask_product_price. apply preserves_while_input.
    intros l. apply price_pass_keeps. }
  intros price. apply preserves_bind.
  { unfold ask_product_quantity. apply preserves_while_input. intros l.
    destruct (int_of_str l) as [n | []]; pres. }
  intros quantity. apply preserves_try_except.
  - apply preserves_bind; [apply add_entry_table_ok |]. intros _.
    apply preserves_bind; [apply preserves_print |]. intros _.
    apply preserves_bind; [apply preserves_query |]. intros last.
    apply preserves_bind; [apply print_product_details_keeps |]. intros _.
    apply preserves_bind; [apply back_to_menu_keeps |]. intros stay.
    apply preserves_ret.
  - apply preserves_bind; [apply preserves_query |]. intros existing.
    apply preserves_bind.
    + apply preserves_if.
      * apply preserves_bind; [apply preserves_print |]. intros _.
        apply preserves_bind; [apply print_product_details_keeps |]. intros _.
        apply ask_update_table_ok.
      * apply preserves_print.
    + intros _. apply preserves_bind; [apply back_to_menu_keeps |].
      intros stay. apply preserves_ret.
Qed.

Lemma add_new_product_table_ok (clock : list datetime) :
  preserves table_ok (add_new_product clock).
Proof.
  induction clock as [| today later IH]; simpl.
  - apply preserves_ret.
  - apply preserves_bind; [apply add_new_product_pass_table_ok |].
    intros again. apply preserves_if; [exact IH | apply preserves_ret].
Qed.

End TableOkKept.

(* ------------------------------------------------------------------------- *)
(** ** Reconciliation of a row with the table (lines 54-61) *)

Section Reconcile.

Ltac bool_to_prop :=
  repeat match goal with
    | H : _ && _ = true |- _ => apply andb_true_iff in H; destruct H
    | H : _ || _ = true |- _ => apply orb_true_iff in H
    | H : _ || _ = false |- _ => apply orb_false_iff in H; destruct H
    | H : _ && _ = false |- _ => apply andb_false_iff in H
    | H : negb _ = true |- _ => apply negb_true_iff in H
    | H : negb _ = false |- _ => apply negb_false_iff in H
    | H : (_ <? _) = true |- _ => apply Z.ltb_lt in H
    | H : (_ <? _) = false |- _ => apply Z.ltb_ge in H
    | H : (_ =? _) = true |- _ => apply Z.eqb_eq in H
    | H : (_ =? _) = false |- _ => apply Z.eqb_neq in H
    end.

Lemma datetime_ltb_spec (a b : datetime) :
  datetime_ltb a b = true <->
  year a < year b
  \/ (year a = year b
      /\ (month a < month b \/ (month a = month b /\ day a < day b))).
Proof.
  unfold datetime_ltb.
  rewrite !orb_true_iff, !andb_true_iff, !orb_true_iff, !andb_true_iff,
    !Z.ltb_lt, !Z.eqb_eq.
  reflexivity.
Qed.

Lemma datetime_ltb_geb (a b : datetime) :
  datetime_ltb b a = true -> datetime_geb a b = true.
Proof.
  unfold datetime_geb. intros H. apply negb_true_iff.
  destruct (datetime_ltb a b) eqn:E; [| reflexivity].
  apply datetime_ltb_spec in H, E. lia.
Qed.

Lemma datetime_eqb_geb (a b : datetime) :
  datetime_eqb a b = true -> datetime_geb a b = true.
Proof.
  unfold datetime_eqb, datetime_geb, datetime_ltb. intros H. bool_to_prop.
  apply negb_true_iff. rewrite H, H1, H0, !Z.ltb_irrefl, !Z.eqb_refl.
  reflexivity.
Qed.

Lemma NoDup_map_eq {A B} (f : A -> B) (l : list A) (x y : A) :
  NoDup (map f l) -> In x l -> In y l -> f x = f y -> x = y.
Proof.
  induction l as [| a l IH]; simpl; intros N Hx Hy E; [tauto |].
  inversion N as [| ? ? N1 N2]; subst.
  destruct Hx as [-> | Hx]; destruct Hy as [-> | Hy]; auto.
  - exfalso. apply N1. rewrite E. now apply in_map.
  - exfalso. apply N1. rewrite <- E. now apply in_map.
Qed.

(** In a table with one row per name, no other row has the name of a row. *)
Lemma no_other_row_named (t : table) (p : Product) :
  unique_names t -> In p t ->
  existsb (fun r => String.eqb (product_name r) (product_name p)
                    && negb (product_id r =? product_id p)) t = false.
Proof.
  intros U Hp. destruct (existsb _ t) eqn:X; [| reflexivity]. exfalso.
  apply existsb_exists in X. destruct X as [r [Hr H]].
  apply andb_true_iff in H. destruct H as [H1 H2].
  apply String.eqb_eq in H1. apply negb_true_iff, Z.eqb_neq in H2.
  apply H2. now rewrite (NoDup_map_eq product_name t r p U Hr Hp H1).
Qed.

Lemma find_overwrite (t : table) (existing p : Product) :
  ids_ascending t -> In existing t ->
  product_id p = product_id existing ->
  product_name p = product_name existing ->
  forall name,
    find (fun r => String.eqb (product_name r) name) (overwrite p t)
    = option_map (fun r => if product_id r =? product_id p then p else r)
        (find (fun r => String.eqb (product_name r) name) t).
Proof.
  intros S Hin Eid Ename name. apply ids_ascending_NoDup in S.
  assert (K : forall r, In r t -> product_id r = product_id p ->
                        product_name r = product_name p).
  { intros r Hr E. rewrite Eid in E.
    now rewrite (NoDup_map_eq product_id t r existing S Hr Hin E). }
  clear Hin S. unfold overwrite.
  induction t as [| a t IH]; simpl; [reflexivity |].
  destruct (product_id a =? product_id p) eqn:Q.
  - apply Z.eqb_eq in Q. rewrite <- (K a (or_introl eq_refl) Q).
    destruct (String.eqb (product_name a) name); simpl.
    + now rewrite (proj2 (Z.eqb_eq _ _) Q).
    + apply IH. intros r Hr. apply K. now right.
  - destruct (String.eqb (product_name a) name); simpl.
    + now rewrite Q.
    + apply IH. intros r Hr. apply K. now right.
Qed.

(** A row with the name of a stored product and a date that is not older:
    the stored product is overwritten. *)
Lemma reconcile_overwrites (w : world) (row : dict) (existing : Product)
    (quantity : Z) :
  table_ok (db w) ->
  int (d_product_quantity row) = Ok quantity ->
  fits_int64 quantity = true ->
  fits_int64 (d_product_price row) = true ->
  get_by_name (d_product_name row) (db w) = Ok existing ->
  datetime_geb (d_date_updated row) (date_updated existing) = true ->
  reconcile row w
  = (Ok tt,
     set_db w (overwrite (updated existing quantity (d_product_price row)
                            (d_date_updated row)) (db w))).
Proof.
  intros [U S] Hq Fq Fp G D.
  pose proof (get_by_name_has_name _ _ _ G) as N.
  pose proof (get_by_name_found _ _ _ G) as [Hin Hname].
  unfold reconcile, try_except, add_entry, bind, lift, execute, create.
  rewrite Hq, Fq, Fp, N. simpl.
  unfold query. rewrite G, D.
  unfold update_duplicate, bind, lift, execute, save. rewrite Hq. simpl.
  rewrite Fq, Fp. simpl.
  change (mk_Product (product_id existing) (product_name existing) quantity
            (d_product_price row) (d_date_updated row))
    with (updated existing quantity (d_product_price row) (d_date_updated row)).
  pose proof (no_other_row_named (db w) existing U Hin) as X.
  unfold updated at 1 2. simpl. rewrite X. reflexivity.
Qed.

(** A row with the name of a stored product and an older date changes
    nothing. *)
Lemma reconcile_older (w : world) (row : dict) (existing : Product) :
  get_by_name (d_product_name row) (db w) = Ok existing ->
  datetime_geb (d_date_updated row) (date_updated existing) = false ->
  snd (reconcile row w) = w
  /\ (forall quantity,
        int (d_product_quantity row) = Ok quantity ->
        fits_int64 quantity = true ->
        fits_int64 (d_product_price row) = true ->
        fst (reconcile row w) = Ok tt).
Proof.
  intros G D.
  pose proof (get_by_name_has_name _ _ _ G) as N.
  unfold reconcile, try_except, add_entry, bind, lift, execute, create.
  destruct (int (d_product_quantity row)) as [q | e]; simpl.
  - destruct (fits_int64 q && fits_int64 (d_product_price row)) eqn:F; simpl.
    + rewrite N. simpl. unfold query. rewrite G, D. simpl.
      split; [reflexivity | reflexivity].
    + split; [reflexivity |]. intros q' E Fq Fp. inversion E; subst.
      rewrite Fq, Fp in F. discriminate.
  - unfold query. rewrite G, D.
    split; [destruct (is_IntegrityError e); reflexivity |].
    intros q' E. discriminate.
Qed.

End Reconcile.

Section ReconcileClaims.

Lemma find_by_id_overwrite (t : table) (p : Product) (id : Z) :
  find (fun r => product_id r =? id) (overwrite p t)
  = option_map (fun r => if product_id r =? product_id p then p else r)
      (find (fun r => product_id r =? id) t).
Proof.
  unfold overwrite. induction t as [| a t IH]; simpl; [reflexivity |].
  destruct (product_id a =? product_id p) eqn:Q.
  - apply Z.eqb_eq in Q. rewrite Q.
    destruct (product_id p =? id); simpl; [| exact IH].
    now rewrite Q, Z.eqb_refl.
  - destruct (product_id a =? id); simpl; [now rewrite Q | exact IH].
Qed.

Lemma get_by_id_stored (t : table) (p : Product) :
  ids_ascending t -> In p t -> get_by_id (product_id p) t = Ok p.
Proof.
  intros S Hin. apply ids_ascending_NoDup in S. unfold get_by_id.
  destruct (find _ t) as [r |] eqn:F; simpl.
  - apply find_some in F. destruct F as [Hr E]. apply Z.eqb_eq in E.
    now rewrite (NoDup_map_eq product_id t r p S Hr Hin E).
  - exfalso. apply (find_none _ _ F) in Hin. rewrite Z.eqb_refl in Hin.
    discriminate.
Qed.

Lemma overwrite_frame (t : table) (p : Product) :
  Forall2 (fun old new =>
             (product_id old = product_id p -> new = p)
             /\ (product_id old <> product_id p -> new = old))
    t (overwrite p t).
Proof.
  unfold overwrite. induction t as [| a t IH]; simpl; constructor; auto.
  destruct (product_id a =? product_id p) eqn:Q.
  - apply Z.eqb_eq in Q. tauto.
  - apply Z.eqb_neq in Q. tauto.
Qed.

(** C1. A row that has the name of a stored product and a date not older than
    the stored one (later, or the same day) ends with the stored product
    carrying the row's quantity, price and date: looked up by name or by id,
    the table gives the overwritten product. *)
Theorem C1_row_not_older_overwrites (w : world) (row : dict)
    (existing : Product) (quantity : Z) :
  table_ok (db w) ->
  int (d_product_quantity row) = Ok quantity ->
  fits_int64 quantity = true ->
  fits_int64 (d_product_price row) = true ->
  get_by_name (d_product_name row) (db w) = Ok existing ->
  datetime_geb (d_date_updated row) (date_updated existing) = true ->
  let after := updated existing quantity (d_product_price row)
                 (d_date_updated row) in
  fst (reconcile row w) = Ok tt
  /\ get_by_name (d_product_name row) (db (snd (reconcile row w))) = Ok after
  /\ get_by_id (product_id existing) (db (snd (reconcile row w))) = Ok after.
Proof.
  intros T Hq Fq Fp G D after.
  rewrite (reconcile_overwrites w row existing quantity T Hq Fq Fp G D).
  fold after. simpl. destruct T as [U S].
  pose proof (get_by_name_found _ _ _ G) as [Hin Hname].
  split; [reflexivity |]. split.
  - unfold get_by_name in *.
    rewrite (find_overwrite (db w) existing after S Hin eq_refl eq_refl).
    destruct (find _ (db w)) as [r |]; simpl in *; [| discriminate].
    inversion G; subst r. simpl. now rewrite Z.eqb_refl.
  - pose proof (get_by_id_stored _ _ S Hin) as GI. unfold get_by_id in *.
    rewrite find_by_id_overwrite.
    destruct (find _ (db w)) as [r |]; simpl in *; [| discriminate].
    inversion GI; subst r. simpl. now rewrite Z.eqb_refl.
Qed.

(** The tie: a row dated the same day as the stored Widget overwrites it. *)
Lemma C1_row_not_older_overwrites_witness :
  let row := mk_dict "Widget" (VStr "20") 600 (mk_datetime 2020 1 1) in
  let after := mk_Product 1 "Widget" 20 600 (mk_datetime 2020 1 1) in
  fst (reconcile row widget_world) = Ok tt
  /\ get_by_name "Widget" (db (snd (reconcile row widget_world))) = Ok after
  /\ get_by_id 1 (db (snd (reconcile row widget_world))) = Ok after.
Proof.
  intros row after.
  apply (C1_row_not_older_overwrites widget_world row
           (mk_Product 1 "Widget" 10 500 (mk_datetime 2020 1 1)) 20).
  - split.
    + unfold unique_names. simpl. constructor; [simpl; tauto | constructor].
    + unfold ids_ascending. simpl. constructor; constructor.
  - reflexivity.
  - reflexivity.
  - reflexivity.
  - reflexivity.
  - reflexivity.
Defined.

(** C3. A row that has the name of a stored product and an older date leaves
    the table, and everything else, as it was; when the row's quantity is an
    int and its numbers fit the columns, the step ends without an exception. *)
Theorem C3_older_row_changes_nothing (w : world) (row : dict)
    (existing : Product) :
  get_by_name (d_product_name row) (db w) = Ok existing ->
  datetime_ltb (d_date_updated row) (date_updated existing) = true ->
  snd (reconcile row w) = w
  /\ (forall quantity,
        int (d_product_quantity row) = Ok quantity ->
        fits_int64 quantity = true ->
        fits_int64 (d_product_price row) = true ->
        fst (reconcile row w) = Ok tt).
Proof.
  intros G L. apply (reconcile_older w row existing G).
  unfold datetime_geb. now rewrite L.
Qed.

Lemma C3_older_row_changes_nothing_witness :
  let row := mk_dict "Widget" (VStr "99") 100 (mk_datetime 2019 12 31) in
  snd (reconcile row widget_world) = widget_world
  /\ fst (reconcile row widget_world) = Ok tt.
Proof.
  intros row.
  destruct (C3_older_row_changes_nothing widget_world row
              (mk_Product 1 "Widget" 10 500 (mk_datetime 2020 1 1))
              eq_refl eq_refl) as [H1 H2].
  split; [exact H1 |].
  apply (H2 99); reflexivity.
Defined.

(** C4. A row that has the name of a stored product and a later date: the
    product with that id then has the row's quantity, price and date and its
    old name; the table has the same rows in the same places, each row with
    another id being what it was. *)
Theorem C4_newer_row_frame (w : world) (row : dict) (existing : Product)
    (quantity : Z) :
  table_ok (db w) ->
  int (d_product_quantity row) = Ok quantity ->
  fits_int64 quantity = true ->
  fits_int64 (d_product_price row) = true ->
  get_by_name (d_product_name row) (db w) = Ok existing ->
  datetime_ltb (date_updated existing) (d_date_updated row) = true ->
  exists after,
    get_by_id (product_id existing) (db (snd (reconcile row w))) = Ok after
    /\ product_id after = product_id existing
    /\ product_name after = product_name existing
    /\ product_quantity after = quantity
    /\ product_price after = d_product_price row
    /\ date_updated after = d_date_updated row
    /\ Forall2 (fun old new =>
                  (product_id old = product_id existing -> new = after)
                  /\ (product_id old <> product_id existing -> new = old))
         (db w) (db (snd (reconcile row w))).
Proof.
  intros T Hq Fq Fp G L.
  pose proof (datetime_ltb_geb _ _ L) as D.
  rewrite (reconcile_overwrites w row existing quantity T Hq Fq Fp G D).
  simpl. destruct T as [U S].
  pose proof (get_by_name_found _ _ _ G) as [Hin Hname].
  exists (updated existing quantity (d_product_price row) (d_date_updated row)).
  repeat split.
  - pose proof (get_by_id_stored _ _ S Hin) as GI. unfold get_by_id in *.
    rewrite find_by_id_overwrite.
    destruct (find _ (db w)) as [r |]; simpl in *; [| discriminate].
    inversion GI; subst r. simpl. now rewrite Z.eqb_refl.
  - apply (overwrite_frame (db w)
             (updated existing quantity (d_product_price row)
                (d_date_updated row))).
Qed.

Lemma C4_newer_row_frame_witness :
  let row := mk_dict "Widget" (VStr "20") 600 (mk_datetime 2021 1 2) in
  exists after,
    get_by_id 1 (db (snd (reconcile row widget_world))) = Ok after
    /\ product_id after = 1
    /\ product_name after = "Widget"
    /\ product_quantity after = 20
    /\ product_price after = 600
    /\ date_updated after = mk_datetime 2021 1 2
    /\ Forall2 (fun old new =>
                  (product_id old = 1 -> new = after)
                  /\ (product_id old <> 1 -> new = old))
         (db widget_world) (db (snd (reconcile row widget_world))).
Proof.
  intros row.
  apply (C4_newer_row_frame widget_world row
           (mk_Product 1 "Widget" 10 500 (mk_datetime 2020 1 1)) 20).
  - split.
    + unfold unique_names. simpl. constructor; [simpl; tauto | constructor].
    + unfold ids_ascending. simpl. constructor; constructor.
  - reflexivity.
  - reflexivity.
  - reflexivity.
  - reflexivity.
  - reflexivity.
Defined.

End ReconcileClaims.

(* ------------------------------------------------------------------------- *)
(** ** One row per product name *)

Section UniqueNames.

(** C9. From a table with one row per name, in rowid order, each of the
    operations that write to the table ([add_entry], [update_duplicate], the
    CSV import, the interactive add) ends, normally or with an exception, with
    a table of the same kind; and [add_entry] under a name that is already
    stored raises and leaves the table as it was. *)
Theorem C9_one_row_per_name (w : world) :
  table_ok (db w) ->
  (forall dictionary, table_ok (db (snd (add_entry dictionary w))))
  /\ (forall dictionary existing,
        table_ok (db (snd (update_duplicate dictionary existing w))))
  /\ (forall inventory, table_ok (db (snd (add_csv inventory w))))
  /\ (forall clock, table_ok (db (snd (add_new_product clock w))))
  /\ (forall dictionary,
        has_name (d_product_name dictionary) (db w) = true ->
        snd (add_entry dictionary w) = w
        /\ exists e, fst (add_entry dictionary w) = Raise e).
Proof.
  intros T. repeat split.
  - apply add_entry_table_ok, T.
  - apply add_entry_table_ok, T.
  - apply update_duplicate_table_ok, T.
  - apply update_duplicate_table_ok, T.
  - apply add_csv_table_ok, T.
  - apply add_csv_table_ok, T.
  - apply add_new_product_table_ok, T.
  - apply add_new_product_table_ok, T.
  - unfold add_entry, bind, lift, execute, create.
    destruct (int (d_product_quantity dictionary)); simpl; [| reflexivity].
    destruct (negb _); simpl; [reflexivity |]. now rewrite H.
  - unfold add_entry, bind, lift, execute, create.
    destruct (int (d_product_quantity dictionary)) as [q | e]; simpl;
      [| now exists e].
    destruct (negb _); simpl; [now exists OverflowError |].
    rewrite H. now exists IntegrityError.
Qed.

Lemma C9_one_row_per_name_witness :
  table_ok (db (snd (add_csv [widget_2021; gadget] widget_world)))
  /\ snd (add_entry (mk_dict "Widget" (VInt 1) 100 (mk_datetime 2022 1 1))
            widget_world) = widget_world.
Proof.
  assert (T : table_ok (db widget_world)).
  { split.
    - unfold unique_names. simpl. constructor; [simpl; tauto | constructor].
    - unfold ids_ascending. simpl. constructor; constructor. }
  destruct (C9_one_row_per_name widget_world T) as [_ [_ [H3 [_ H5]]]].
  split.
  - apply H3.
  - apply (H5 (mk_dict "Widget" (VInt 1) 100 (mk_datetime 2022 1 1))).
    reflexivity.
Defined.

End UniqueNames.

(* ------------------------------------------------------------------------- *)
(** ** The CSV import and rows that do not convert *)

Section CsvImport.

Lemma add_csv_app (before after : list csv_row) (w : world) :
  add_csv (before ++ after)%list w
  = bind (add_csv before) (fun _ => add_csv after) w.
Proof.
  revert w. induction before as [| row rest IH]; intros w; simpl.
  - reflexivity.
  - unfold bind.
    destruct (add_csv_row row w) as [[[] | e] w1]; [| reflexivity].
    rewrite IH. reflexivity.
Qed.

(** C2, as the code has it. When the rows before it went in, a row whose date
    or price does not convert ends the import with the exception of the
    conversion: the table is what the earlier rows made it and the rows after
    it are not read. *)
Theorem C2_bad_row_ends_import (before after : list csv_row) (row : csv_row)
    (w w1 : world) (e : exn) :
  add_csv before w = (Ok tt, w1) ->
  convert_row row = Raise e ->
  add_csv (before ++ row :: after)%list w = (Raise e, w1).
Proof.
  intros B C. rewrite add_csv_app. unfold bind. rewrite B. simpl.
  unfold bind, add_csv_row, bind, lift. now rewrite C.
Qed.

Lemma C2_bad_row_ends_import_witness :
  add_csv ([widget_2020; gadget] ++ bad_price :: [gizmo; doohickey])%list
    empty_world
  = (Raise ValueError, snd (add_csv [widget_2020; gadget] empty_world)).
Proof.
  apply (C2_bad_row_ends_import [widget_2020; gadget] [gizmo; doohickey]
           bad_price empty_world).
  - vm_compute. reflexivity.
  - vm_compute. reflexivity.
Defined.

(** C2 as stated fails: with a malformed price in the third of five rows the
    import raises ValueError, the fourth and fifth products are not stored,
    and the outcome differs from the import of the four good rows. *)
Lemma C2_counterexample :
  let batch := [widget_2020; gadget; bad_price; gizmo; doohickey] in
  let good := [widget_2020; gadget; gizmo; doohickey] in
  fst (add_csv batch empty_world) = Raise ValueError
  /\ has_name "Gizmo" (db (snd (add_csv batch empty_world))) = false
  /\ has_name "Doohickey" (db (snd (add_csv batch empty_world))) = false
  /\ has_name "Gizmo" (db (snd (add_csv good empty_world))) = true
  /\ add_csv batch empty_world <> add_csv good empty_world.
Proof.
  vm_compute. repeat split; try reflexivity. discriminate.
Qed.

End CsvImport.

(* ------------------------------------------------------------------------- *)
(** ** The price typed at the prompt (lines 125-130 and 143-153) *)

Section PricePrompt.

Lemma index_chr_nonneg (c : ascii) (s : string) (i : Z) :
  index_chr c s = Ok i -> 0 <= i <= len s.
Proof.
  revert i. induction s as [| d s IH]; simpl; intros i; [discriminate |].
  unfold len in *. simpl String.length. rewrite Nat2Z.inj_succ.
  destruct (chr_eqb d c).
  - intros E; inversion E; subst. lia.
  - destruct (index_chr c s) as [j |]; simpl; [| discriminate].
    intros E; inversion E; subst. specialize (IH j eq_refl). lia.
Qed.

Lemma index_chr_none (c : ascii) (s : string) :
  mem_chr c s = false -> index_chr c s = Raise ValueError.
Proof.
  induction s as [| d s IH]; simpl; [reflexivity |].
  unfold chr_eqb. rewrite (Ascii.eqb_sym c d).
  destruct (Ascii.eqb d c); simpl; [discriminate |].
  intros H. now rewrite (IH H).
Qed.

(** The first occurrence is at or before any occurrence. *)
Lemma index_chr_app (c : ascii) (a b : string) :
  exists i, index_chr c (a ++ String c b) = Ok i /\ 0 <= i <= len a.
Proof.
  induction a as [| d a IH]; simpl.
  - unfold chr_eqb. rewrite Ascii.eqb_refl. exists 0.
    split; [reflexivity | unfold len; simpl; lia].
  - unfold len in *. simpl String.length. rewrite Nat2Z.inj_succ.
    destruct (chr_eqb d c); [exists 0; split; [reflexivity | lia] |].
    destruct IH as [i [E Hi]]. rewrite E. simpl. exists (i + 1).
    split; [reflexivity | lia].
Qed.

Lemma length_substring (s : string) (n m : nat) :
  (n + m <= String.length s)%nat -> String.length (substring n m s) = m.
Proof.
  revert n m. induction s as [| c s IH]; intros n m H; simpl in *.
  - assert (n = 0%nat) by lia. assert (m = 0%nat) by lia. subst. reflexivity.
  - destruct n as [| n].
    + destruct m as [| m]; [reflexivity |]. simpl. f_equal. apply IH. lia.
    + apply IH. lia.
Qed.

Lemma len_slice_from (s : string) (i : Z) :
  0 <= i <= len s -> len (slice_from s i) = len s - i.
Proof.
  unfold len, slice_from. intros H. rewrite length_substring; lia.
Qed.

Lemma len_app (a b : string) : len (a ++ b) = len a + len b.
Proof.
  unfold len. induction a as [| c a IH]; simpl String.length; [reflexivity |].
  rewrite !Nat2Z.inj_succ. simpl in IH. lia.
Qed.

(** C10. A line without a point typed at the price prompt is never taken as
    a price: [decimal_check] raises ValueError at [index], the format message
    is printed and the prompt is shown again for the next line. So a line that
    is taken contains a point. *)
Theorem C10_no_point_asks_again (s : string) (rest : list string) (w : world) :
  mem_chr "." s = false ->
  price_attempt s = Raise ValueError
  /\ (forall cents, price_attempt s <> Ok cents)
  /\ price_pass s w = (Ok None, echo format_message w)
  /\ ask_product_price (set_stdin w (s :: rest))
     = ask_product_price
         (echo format_message (echo price_prompt (set_stdin w rest))).
Proof.
  intros H.
  assert (E : price_attempt s = Raise ValueError).
  { unfold price_attempt, decimal_check. now rewrite (index_chr_none _ _ H). }
  assert (P : forall w', price_pass s w' = (Ok None, echo format_message w')).
  { intros w'. unfold price_pass. rewrite E. reflexivity. }
  split; [exact E |]. split; [intros c; rewrite E; discriminate |].
  split; [apply P |].
  unfold ask_product_price, while_input. simpl. now rewrite P.
Qed.

Lemma C10_no_point_asks_again_witness :
  price_attempt "$5" = Raise ValueError
  /\ (forall cents, price_attempt "$5" <> Ok cents)
  /\ price_pass "$5" empty_world = (Ok None, echo format_message empty_world)
  /\ ask_product_price (set_stdin empty_world ["$5"; "5"; "5.00"])
     = ask_product_price
         (echo format_message
            (echo price_prompt (set_stdin empty_world ["5"; "5.00"]))).
Proof.
  apply (C10_no_point_asks_again "$5" ["5"; "5.00"] empty_world).
  reflexivity.
Defined.

(** C5, as the code has it. At the price prompt a line with more than two
    characters after a point is refused before any conversion: InputError
    with the two-decimals message, which is printed, and the loop goes round
    again. *)
Theorem C5_prompt_refuses_third_decimal (a b : string) (w : world) :
  (2 < String.length b)%nat ->
  price_attempt (a ++ "." ++ b) = Raise (InputError two_decimals_message)
  /\ price_pass (a ++ "." ++ b) w = (Ok None, echo two_decimals_message w).
Proof.
  intros H.
  assert (E : price_attempt (a ++ "." ++ b)
              = Raise (InputError two_decimals_message)).
  { unfold price_attempt, decimal_check.
    destruct (index_chr_app "." a b) as [i [Ei Hi]].
    change ("." ++ b) with (String "." b). rewrite Ei. simpl.
    assert (L : 3 < len (slice_from (a ++ String "." b) i)).
    { assert (La : len (a ++ String "." b) = len a + 1 + len b).
      { rewrite len_app. unfold len. simpl String.length. lia. }
      assert (Lb : 2 < len b) by (unfold len; lia).
      rewrite len_slice_from; lia. }
    apply Z.ltb_lt in L. rewrite L. reflexivity. }
  split; [exact E |]. unfold price_pass. rewrite E. reflexivity.
Qed.

Lemma C5_prompt_refuses_third_decimal_witness :
  price_attempt ("$12" ++ "." ++ "345") = Raise (InputError two_decimals_message)
  /\ price_pass ("$12" ++ "." ++ "345") empty_world
     = (Ok None, echo two_decimals_message empty_world).
Proof.
  apply (C5_prompt_refuses_third_decimal "$12" "345" empty_world).
  simpl. lia.
Defined.

(** C5 as stated fails on the CSV path: the row priced "$12.345" converts
    without an exception and is stored with the price 1234. *)
Lemma C5_counterexample :
  convert_row three_decimals
  = Ok (mk_dict "Thingamajig" (VStr "2") 1234 (mk_datetime 2020 3 19))
  /\ add_csv [three_decimals] empty_world
     = (Ok tt,
        set_db empty_world
          [mk_Product 1 "Thingamajig" 2 1234 (mk_datetime 2020 3 19)]).
Proof.
  vm_compute. split; reflexivity.
Qed.

End PricePrompt.

(* ------------------------------------------------------------------------- *)
(** ** Rounding to binary64 *)

Section Rounding.

Lemma pow2_pos (k : Z) : 0 <= k -> 0 < 2 ^ k.
Proof. intros H. apply Z.pow_pos_nonneg; lia. Qed.

Lemma pow2_add (a b : Z) : 0 <= a -> 0 <= b -> 2 ^ (a + b) = 2 ^ a * 2 ^ b.
Proof. intros. apply Z.pow_add_r; assumption. Qed.

Lemma rhe_bounds (a b : Z) :
  0 < b -> 0 <= a ->
  0 <= round_half_even a b /\ - b <= 2 * (round_half_even a b * b - a) <= b.
Proof.
  intros Hb Ha. unfold round_half_even.
  pose proof (Z.div_mod a b ltac:(lia)) as E.
  pose proof (Z.mod_pos_bound a b Hb) as R.
  pose proof (Z.div_pos a b Ha Hb) as Q.
  destruct (2 * (a mod b) <? b) eqn:C1; [apply Z.ltb_lt in C1; nia |].
  apply Z.ltb_ge in C1.
  destruct (b <? 2 * (a mod b)) eqn:C2; [apply Z.ltb_lt in C2; nia |].
  apply Z.ltb_ge in C2.
  destruct (Z.even (a / b)); nia.
Qed.

Lemma rhe_unique (a b c : Z) :
  0 < b -> - b < 2 * (a - c * b) < b -> round_half_even a b = c.
Proof.
  intros Hb H. unfold round_half_even.
  pose proof (Z.div_mod a b ltac:(lia)) as E.
  pose proof (Z.mod_pos_bound a b Hb) as R.
  assert (C : a / b = c \/ a / b = c - 1) by nia.
  destruct (2 * (a mod b) <? b) eqn:C1.
  - apply Z.ltb_lt in C1. nia.
  - apply Z.ltb_ge in C1.
    destruct (b <? 2 * (a mod b)) eqn:C2; [apply Z.ltb_lt in C2; nia |].
    apply Z.ltb_ge in C2. nia.
Qed.

Lemma ilog2_spec (n d K : Z) :
  0 < n -> 0 < d -> 0 <= K -> 0 <= K + ilog2 n d ->
  d * 2 ^ (K + ilog2 n d) <= n * 2 ^ K < d * 2 ^ (K + ilog2 n d + 1).
Proof.
  intros Hn Hd HK. unfold ilog2, scaled.
  pose proof (Z.log2_spec n Hn) as [An1 An2].
  pose proof (Z.log2_spec d Hd) as [Ad1 Ad2].
  pose proof (Z.log2_nonneg n) as Na. pose proof (Z.log2_nonneg d) as Nb.
  set (a := Z.log2 n) in *. set (b := Z.log2 d) in *.
  unfold Z.succ in *.
  rewrite (pow2_add a 1) in An2 by lia. rewrite (pow2_add b 1) in Ad2 by lia.
  change (2 ^ 1) with 2 in *.
  pose proof (pow2_pos K HK) as PK.
  pose proof (pow2_pos a Na) as Pa. pose proof (pow2_pos b Nb) as Pb.
  destruct (0 <=? a - b) eqn:G.
  - apply Z.leb_le in G.
    pose proof (pow2_pos (a - b) G) as Pg.
    assert (Eab : 2 ^ a = 2 ^ b * 2 ^ (a - b)).
    { rewrite <- pow2_add by lia. f_equal. lia. }
    destruct (n <? d * 2 ^ (a - b)) eqn:T; intros HL.
    + apply Z.ltb_lt in T.
      replace (K + (a - b - 1) + 1) with (K + (a - b)) by lia.
      rewrite (pow2_add K (a - b)) by lia.
      split; [| nia].
      assert (E1 : 2 ^ (K + (a - b - 1)) * 2 = 2 ^ K * 2 ^ (a - b)).
      { rewrite <- pow2_add by lia. rewrite <- (pow2_add _ 1) by lia.
        f_equal. lia. }
      pose proof (pow2_pos (K + (a - b - 1)) HL) as P1.
      nia.
    + apply Z.ltb_ge in T.
      rewrite (pow2_add K (a - b)) by lia.
      replace (K + (a - b) + 1) with (K + ((a - b) + 1)) by lia.
      rewrite (pow2_add K (a - b + 1)) by lia.
      rewrite (pow2_add (a - b) 1) by lia. change (2 ^ 1) with 2.
      assert (H1 : n < d * 2 ^ (a - b) * 2) by nia.
      split; nia.
  - apply Z.leb_gt in G.
    assert (Pg : 0 < 2 ^ (- (a - b))) by (apply pow2_pos; lia).
    assert (Eab : 2 ^ b = 2 ^ a * 2 ^ (- (a - b))).
    { rewrite <- pow2_add by lia. f_equal. lia. }
    destruct (n * 2 ^ (- (a - b)) <? d) eqn:T; intros HL.
    + apply Z.ltb_lt in T.
      replace (K + (a - b - 1) + 1) with (K + (a - b)) by lia.
      assert (EK : 2 ^ K = 2 ^ (K + (a - b)) * 2 ^ (- (a - b))).
      { rewrite <- pow2_add by lia. f_equal. lia. }
      assert (E1 : 2 ^ (K + (a - b - 1)) * 2 = 2 ^ (K + (a - b))).
      { rewrite <- (pow2_add _ 1) by lia. f_equal. lia. }
      pose proof (pow2_pos (K + (a - b - 1)) HL) as P1.
      pose proof (pow2_pos (K + (a - b)) ltac:(lia)) as P2.
      rewrite EK.
      replace (n * (2 ^ (K + (a - b)) * 2 ^ (- (a - b))))
        with ((n * 2 ^ (- (a - b))) * 2 ^ (K + (a - b))) by ring.
      assert (H1 : 2 ^ a * 2 ^ (- (a - b)) <= n * 2 ^ (- (a - b))) by nia.
      split; nia.
    + apply Z.ltb_ge in T.
      assert (EK : 2 ^ K = 2 ^ (K + (a - b)) * 2 ^ (- (a - b))).
      { rewrite <- pow2_add by lia. f_equal. lia. }
      pose proof (pow2_pos (K + (a - b)) HL) as P2.
      rewrite (pow2_add (K + (a - b)) 1) by lia. change (2 ^ 1) with 2.
      rewrite EK.
      replace (n * (2 ^ (K + (a - b)) * 2 ^ (- (a - b))))
        with ((n * 2 ^ (- (a - b))) * 2 ^ (K + (a - b))) by ring.
      assert (H1 : n * 2 ^ (- (a - b)) < 2 * 2 ^ a * 2 ^ (- (a - b))) by nia.
      split; nia.
Qed.

Lemma ilog2_upper (n d K : Z) :
  0 < n -> 0 < d -> 0 <= K -> 0 <= K + ilog2 n d + 1 ->
  n * 2 ^ K < d * 2 ^ (K + ilog2 n d + 1).
Proof.
  intros Hn Hd HK HL.
  pose proof (ilog2_spec n d (K + 1) Hn Hd ltac:(lia) ltac:(lia)) as [_ H].
  replace (K + 1 + ilog2 n d + 1) with ((K + ilog2 n d + 1) + 1) in H by lia.
  rewrite !(pow2_add _ 1) in H by lia. change (2 ^ 1) with 2 in H.
  pose proof (pow2_pos K HK). pose proof (pow2_pos _ HL). nia.
Qed.

Lemma pow2_le (a b : Z) : 0 <= a <= b -> 2 ^ a <= 2 ^ b.
Proof. intros H. apply Z.pow_le_mono_r; lia. Qed.

(** [n / d < 2^(U+1)] bounds the logarithm from above. *)
Lemma ilog2_le (n d U : Z) :
  0 < n -> 0 < d -> 0 <= U + 1 -> n < d * 2 ^ (U + 1) -> ilog2 n d <= U.
Proof.
  intros Hn Hd HU H.
  destruct (Z_le_gt_dec (ilog2 n d) U) as [? | G]; [assumption | exfalso].
  pose proof (ilog2_spec n d 0 Hn Hd ltac:(lia) ltac:(lia)) as [L _].
  simpl in L. rewrite Z.mul_1_r in L.
  pose proof (pow2_le (U + 1) (ilog2 n d) ltac:(lia)).
  pose proof (pow2_pos (U + 1) HU). nia.
Qed.

(** [2^(-J) <= n / d] bounds it from below. *)
Lemma ilog2_ge (n d J : Z) :
  0 < n -> 0 < d -> 0 <= J -> d <= n * 2 ^ J -> - J <= ilog2 n d.
Proof.
  intros Hn Hd HJ H.
  destruct (Z_le_gt_dec (- J) (ilog2 n d)) as [? | G]; [assumption | exfalso].
  pose proof (ilog2_upper n d (- ilog2 n d - 1) Hn Hd ltac:(lia) ltac:(lia))
    as U.
  replace (- ilog2 n d - 1 + ilog2 n d + 1) with 0 in U by lia.
  simpl in U. rewrite Z.mul_1_r in U.
  pose proof (pow2_le J (- ilog2 n d - 1) ltac:(lia)).
  pose proof (pow2_pos J HJ). nia.
Qed.

Lemma RN_normal (neg : bool) (n d : Z) :
  0 < n -> 0 < d -> -1022 <= ilog2 n d <= 51 ->
  let k := 52 - ilog2 n d in
  let m := round_half_even (n * 2 ^ k) d in
  RN neg n d = F_fin neg m (- k)
  /\ d * 2 ^ 52 <= n * 2 ^ k < d * 2 ^ 53
  /\ - d <= 2 * (m * d - n * 2 ^ k) <= d
  /\ 0 <= m.
Proof.
  intros Hn Hd HL k m.
  assert (Hk : 0 < k) by (unfold k; lia).
  split; [| split].
  - unfold RN. destruct (n =? 0) eqn:N0; [apply Z.eqb_eq in N0; lia |].
    replace (Z.max (ilog2 n d - 52) (-1074)) with (- k) by (unfold k; lia).
    unfold scaled. destruct (0 <=? - k) eqn:S; [apply Z.leb_le in S; lia |].
    rewrite Z.opp_involutive. fold m.
    destruct (971 <? - k) eqn:O1; [apply Z.ltb_lt in O1; lia |].
    destruct (- k =? 971) eqn:O2; [apply Z.eqb_eq in O2; lia |].
    reflexivity.
  - pose proof (ilog2_spec n d k Hn Hd ltac:(lia) ltac:(unfold k; lia)) as H.
    replace (k + ilog2 n d) with 52 in H by (unfold k; lia).
    exact H.
  - pose proof (pow2_pos k ltac:(lia)).
    pose proof (rhe_bounds (n * 2 ^ k) d Hd ltac:(nia)) as [H1 H2].
    fold m in H1, H2. split; assumption.
Qed.

Lemma float_of_int_100 : float_of_int 100 = Ok f100.
Proof. vm_compute. reflexivity. Qed.

Lemma RN_001 : RN false 1 100 = f001.
Proof. vm_compute. reflexivity. Qed.

Lemma prod_gap (A B : Z) : 256 <= A -> 4 <= B -> A + 100 * B < A * B.
Proof. intros. nia. Qed.

Lemma cancel_bounds (A B X : Z) :
  0 < A -> - (A * B) < X * A < A * B -> - B < X < B.
Proof. intros. nia. Qed.

Lemma scale_bounds (B X k : Z) :
  0 < B -> - k <= X <= k -> - (k * B) <= B * X <= k * B.
Proof. intros. nia. Qed.

Lemma divide_bounds (T X A : Z) :
  0 < T -> - (A * T) <= 2 * (T * X) <= A * T -> - A <= 2 * X <= A.
Proof. intros. nia. Qed.

(** Reading back [n / d] when it is a whole number [c] of cents. *)
Lemma cents_read_back (n d c : Z) :
  0 < d -> 100 * n = c * d -> 0 <= c < 2 ^ 51 ->
  (y <- fmul_int (RN false n d) 100 ;; round y)%py = Ok c.
Proof.
  intros Hd E Hc. unfold fmul_int. rewrite float_of_int_100. simpl rbind.
  change (2 ^ 51) with 2251799813685248 in Hc.
  destruct (Z.eq_dec c 0) as [-> | Hc0].
  { assert (n = 0) by lia. subst n. reflexivity. }
  assert (Hn : 0 < n) by nia.
  assert (L1 : -7 <= ilog2 n d <= 44).
  { split.
    - apply (ilog2_ge n d 7); try lia. change (2 ^ 7) with 128. nia.
    - apply ilog2_le; try lia. change (2 ^ (44 + 1)) with 35184372088832. nia. }
  destruct (RN_normal false n d Hn Hd ltac:(lia)) as [E1 [B1 [R1 M1]]].
  set (k1 := 52 - ilog2 n d) in *.
  set (m1 := round_half_even (n * 2 ^ k1) d) in *.
  assert (Hk1 : 8 <= k1) by (unfold k1; lia).
  pose proof (pow2_le 8 k1 ltac:(lia)) as A8. change (2 ^ 8) with 256 in A8.
  set (A := 2 ^ k1) in *.
  change (2 ^ 52) with 4503599627370496 in B1.
  assert (R1' : -100 <= 2 * (100 * m1 - c * A) <= 100) by nia.
  assert (Hm1 : 4503599627370496 <= m1) by nia.
  rewrite E1. unfold f100, fmul. simpl xorb. unfold scaled.
  replace (- (- k1 + -46)) with (k1 + 46) by lia.
  destruct (0 <=? k1 + 46) eqn:S; [| apply Z.leb_gt in S; lia]. clear S.
  rewrite Z.mul_1_l, (pow2_add k1 46) by lia. fold A.
  set (n2 := m1 * 7036874417766400). set (d2 := A * 2 ^ 46).
  assert (Hn2 : 0 < n2) by (unfold n2; lia).
  assert (Hd2 : 0 < d2) by (unfold d2; lia).
  assert (L2 : -1 <= ilog2 n2 d2 <= 50).
  { split.
    - apply (ilog2_ge n2 d2 1); try lia. unfold n2, d2.
      change (2 ^ 46) with 70368744177664. change (2 ^ 1) with 2. nia.
    - apply ilog2_le; try lia. unfold n2, d2.
      change (2 ^ 46) with 70368744177664.
      change (2 ^ (50 + 1)) with 2251799813685248. nia. }
  destruct (RN_normal false n2 d2 Hn2 Hd2 ltac:(lia)) as [E2 [B2 [R2 M2]]].
  set (k2 := 52 - ilog2 n2 d2) in *.
  set (m2 := round_half_even (n2 * 2 ^ k2) d2) in *.
  assert (Hk2 : 2 <= k2) by (unfold k2; lia).
  pose proof (pow2_le 2 k2 ltac:(lia)) as B4. change (2 ^ 2) with 4 in B4.
  set (B := 2 ^ k2) in *.
  rewrite E2. unfold round, scaled. rewrite Z.opp_involutive.
  destruct (0 <=? k2) eqn:S; [| apply Z.leb_gt in S; lia]. clear S.
  rewrite Z.mul_1_l. fold B. f_equal.
  apply rhe_unique; [lia |].
  assert (R2' : - A <= 2 * (m2 * A - 100 * m1 * B) <= A).
  { apply (divide_bounds (2 ^ 46)); [apply pow2_pos; lia |].
    unfold n2, d2 in R2. change (2 ^ 46) with 70368744177664 in *.
    replace (70368744177664 * (m2 * A - 100 * m1 * B))
      with (m2 * (A * 70368744177664) - m1 * 7036874417766400 * B) by ring.
    exact R2. }
  clear R2 E1 E2 B1 B2 R1.
  pose proof (scale_bounds B (2 * (100 * m1 - c * A)) 100 ltac:(lia) R1') as K1.
  pose proof (prod_gap A B A8 B4) as K2.
  apply (cancel_bounds A B (2 * (m2 - c * B))); [lia |].
  replace (2 * (m2 - c * B) * A)
    with (2 * (m2 * A - 100 * m1 * B) + B * (2 * (100 * m1 - c * A))) by ring.
  lia.
Qed.

(** The cents a stored price is written with. *)
Lemma price_written (p : Z) :
  0 < p < 2 ^ 51 ->
  exists m k,
    int_fmul p (RN false 1 100) = Ok (F_fin false m (- k))
    /\ 0 < k /\ round_half_even (m * 100) (2 ^ k) = p.
Proof.
  intros Hp. unfold int_fmul, float_of_int.
  replace (p <? 0) with false by (symmetry; apply Z.ltb_ge; lia).
  rewrite Z.abs_eq by lia.
  assert (L0 : 0 <= ilog2 p 1 <= 50).
  { split.
    - apply (ilog2_ge p 1 0); simpl; lia.
    - apply ilog2_le; simpl; lia. }
  destruct (RN_normal false p 1 ltac:(lia) ltac:(lia) ltac:(lia))
    as [E0 [B0 [R0 M0]]].
  set (k0 := 52 - ilog2 p 1) in *.
  set (m0 := round_half_even (p * 2 ^ k0) 1) in *.
  assert (Hk0 : 2 <= k0) by (unfold k0; lia).
  pose proof (pow2_pos k0 ltac:(lia)) as PA.
  set (A := 2 ^ k0) in *.
  assert (Em0 : m0 = p * A) by lia.
  rewrite RN_001, E0. unfold rbind, f001, fmul. simpl xorb.
  unfold scaled.
  replace (- (- k0 + -59)) with (k0 + 59) by lia.
  destruct (0 <=? k0 + 59) eqn:S; [| apply Z.leb_gt in S; lia]. clear S.
  rewrite Z.mul_1_l, (pow2_add k0 59) by lia. fold A.
  rewrite Em0.
  set (n3 := p * A * 5764607523034235). set (d3 := A * 2 ^ 59).
  assert (Hn3 : 0 < n3) by (unfold n3; nia).
  assert (Hd3 : 0 < d3) by (unfold d3; lia).
  assert (L3 : -7 <= ilog2 n3 d3 <= 44).
  { split.
    - apply (ilog2_ge n3 d3 7); try lia. unfold n3, d3.
      change (2 ^ 59) with 576460752303423488. change (2 ^ 7) with 128. nia.
    - apply ilog2_le; try lia. unfold n3, d3.
      change (2 ^ 59) with 576460752303423488.
      change (2 ^ (44 + 1)) with 35184372088832.
      change (2 ^ 51) with 2251799813685248 in Hp. nia. }
  destruct (RN_normal false n3 d3 Hn3 Hd3 ltac:(lia)) as [E3 [B3 [R3 M3]]].
  set (k3 := 52 - ilog2 n3 d3) in *.
  set (m3 := round_half_even (n3 * 2 ^ k3) d3) in *.
  assert (Hk3 : 8 <= k3) by (unfold k3; lia).
  pose proof (pow2_le 8 k3 ltac:(lia)) as B8. change (2 ^ 8) with 256 in B8.
  set (B := 2 ^ k3) in *.
  exists m3, k3. split; [now rewrite E3 |]. split; [lia |].
  fold B. apply rhe_unique; [lia |].
  unfold n3, d3 in R3. change (2 ^ 59) with 576460752303423488 in R3.
  assert (R3' : - 576460752303423488
                <= 2 * (m3 * 576460752303423488 - p * 5764607523034235 * B)
                <= 576460752303423488) by nia.
  clear R3 E0 E3 B0 B3 R0.
  change (2 ^ 51) with 2251799813685248 in Hp.
  assert (K1 : 24 * p * B < 54043195528445952 * B) by nia.
  assert (K2 : 100 * 576460752303423488 <= 225179981368524800 * B) by lia.
  lia.
Qed.

End Rounding.

(* ------------------------------------------------------------------------- *)
(** ** Decimal text *)

Section DecimalText.

Lemma digit_char_facts (c : ascii) :
  is_digit c = true ->
  is_space c = false /\ chr_eqb c "_" = false /\ chr_eqb c "$" = false
  /\ chr_eqb c "-" = false /\ chr_eqb c "+" = false /\ chr_eqb c "." = false
  /\ to_lower c = c /\ Ascii.eqb c "i" = false /\ Ascii.eqb c "n" = false
  /\ not_slash c = true /\ 0 <= digit_of c <= 9.
Proof.
  destruct c as [[] [] [] [] [] [] [] []]; intros H; try discriminate H;
    vm_compute; repeat split; congruence.
Qed.

Lemma all_digits_uint (d : Decimal.uint) :
  all_chars is_digit (NilEmpty.string_of_uint d) = true.
Proof. induction d; simpl; auto. Qed.

Ltac eval_digit :=
  repeat match goal with
    | |- context [is_digit ?c] =>
        let v := eval vm_compute in (is_digit c) in
        change (is_digit c) with v
    | |- context [digit_of ?c] =>
        let v := eval vm_compute in (digit_of c) in
        change (digit_of c) with v
    end; cbv iota.

Lemma digits_acc_uint_pos (d : Decimal.uint) (acc : positive) :
  digits_acc (NilEmpty.string_of_uint d) (Zpos acc)
  = Some (Zpos (Pos.of_uint_acc d acc)).
Proof.
  revert acc.
  induction d; intros acc;
    cbn [NilEmpty.string_of_uint Pos.of_uint_acc digits_acc];
    [reflexivity | ..]; eval_digit; rewrite <- IHd; f_equal; lia.
Qed.

Lemma digits_acc_uint (d : Decimal.uint) :
  digits_acc (NilEmpty.string_of_uint d) 0 = Some (Z.of_N (Pos.of_uint d)).
Proof.
  induction d;
    cbn [NilEmpty.string_of_uint Pos.of_uint digits_acc Z.of_N];
    [reflexivity | ..]; eval_digit;
    [exact IHd | ..]; rewrite <- digits_acc_uint_pos; f_equal.
Qed.

Lemma str_of_int_nonneg (n : Z) :
  0 <= n ->
  exists c s, str_of_int n = String c s
    /\ all_chars is_digit (String c s) = true
    /\ digits_acc (String c s) 0 = Some n.
Proof.
  intros H. unfold str_of_int. destruct n as [| p | p]; [| | lia].
  - exists "0"%char, EmptyString. repeat split.
  - simpl. unfold NilZero.string_of_uint.
    pose proof (Unsigned.to_uint_nonnil p) as NN.
    pose proof (Unsigned.of_to p) as OT.
    pose proof (all_digits_uint (Pos.to_uint p)) as AD.
    pose proof (digits_acc_uint (Pos.to_uint p)) as DA.
    rewrite OT in DA. simpl in DA.
    destruct (Pos.to_uint p) eqn:E; try congruence;
      simpl in *; eexists; eexists; repeat split; eauto.
Qed.

Lemma digits_acc_app (a b : string) (acc : Z) :
  digits_acc (a ++ b) acc
  = match digits_acc a acc with
    | Some v => digits_acc b v
    | None => None
    end.
Proof.
  revert acc. induction a as [| c a IH]; intros acc; simpl; [reflexivity |].
  destruct (is_digit c); [apply IH | reflexivity].
Qed.

Lemma len_cons (c : ascii) (s : string) : len (String c s) = len s + 1.
Proof. unfold len. simpl String.length. lia. Qed.

Lemma len_nonneg (s : string) : 0 <= len s.
Proof. unfold len. lia. Qed.

Lemma digits_acc_shift (s : string) :
  all_chars is_digit s = true ->
  exists v, 0 <= v /\ forall acc, digits_acc s acc = Some (acc * 10 ^ len s + v).
Proof.
  induction s as [| c s IH]; intros H.
  - exists 0. split; [lia |]. intros acc. cbn [digits_acc].
    change (len "") with 0. f_equal. simpl. lia.
  - cbn [all_chars] in H. apply andb_true_iff in H. destruct H as [Hc Hs].
    destruct (digit_char_facts c Hc)
      as (_ & _ & _ & _ & _ & _ & _ & _ & _ & _ & D).
    destruct (IH Hs) as [v [Pv E]].
    pose proof (Z.pow_pos_nonneg 10 (len s) ltac:(lia) (len_nonneg s)) as P.
    exists (digit_of c * 10 ^ len s + v). split; [nia |].
    intros acc. cbn [digits_acc]. rewrite Hc, E, len_cons.
    rewrite Z.pow_add_r by (pose proof (len_nonneg s); lia).
    f_equal. change (10 ^ 1) with 10. ring.
Qed.

Lemma digits_acc_value (s : string) (acc : Z) :
  all_chars is_digit s = true ->
  digits_acc s acc = Some (acc * 10 ^ len s + num s) /\ 0 <= num s.
Proof.
  intros H. destruct (digits_acc_shift s H) as [v [Pv E]].
  assert (N : num s = v).
  { unfold num. rewrite E. lia. }
  rewrite N. split; [apply E | exact Pv].
Qed.

Lemma span_all (p : ascii -> bool) (a b : string) :
  all_chars p a = true ->
  match b with
  | String c _ => p c = false
  | EmptyString => True
  end ->
  span p (a ++ b) = (a, b).
Proof.
  intros Ha Hb. induction a as [| c a IH]; simpl in *.
  - destruct b as [| c b]; [reflexivity | simpl; now rewrite Hb].
  - apply andb_true_iff in Ha. destruct Ha as [Hc Ha]. rewrite Hc.
    now rewrite (IH Ha).
Qed.

Lemma lstrip_none (p : ascii -> bool) (s : string) :
  match s with
  | String c _ => p c = false
  | EmptyString => True
  end ->
  lstrip p s = s.
Proof. destruct s as [| c s]; simpl; [reflexivity | now intros ->]. Qed.

Lemma rstrip_none (p : ascii -> bool) (s : string) :
  all_chars (fun c => negb (p c)) s = true -> rstrip p s = s.
Proof.
  induction s as [| c s IH]; simpl; [reflexivity |]. intros H.
  apply andb_true_iff in H. destruct H as [Hc Hs]. rewrite (IH Hs).
  apply negb_true_iff in Hc. rewrite Hc. destruct s; reflexivity.
Qed.

Lemma all_chars_impl (p q : ascii -> bool) (s : string) :
  (forall c, p c = true -> q c = true) ->
  all_chars p s = true -> all_chars q s = true.
Proof.
  intros I. induction s as [| c s IH]; simpl; [reflexivity |]. intros H.
  apply andb_true_iff in H. destruct H as [Hc Hs].
  now rewrite (I c Hc), (IH Hs).
Qed.

Lemma all_chars_app (p : ascii -> bool) (a b : string) :
  all_chars p (a ++ b) = all_chars p a && all_chars p b.
Proof.
  induction a as [| c a IH]; simpl; [reflexivity |].
  now rewrite IH, andb_assoc.
Qed.

(** Text without underscores goes through [drop_underscores] as it is. *)
Lemma drop_underscores_none (s : string) (prev : option ascii) :
  match prev with
  | Some p => chr_eqb p "_" = false
  | None => True
  end ->
  all_chars (fun c => negb (chr_eqb c "_")) s = true ->
  drop_underscores prev s = Some s.
Proof.
  revert prev. induction s as [| c s IH]; intros prev Hp H; simpl in *.
  - destruct prev as [p |]; [now rewrite Hp | reflexivity].
  - apply andb_true_iff in H. destruct H as [Hc Hs].
    apply negb_true_iff in Hc. rewrite Hc.
    rewrite (IH (Some c) Hc Hs).
    destruct prev as [p |]; [now rewrite Hp | reflexivity].
Qed.

Lemma plain_char_facts (c : ascii) :
  plain c = true ->
  is_space c = false /\ chr_eqb c "_" = false /\ chr_eqb c "$" = false
  /\ chr_eqb c "-" = false /\ chr_eqb c "+" = false
  /\ to_lower c = c /\ Ascii.eqb c "i" = false /\ Ascii.eqb c "n" = false.
Proof.
  destruct c as [[] [] [] [] [] [] [] []]; intros H; try discriminate H;
    vm_compute; repeat split; congruence.
Qed.

Lemma lower_plain (s : string) : all_chars plain s = true -> lower s = s.
Proof.
  induction s as [| c s IH]; simpl; [reflexivity |]. intros H.
  apply andb_true_iff in H. destruct H as [Hc Hs].
  destruct (plain_char_facts c Hc) as (_ & _ & _ & _ & _ & L & _).
  now rewrite L, (IH Hs).
Qed.

(** [float] of a non-empty plain decimal: no blanks to strip, no underscore,
    no sign, not a name of infinity or nan. *)
Lemma float_of_str_plain (s : string) :
  all_chars plain s = true -> s <> "" ->
  float_of_str s = of_option ValueError (decimal_of false s).
Proof.
  intros H N. unfold float_of_str, strip_by.
  destruct s as [| c s]; [congruence |].
  pose proof H as H'. simpl in H'. apply andb_true_iff in H'.
  destruct H' as [Hc Hs].
  destruct (plain_char_facts c Hc) as (F1 & F2 & F3 & F4 & F5 & F6 & F7 & F8).
  rewrite lstrip_none by exact F1.
  rewrite rstrip_none.
  2:{ apply (all_chars_impl plain); [| exact H]. intros x Hx.
      now destruct (plain_char_facts x Hx) as (-> & _). }
  rewrite drop_underscores_none; [| exact I |].
  2:{ apply (all_chars_impl plain); [| exact H]. intros x Hx.
      now destruct (plain_char_facts x Hx) as (_ & -> & _). }
  unfold split_sign. rewrite F4, F5.
  rewrite (lower_plain _ H).
  unfold String.eqb at 1 2 3; fold String.eqb. rewrite F7, F8. reflexivity.
Qed.

(** Stripping "$" from a plain decimal with or without a leading "$". *)
Lemma strip_dollar_plain (dollar : bool) (s : string) :
  all_chars plain s = true ->
  strip ((if dollar then "$" else "") ++ s) "$" = s.
Proof.
  intros H. unfold strip, strip_by.
  set (q := fun c => mem_chr c "$").
  assert (Q : forall x, plain x = true -> q x = false).
  { intros x Hx. destruct (plain_char_facts x Hx) as (_ & _ & F & _).
    unfold q. simpl. now rewrite F. }
  assert (R : rstrip q s = s).
  { apply rstrip_none. apply (all_chars_impl plain); [| exact H].
    intros x Hx. now rewrite (Q x Hx). }
  assert (L : lstrip q s = s).
  { apply lstrip_none. destruct s as [| c s]; [exact I |].
    simpl in H. apply andb_true_iff in H. destruct H as [Hc _].
    now apply Q. }
  destruct dollar.
  - change (lstrip q ("$" ++ s)) with (lstrip q s). now rewrite L, R.
  - change ("" ++ s) with s. now rewrite L, R.
Qed.

Lemma append_nil_r (s : string) : s ++ "" = s.
Proof. induction s as [| c s IH]; simpl; [reflexivity | now rewrite IH]. Qed.

Lemma span_whole (p : ascii -> bool) (s : string) :
  all_chars p s = true -> span p s = (s, "").
Proof.
  intros H. rewrite <- (append_nil_r s) at 1. now apply span_all.
Qed.

Lemma digits_value_digits (s : string) :
  all_chars is_digit s = true -> s <> "" -> digits_value s = Some (num s).
Proof.
  intros H N. unfold digits_value. destruct s as [| c s]; [congruence |].
  destruct (digits_acc_value (String c s) 0 H) as [E _]. rewrite E.
  f_equal; lia.
Qed.

Lemma num_app (a b : string) :
  all_chars is_digit a = true -> all_chars is_digit b = true ->
  num (a ++ b) = num a * 10 ^ len b + num b.
Proof.
  intros Ha Hb. unfold num at 1. rewrite digits_acc_app.
  destruct (digits_acc_value a 0 Ha) as [Ea _]. rewrite Ea.
  destruct (digits_acc_value b (0 * 10 ^ len a + num a) Hb) as [Eb _].
  rewrite Eb. ring.
Qed.

(** The fraction [float] rounds for a price text: it is the exact amount. *)
Lemma decimal_of_price_text (ip : string) (frac : option string) :
  all_chars is_digit ip = true ->
  match frac with
  | Some fp => all_chars is_digit fp = true /\ len fp <= 2
  | None => True
  end ->
  ip ++ match frac with Some fp => fp | None => "" end <> "" ->
  exists n d,
    decimal_of false (price_text false ip frac) = Some (RN false n d)
    /\ 0 < d /\ 100 * n = exact_cents ip frac * d.
Proof.
  intros Hip Hfp NE. unfold price_text, decimal_of, exact_cents.
  change ("" ++ ?x) with x.
  destruct frac as [fp |].
  - destruct Hfp as [Hfp Lfp].
    change ("." ++ fp) with (String "." fp).
    rewrite (span_all is_digit ip (String "." fp) Hip eq_refl).
    change (chr_eqb "." ".") with true. cbv iota.
    rewrite (span_whole is_digit fp Hfp).
    assert (D : all_chars is_digit (ip ++ fp) = true)
      by (now rewrite all_chars_app, Hip, Hfp).
    rewrite (digits_value_digits _ D NE). cbn [exponent_of].
    rewrite (num_app ip fp Hip Hfp).
    destruct (digits_acc_value ip 0 Hip) as [_ Pip].
    destruct (digits_acc_value fp 0 Hfp) as [_ Pfp].
    destruct fp as [| a [| b [| c fp]]].
    + exists ((num ip * 10 ^ len "" + num "") * 10 ^ (0 - len "")), 1.
      split; [reflexivity |]. split; [lia |].
      change (len "") with 0. change (num "") with 0.
      change (10 ^ (0 - 0)) with 1. change (10 ^ (2 - 0)) with 100.
      change (10 ^ 0) with 1. lia.
    + exists (num ip * 10 ^ len (String a "") + num (String a "")), 10.
      split; [reflexivity |]. split; [lia |].
      change (len (String a "")) with 1.
      change (10 ^ (2 - 1)) with 10. change (10 ^ 1) with 10. lia.
    + exists (num ip * 10 ^ len (String a (String b ""))
              + num (String a (String b ""))), 100.
      split; [reflexivity |]. split; [lia |].
      change (len (String a (String b ""))) with 2.
      change (10 ^ (2 - 2)) with 1. change (10 ^ 2) with 100. lia.
    + exfalso. rewrite !len_cons in Lfp. pose proof (len_nonneg fp). lia.
  - rewrite append_nil_r in *.
    rewrite (span_whole is_digit ip Hip).
    rewrite append_nil_r, (digits_value_digits _ Hip NE). cbn [exponent_of].
    exists (num ip * 10 ^ (0 - len "")), 1.
    split; [reflexivity |]. split; [lia |].
    change (10 ^ (0 - len "")) with 1. lia.
Qed.

Lemma price_text_plain (ip : string) (frac : option string) :
  all_chars is_digit ip = true ->
  match frac with
  | Some fp => all_chars is_digit fp = true /\ len fp <= 2
  | None => True
  end ->
  all_chars plain (price_text false ip frac) = true.
Proof.
  intros Hip Hfp. unfold price_text. change ("" ++ ?x) with x.
  assert (P : forall s, all_chars is_digit s = true -> all_chars plain s = true).
  { intros s. apply all_chars_impl. intros c Hc. unfold plain. now rewrite Hc. }
  rewrite all_chars_app, (P ip Hip). destruct frac as [fp |]; [| reflexivity].
  destruct Hfp as [Hfp _]. simpl. now apply P.
Qed.

Lemma price_text_nonempty (ip : string) (frac : option string) :
  ip ++ match frac with Some fp => fp | None => "" end <> "" ->
  price_text false ip frac <> "".
Proof.
  unfold price_text. change ("" ++ ?x) with x.
  destruct ip as [| c ip]; [| discriminate].
  destruct frac as [fp |]; simpl; [discriminate | congruence].
Qed.

Lemma price_in_cents_price_text (dollar : bool) (ip : string)
    (frac : option string) :
  all_chars is_digit ip = true ->
  match frac with
  | Some fp => all_chars is_digit fp = true /\ len fp <= 2
  | None => True
  end ->
  ip ++ match frac with Some fp => fp | None => "" end <> "" ->
  0 <= exact_cents ip frac < 2 ^ 51 ->
  price_in_cents (price_text dollar ip frac) = Ok (exact_cents ip frac).
Proof.
  intros Hip Hfp NE B. unfold price_in_cents.
  replace (price_text dollar ip frac)
    with ((if dollar then "$" else "") ++ price_text false ip frac)
    by (unfold price_text; destruct dollar; reflexivity).
  pose proof (price_text_plain ip frac Hip Hfp) as P.
  rewrite (strip_dollar_plain dollar _ P).
  rewrite (float_of_str_plain _ P (price_text_nonempty ip frac NE)).
  destruct (decimal_of_price_text ip frac Hip Hfp NE) as (n & d & E & Hd & Hn).
  rewrite E. cbn [of_option rbind].
  exact (cents_read_back n d _ Hd Hn B).
Qed.

End DecimalText.

(* ------------------------------------------------------------------------- *)
(** ** Prices read from text (lines 53 and 148) *)

Section PriceConversion.

Lemma exact_cents_nonneg (ip : string) (frac : option string) :
  all_chars is_digit ip = true ->
  match frac with
  | Some fp => all_chars is_digit fp = true /\ len fp <= 2
  | None => True
  end ->
  0 <= exact_cents ip frac.
Proof.
  intros Hip Hfp. unfold exact_cents.
  destruct (digits_acc_value ip 0 Hip) as [_ Pip].
  destruct frac as [fp |]; [| lia]. destruct Hfp as [Hfp Lfp].
  destruct (digits_acc_value fp 0 Hfp) as [_ Pfp].
  pose proof (Z.pow_nonneg 10 (2 - len fp) ltac:(lia)). nia.
Qed.

(** C6, as the code has it. A price text with at most two decimals (an
    optional "$", digits, and optionally a point with no, one or two digits;
    one digit at least) that stands for fewer than 2^51 cents is converted by
    [round(float(s.strip('$'))*100)] to exactly the cents it stands for. *)
Theorem C6_two_decimals_exact (dollar : bool) (ip : string)
    (frac : option string) :
  all_chars is_digit ip = true ->
  match frac with
  | Some fp => all_chars is_digit fp = true /\ len fp <= 2
  | None => True
  end ->
  ip ++ match frac with Some fp => fp | None => "" end <> "" ->
  exact_cents ip frac < 2 ^ 51 ->
  price_in_cents (price_text dollar ip frac) = Ok (exact_cents ip frac).
Proof.
  intros Hip Hfp NE B.
  apply price_in_cents_price_text; try assumption.
  split; [now apply exact_cents_nonneg | exact B].
Qed.

(** The two prices of the specification: "$12.3" is 1230 cents and "12.00" is
    1200 cents. *)
Lemma C6_two_decimals_exact_witness :
  price_in_cents "$12.3" = Ok 1230 /\ price_in_cents "12.00" = Ok 1200.
Proof.
  split.
  - apply (C6_two_decimals_exact true "12" (Some "3")).
    + reflexivity.
    + split; [reflexivity | vm_compute; discriminate].
    + discriminate.
    + reflexivity.
  - apply (C6_two_decimals_exact false "12" (Some "00")).
    + reflexivity.
    + split; [reflexivity | vm_compute; discriminate].
    + discriminate.
    + reflexivity.
Defined.

(** C6 as stated fails for large amounts: "90071992547409.93" has two
    decimals and stands for 9007199254740993 cents (2^53 + 1), and is
    converted to 9007199254740994. *)
Lemma C6_counterexample :
  price_text false "90071992547409" (Some "93") = "90071992547409.93"
  /\ exact_cents "90071992547409" (Some "93") = 9007199254740993
  /\ price_in_cents "90071992547409.93" = Ok 9007199254740994
  /\ price_in_cents "90071992547409.93"
     <> Ok (exact_cents "90071992547409" (Some "93")).
Proof.
  vm_compute. repeat split; try reflexivity. discriminate.
Qed.

End PriceConversion.

(* ------------------------------------------------------------------------- *)
(** ** The text written for stored values *)

Section StoredText.

Lemma holds_from_spec (P : Z -> bool) (n : nat) (lo z : Z) :
  holds_from P lo n = true -> lo <= z < lo + Z.of_nat n -> P z = true.
Proof.
  revert lo. induction n as [| n IH]; intros lo H Hz; [lia |].
  cbn [holds_from] in H. apply andb_true_iff in H. destruct H as [H0 H1].
  destruct (Z.eq_dec z lo) as [-> | N]; [exact H0 |].
  apply (IH (lo + 1) H1). lia.
Qed.

(** Two digits for the numbers below 100, read back as the number. *)
Lemma two_digits (r : Z) :
  0 <= r < 100 ->
  two_digit_text (zero_pad 2 (str_of_int r)) = true
  /\ num (zero_pad 2 (str_of_int r)) = r.
Proof.
  intros H.
  pose (P := fun r => two_digit_text (zero_pad 2 (str_of_int r))
                      && (num (zero_pad 2 (str_of_int r)) =? r)).
  assert (C : holds_from P 0 100 = true) by (vm_compute; reflexivity).
  pose proof (holds_from_spec P 100 0 r C ltac:(lia)) as K.
  unfold P in K. apply andb_true_iff in K. destruct K as [K1 K2].
  apply Z.eqb_eq in K2. tauto.
Qed.

Lemma month_text (m : Z) :
  1 <= m <= 12 ->
  two_digit_text (zero_pad 2 (str_of_int m)) = true
  /\ directive_m (zero_pad 2 (str_of_int m)) = Some m.
Proof.
  intros H.
  pose (P := fun m => two_digit_text (zero_pad 2 (str_of_int m))
                      && match directive_m (zero_pad 2 (str_of_int m)) with
                         | Some v => v =? m
                         | None => false
                         end).
  assert (C : holds_from P 1 12 = true) by (vm_compute; reflexivity).
  pose proof (holds_from_spec P 12 1 m C ltac:(lia)) as K.
  unfold P in K. apply andb_true_iff in K. destruct K as [K1 K2].
  destruct (directive_m _) as [v |]; [| discriminate].
  apply Z.eqb_eq in K2. subst. tauto.
Qed.

Lemma day_text (d : Z) :
  1 <= d <= 31 ->
  two_digit_text (zero_pad 2 (str_of_int d)) = true
  /\ directive_d (zero_pad 2 (str_of_int d)) = Some d.
Proof.
  intros H.
  pose (P := fun d => two_digit_text (zero_pad 2 (str_of_int d))
                      && match directive_d (zero_pad 2 (str_of_int d)) with
                         | Some v => v =? d
                         | None => false
                         end).
  assert (C : holds_from P 1 31 = true) by (vm_compute; reflexivity).
  pose proof (holds_from_spec P 31 1 d C ltac:(lia)) as K.
  unfold P in K. apply andb_true_iff in K. destruct K as [K1 K2].
  destruct (directive_d _) as [v |]; [| discriminate].
  apply Z.eqb_eq in K2. subst. tauto.
Qed.

Lemma year_text (y : Z) :
  1000 <= y <= 9999 ->
  four_digit_text (str_of_int y) = true
  /\ directive_Y (str_of_int y) = Some y.
Proof.
  intros H.
  pose (P := fun y => four_digit_text (str_of_int y)
                      && match directive_Y (str_of_int y) with
                         | Some v => v =? y
                         | None => false
                         end).
  assert (C : holds_from P 1000 (Z.to_nat 9000) = true)
    by (vm_compute; reflexivity).
  pose proof (holds_from_spec P (Z.to_nat 9000) 1000 y C ltac:(lia)) as K.
  unfold P in K. apply andb_true_iff in K. destruct K as [K1 K2].
  destruct (directive_Y _) as [v |]; [| discriminate].
  apply Z.eqb_eq in K2. subst. tauto.
Qed.

Lemma days_in_month_le (y m : Z) : days_in_month y m <= 31.
Proof.
  unfold days_in_month.
  destruct (m =? 2); [destruct (is_leap y); lia |].
  destruct (_ || _); lia.
Qed.

Lemma valid_date_bounds (d : datetime) :
  valid_date d = true ->
  1000 <= year d <= 9999 /\ 1 <= month d <= 12
  /\ 1 <= day d <= days_in_month (year d) (month d).
Proof.
  unfold valid_date. rewrite !andb_true_iff, !Z.leb_le. lia.
Qed.

(** Shape of what [strftime] writes, and how [strptime] reads it. *)
Lemma strftime_valid (d : datetime) :
  valid_date d = true ->
  date_text (strftime d) = true /\ strptime (strftime d) = Ok d.
Proof.
  intros V. destruct (valid_date_bounds d V) as (Y & M & D).
  pose proof (days_in_month_le (year d) (month d)) as D31.
  destruct (month_text (month d) M) as [M1 M2].
  destruct (day_text (day d) ltac:(lia)) as [D1 D2].
  destruct (year_text (year d) Y) as [Y1 Y2].
  unfold strftime.
  destruct (zero_pad 2 (str_of_int (month d))) as [| a [| b [| ? ?]]];
    try discriminate M1.
  destruct (zero_pad 2 (str_of_int (day d))) as [| c [| e [| ? ?]]];
    try discriminate D1.
  set (ys := str_of_int (year d)) in *.
  cbn [two_digit_text] in M1, D1.
  apply andb_true_iff in M1. destruct M1 as [Ha Hb].
  apply andb_true_iff in D1. destruct D1 as [Hc He].
  cbn [append]. split.
  - cbn [date_text]. rewrite Ha, Hb, Hc, He, Y1. reflexivity.
  - unfold strptime. cbn [span].
    destruct (digit_char_facts a Ha) as (_&_&_&_&_&_&_&_&_& Sa &_).
    destruct (digit_char_facts b Hb) as (_&_&_&_&_&_&_&_&_& Sb &_).
    destruct (digit_char_facts c Hc) as (_&_&_&_&_&_&_&_&_& Sc &_).
    destruct (digit_char_facts e He) as (_&_&_&_&_&_&_&_&_& Se &_).
    rewrite Sa, Sb. change (not_slash "/") with false. cbv iota.
    cbn [span]. rewrite Sc, Se. change (not_slash "/") with false. cbv iota.
    rewrite M2, D2, Y2. unfold datetime_new.
    replace (_ && _) with true; [now destruct d |].
    symmetry. rewrite !andb_true_iff, !Z.leb_le. lia.
Qed.

Lemma rhe_le (a b M : Z) :
  0 < b -> 0 <= a -> a < M * b -> round_half_even a b <= M.
Proof.
  intros Hb Ha H. destruct (rhe_bounds a b Hb Ha) as [_ [_ U]]. nia.
Qed.

Lemma ilog2_le_log2 (n d : Z) : 0 < d -> ilog2 n d <= Z.log2 n.
Proof.
  intros Hd. unfold ilog2. pose proof (Z.log2_nonneg d).
  destruct (scaled n d (Z.log2 n - Z.log2 d)) as [a b].
  destruct (a <? b); lia.
Qed.

(** A fraction whose logarithm is at most 1022 rounds to a finite float. *)
Lemma RN_finite (neg : bool) (n d : Z) :
  0 <= n -> 0 < d -> (n <> 0 -> ilog2 n d <= 1022) ->
  exists m e, RN neg n d = F_fin neg m e /\ 0 <= m.
Proof.
  intros Hn Hd HL. unfold RN.
  destruct (n =? 0) eqn:N0; [exists 0, 0; split; [reflexivity | lia] |].
  apply Z.eqb_neq in N0. specialize (HL N0).
  set (e := Z.max (ilog2 n d - 52) (-1074)).
  assert (He : -1074 <= e <= 970) by (unfold e; lia).
  assert (S : exists a b, scaled n d e = (a, b) /\ 0 <= a /\ 0 < b).
  { unfold scaled. destruct (0 <=? e) eqn:E.
    - apply Z.leb_le in E. pose proof (pow2_pos e E).
      exists n, (d * 2 ^ e). split; [reflexivity | nia].
    - apply Z.leb_gt in E. pose proof (pow2_pos (- e) ltac:(lia)).
      exists (n * 2 ^ (- e)), d. split; [reflexivity | nia]. }
  destruct S as (a & b & Es & Ha & Hb). rewrite Es.
  destruct (971 <? e) eqn:O1; [apply Z.ltb_lt in O1; lia |].
  destruct (e =? 971) eqn:O2; [apply Z.eqb_eq in O2; lia |].
  simpl. eexists; eexists. split; [reflexivity |].
  now destruct (rhe_bounds a b Hb Ha).
Qed.

(** An int of the size of an SQLite INTEGER as a float: at most 53 bits. *)
Lemma float_of_int_stored (p : Z) :
  0 < p < 2 ^ 63 ->
  exists m e, float_of_int p = Ok (F_fin false m e)
              /\ 0 <= m <= 2 ^ 53 /\ -52 <= e <= 10.
Proof.
  intros Hp. unfold float_of_int.
  replace (p <? 0) with false by (symmetry; apply Z.ltb_ge; lia).
  rewrite Z.abs_eq by lia.
  assert (L0 : 0 <= ilog2 p 1 <= 62).
  { split.
    - apply (ilog2_ge p 1 0); simpl; lia.
    - apply ilog2_le; simpl; lia. }
  destruct (Z_le_gt_dec (ilog2 p 1) 51) as [Small | Big].
  - destruct (RN_normal false p 1 ltac:(lia) ltac:(lia) ltac:(lia))
      as [E [B [R M]]].
    rewrite E. eexists; eexists. split; [reflexivity |].
    change (2 ^ 53) with 9007199254740992 in *. lia.
  - unfold RN. destruct (p =? 0) eqn:P0; [apply Z.eqb_eq in P0; lia |].
    replace (Z.max (ilog2 p 1 - 52) (-1074)) with (ilog2 p 1 - 52) by lia.
    set (e := ilog2 p 1 - 52).
    unfold scaled. destruct (0 <=? e) eqn:E; [| apply Z.leb_gt in E; lia].
    destruct (971 <? e) eqn:O1; [apply Z.ltb_lt in O1; lia |].
    destruct (e =? 971) eqn:O2; [apply Z.eqb_eq in O2; lia |].
    cbn [orb andb]. eexists; eexists. split; [reflexivity |].
    pose proof (pow2_pos e ltac:(lia)) as Pe.
    split; [| lia]. split.
    + now destruct (rhe_bounds p (1 * 2 ^ e) ltac:(lia) ltac:(lia)).
    + apply rhe_le; try lia.
      pose proof (ilog2_upper p 1 0 ltac:(lia) ltac:(lia) ltac:(lia) ltac:(lia))
        as U.
      change (2 ^ 0) with 1 in U.
      replace (0 + ilog2 p 1 + 1) with (53 + e) in U by (unfold e; lia).
      rewrite (pow2_add 53 e) in U by lia.
      change (2 ^ 53) with 9007199254740992 in *. lia.
Qed.

Lemma log2_mul_le (a b : Z) (x y : Z) :
  0 < a -> 0 < b -> 0 <= x -> 0 <= y -> a <= 2 ^ x -> b <= 2 ^ y ->
  Z.log2 (a * b) <= x + y.
Proof.
  intros Ha Hb Hx Hy Ax By.
  assert (L : Z.log2 (a * b) < x + y + 1); [| lia].
  apply Z.log2_lt_pow2; [nia |].
  rewrite (pow2_add (x + y) 1), (pow2_add x y) by lia.
  change (2 ^ 1) with 2.
  pose proof (pow2_pos x Hx). pose proof (pow2_pos y Hy). nia.
Qed.

(** The text written for a stored price: "$", the dollars, a point and two
    digits; for prices below 2^51 cents they are the digits of the price. *)
Lemma render_price_shape (p : Z) :
  0 <= p < 2 ^ 63 ->
  exists c,
    0 <= c
    /\ render_price p
       = Ok ("$" ++ str_of_int (c / 100) ++ "."
               ++ zero_pad 2 (str_of_int (c mod 100)))
    /\ (p < 2 ^ 51 -> c = p).
Proof.
  intros Hp. unfold render_price.
  destruct (Z.eq_dec p 0) as [-> | P0].
  { exists 0. split; [lia |]. split; [reflexivity | reflexivity]. }
  destruct (Z_lt_ge_dec p (2 ^ 51)) as [Small | Big].
  - destruct (price_written p ltac:(lia)) as (m & k & E & Hk & R).
    rewrite E. exists p. split; [lia |]. split; [| reflexivity].
    cbn [rbind format_2f]. unfold scaled. rewrite Z.opp_involutive.
    destruct (0 <=? k) eqn:S; [| apply Z.leb_gt in S; lia].
    rewrite Z.mul_1_l, R. reflexivity.
  - destruct (float_of_int_stored p ltac:(lia)) as (m0 & e0 & E0 & M0 & B0).
    unfold int_fmul. rewrite E0, RN_001. cbn [rbind]. unfold f001, fmul.
    simpl xorb. unfold scaled at 1.
    destruct (0 <=? - (e0 + -59)) eqn:S; [| apply Z.leb_gt in S; lia].
    apply Z.leb_le in S.
    assert (F : exists m e,
               RN false (m0 * 5764607523034235) (1 * 2 ^ (- (e0 + -59)))
               = F_fin false m e /\ 0 <= m).
    { pose proof (pow2_pos _ S) as Pd.
      apply RN_finite; [nia | lia |]. intros NZ.
      assert (LG : Z.log2 (m0 * 5764607523034235) <= 53 + 53).
      { apply log2_mul_le; lia. }
      pose proof (ilog2_le_log2 (m0 * 5764607523034235)
                    (1 * 2 ^ (- (e0 + -59))) ltac:(lia)).
      lia. }
    destruct F as (m & e & E & Hm). rewrite E. cbn [format_2f].
    assert (Sc : exists a b, scaled (m * 100) 1 (- e) = (a, b)
                             /\ 0 <= a /\ 0 < b).
    { unfold scaled. destruct (0 <=? - e) eqn:Se.
      - apply Z.leb_le in Se. pose proof (pow2_pos _ Se).
        eexists; eexists. split; [reflexivity | lia].
      - apply Z.leb_gt in Se. pose proof (pow2_pos (- - e) ltac:(lia)).
        eexists; eexists. split; [reflexivity | nia]. }
    destruct Sc as (a & b & Es & Ha & Hb). rewrite Es.
    exists (round_half_even a b). split.
    + now destruct (rhe_bounds a b Hb Ha).
    + split; [reflexivity | lia].
Qed.


End StoredText.

(* ------------------------------------------------------------------------- *)
(** ** The backup file (lines 193-213) *)

Section Backup.

Lemma stored_ok_facts (p : Product) :
  stored_ok p = true ->
  0 <= product_price p < 2 ^ 63
  /\ fits_int64 (product_price p) = true
  /\ fits_int64 (product_quantity p) = true
  /\ valid_date (date_updated p) = true.
Proof.
  unfold stored_ok. rewrite !andb_true_iff. intros [[[H1 H2] H3] H4].
  repeat split; try assumption; [now apply Z.leb_le |].
  unfold fits_int64 in H2. apply andb_true_iff in H2.
  destruct H2 as [_ H2]. now apply Z.ltb_lt.
Qed.

(** The row written for a stored product. *)
Lemma backup_row_stored (p : Product) :
  stored_ok p = true ->
  exists c,
    0 <= c /\ (product_price p < 2 ^ 51 -> c = product_price p)
    /\ backup_row p
       = Ok (mk_csv_row (product_name p)
               (str_of_int (product_quantity p))
               ("$" ++ str_of_int (c / 100) ++ "."
                  ++ zero_pad 2 (str_of_int (c mod 100)))
               (strftime (date_updated p))).
Proof.
  intros S. destruct (stored_ok_facts p S) as (B & _).
  destruct (render_price_shape (product_price p) B) as (c & Hc & E & X).
  exists c. split; [exact Hc |]. split; [exact X |].
  unfold backup_row. rewrite E. reflexivity.
Qed.

Lemma backup_rows_exist (ps : list Product) :
  Forall (fun p => stored_ok p = true) ps ->
  exists rs, Forall2 (fun p r => backup_row p = Ok r) ps rs.
Proof.
  induction 1 as [| p ps Hp _ [rs IH]]; [exists []; constructor |].
  destruct (backup_row_stored p Hp) as (c & _ & _ & E).
  eexists (_ :: rs). constructor; [exact E | exact IH].
Qed.

Lemma write_rows_spec (ps : list Product) (rs : list csv_row) :
  Forall2 (fun p r => backup_row p = Ok r) ps rs ->
  forall w f, backup_inventory w = Some f ->
    write_rows ps w
    = (Ok tt, set_backup w (mk_csv_file (fieldnames f) (rows f ++ rs)%list)).
Proof.
  induction 1 as [| p r ps rs Hp _ IH]; intros w f Hf.
  - cbn [write_rows]. unfold ret. rewrite app_nil_r.
    destruct w, f. simpl in *. now subst.
  - cbn [write_rows]. unfold bind, lift. rewrite Hp, Hf.
    rewrite (IH (set_backup w
                   (mk_csv_file (fieldnames f) (rows f ++ [r])%list))
               (mk_csv_file (fieldnames f) (rows f ++ [r])%list) eq_refl).
    cbn [fieldnames rows]. rewrite <- app_assoc. reflexivity.
Qed.

Lemma backup_database_spec (w : world) (rs : list csv_row) :
  Forall2 (fun p r => backup_row p = Ok r) (db w) rs ->
  exists w',
    backup_database w = (Ok tt, w')
    /\ db w' = db w /\ stdin w' = stdin w
    /\ backup_inventory w' = Some (mk_csv_file backup_fieldnames rs).
Proof.
  intros H. unfold backup_database, print_heading, bind, print.
  cbn [db set_backup echo].
  erewrite (write_rows_spec (db w) rs H _ (mk_csv_file backup_fieldnames []));
    [| reflexivity].
  eexists. split; [reflexivity |]. repeat split.
Qed.


Lemma float_of_int_fits (p : Z) :
  fits_int64 p = true -> exists x, float_of_int p = Ok x.
Proof.
  intros F. unfold fits_int64 in F. apply andb_true_iff in F.
  destruct F as [Lo Hi]. apply Z.leb_le in Lo. apply Z.ltb_lt in Hi.
  unfold float_of_int.
  destruct (RN_finite (p <? 0) (Z.abs p) 1) as [m [e [E _]]].
  - lia.
  - lia.
  - intros N. pose proof (ilog2_le_log2 (Z.abs p) 1 ltac:(lia)) as L.
    assert (Z.log2 (Z.abs p) <= 63).
    { destruct (Z.eq_dec (Z.abs p) (2 ^ 63)) as [-> | Ne].
      - now rewrite Z.log2_pow2 by lia.
      - assert (Z.log2 (Z.abs p) < 63); [| lia].
        apply Z.log2_lt_pow2; lia. }
    lia.
  - rewrite E. eauto.
Qed.

(** [print_product_details] and the backup can write every price of the
    column, of either sign. *)
Lemma render_price_total (p : Z) :
  fits_int64 p = true -> exists s, render_price p = Ok s.
Proof.
  intros F. destruct (float_of_int_fits p F) as [x E].
  unfold render_price, int_fmul. rewrite E. cbn [rbind]. eauto.
Qed.

Lemma backup_rows_total (ps : list Product) :
  Forall (fun p => fits_int64 (product_price p) = true) ps ->
  exists rs, Forall2 (fun p r => backup_row p = Ok r) ps rs.
Proof.
  induction 1 as [| p ps Hp _ [rs IH]]; [exists []; constructor |].
  destruct (render_price_total _ Hp) as [s E].
  eexists (_ :: rs). constructor; [| exact IH].
  unfold backup_row. rewrite E. reflexivity.
Qed.

(** What [zero_pad] and [str] write is the layout digit by digit. *)
Lemma two_digit_written (r : Z) :
  0 <= r < 100 -> zero_pad 2 (str_of_int r) = two_digit r.
Proof.
  intros H.
  pose (P := fun r => String.eqb (zero_pad 2 (str_of_int r)) (two_digit r)).
  assert (C : holds_from P 0 100 = true) by (vm_compute; reflexivity).
  pose proof (holds_from_spec P 100 0 r C ltac:(lia)) as K.
  now apply String.eqb_eq in K.
Qed.

Lemma four_digit_written (y : Z) :
  1000 <= y <= 9999 -> str_of_int y = four_digit y.
Proof.
  intros H.
  pose (P := fun y => String.eqb (str_of_int y) (four_digit y)).
  assert (C : holds_from P 1000 (Z.to_nat 9000) = true)
    by (vm_compute; reflexivity).
  pose proof (holds_from_spec P (Z.to_nat 9000) 1000 y C ltac:(lia)) as K.
  now apply String.eqb_eq in K.
Qed.

Lemma strftime_layout (d : datetime) :
  valid_date d = true -> strftime d = layout_date d.
Proof.
  intros V. destruct (valid_date_bounds d V) as (Y & M & D).
  pose proof (days_in_month_le (year d) (month d)) as D31.
  unfold strftime, layout_date.
  rewrite (two_digit_written (month d)) by lia.
  rewrite (two_digit_written (day d)) by lia.
  now rewrite (four_digit_written (year d)) by lia.
Qed.




End Backup.

(* ------------------------------------------------------------------------- *)
(** ** Backup, then import *)

Section RoundTrip.

(** The text of a 64-bit integer is far below the 4300 digits that [int]
    takes. *)
Lemma double_digits (d : Decimal.uint) :
  (Decimal.nb_digits (Decimal.Little.double d) <= S (Decimal.nb_digits d))%nat
  /\ (Decimal.nb_digits (Decimal.Little.succ_double d)
      <= S (Decimal.nb_digits d))%nat.
Proof.
  induction d as [| d [IH1 IH2] | d [IH1 IH2] | d [IH1 IH2] | d [IH1 IH2]
                  | d [IH1 IH2] | d [IH1 IH2] | d [IH1 IH2] | d [IH1 IH2]
                  | d [IH1 IH2] | d [IH1 IH2]];
    cbn [Decimal.Little.double Decimal.Little.succ_double Decimal.nb_digits];
    lia.
Qed.

Lemma to_little_uint_digits (p : positive) :
  (Decimal.nb_digits (Pos.to_little_uint p) <= Pos.size_nat p)%nat.
Proof.
  induction p as [p IH | p IH |]; cbn [Pos.to_little_uint Pos.size_nat].
  - destruct (double_digits (Pos.to_little_uint p)). lia.
  - destruct (double_digits (Pos.to_little_uint p)). lia.
  - cbn. lia.
Qed.

Lemma size_nat_le (p : positive) :
  2 ^ Z.of_nat (Pos.size_nat p) <= 2 * Z.pos p.
Proof.
  induction p as [p IH | p IH |]; cbn [Pos.size_nat].
  - rewrite Nat2Z.inj_succ, Z.pow_succ_r, (Pos2Z.inj_xI p) by lia. lia.
  - rewrite Nat2Z.inj_succ, Z.pow_succ_r, (Pos2Z.inj_xO p) by lia. lia.
  - cbn. lia.
Qed.

Lemma string_of_uint_length (u : Decimal.uint) :
  String.length (NilEmpty.string_of_uint u) = Decimal.nb_digits u.
Proof.
  induction u; cbn [NilEmpty.string_of_uint String.length Decimal.nb_digits];
    congruence.
Qed.

Lemma str_of_int_short (p : positive) :
  Z.pos p <= 2 ^ 63 -> len (str_of_int (Z.pos p)) <= 64.
Proof.
  intros B. unfold len, str_of_int. cbn [Z.to_int NilZero.string_of_int].
  assert (S64 : (Pos.size_nat p <= 64)%nat).
  { pose proof (size_nat_le p) as L.
    destruct (le_lt_dec (Pos.size_nat p) 64) as [K | K]; [exact K |].
    assert (2 ^ 65 <= 2 ^ Z.of_nat (Pos.size_nat p))
      by (apply Z.pow_le_mono_r; lia).
    change (2 ^ 65) with (2 * 2 ^ 64) in *.
    change (2 ^ 63) with 9223372036854775808 in *.
    change (2 ^ 64) with 18446744073709551616 in *. lia. }
  pose proof (to_little_uint_digits p) as D.
  unfold NilZero.string_of_uint, Pos.to_uint.
  rewrite <- (DecimalFacts.nb_digits_rev (Pos.to_little_uint p)) in D.
  rewrite <- string_of_uint_length in D.
  destruct (Decimal.rev (Pos.to_little_uint p)); cbn [String.length] in *;
    lia.
Qed.

(** [int] reads back what [str] wrote for a number of the 64-bit columns. *)
Lemma int_of_str_of_int (n : Z) :
  fits_int64 n = true -> int_of_str (str_of_int n) = Ok n.
Proof.
  intros Fits.
  assert (B : - 2 ^ 63 <= n < 2 ^ 63).
  { unfold fits_int64 in Fits. apply andb_true_iff in Fits.
    destruct Fits as [Lo Hi]. apply Z.leb_le in Lo. apply Z.ltb_lt in Hi.
    lia. }
  assert (P : forall s, all_chars is_digit s = true -> s <> "" ->
                        len s <= 4300 ->
                        int_of_str s = Ok (num s)
                        /\ int_of_str (String "-" s) = Ok (- num s)).
  { intros s D NE Short.
    assert (Lim : (4300 <? len s) = false)
      by (apply Z.ltb_ge; exact Short).
    assert (NS : all_chars (fun c => negb (is_space c)) s = true).
    { apply (all_chars_impl is_digit); [| exact D]. intros c Hc.
      now destruct (digit_char_facts c Hc) as (-> & _). }
    assert (NU : all_chars (fun c => negb (chr_eqb c "_")) s = true).
    { apply (all_chars_impl is_digit); [| exact D]. intros c Hc.
      now destruct (digit_char_facts c Hc) as (_ & -> & _). }
    assert (NSm : all_chars (fun c => negb (is_space c)) (String "-" s) = true)
      by (cbn [all_chars]; now rewrite NS).
    unfold int_of_str, strip_by.
    destruct s as [| c s]; [congruence |].
    pose proof D as D'. cbn [all_chars] in D'. apply andb_true_iff in D'.
    destruct D' as [Hc _].
    destruct (digit_char_facts c Hc) as (F1 & F2 & F3 & F4 & F5 & _).
    split.
    - rewrite lstrip_none by exact F1. rewrite (rstrip_none _ _ NS).
      unfold split_sign. rewrite F4, F5.
      rewrite (drop_underscores_none _ None I NU), Lim.
      now rewrite (digits_value_digits _ D NE).
    - rewrite lstrip_none by reflexivity.
      rewrite (rstrip_none _ _ NSm).
      unfold split_sign. change (chr_eqb "-" "-") with true. cbv iota.
      rewrite (drop_underscores_none _ None I NU), Lim.
      now rewrite (digits_value_digits _ D NE). }
  destruct n as [| p | p].
  - reflexivity.
  - destruct (str_of_int_nonneg (Zpos p) ltac:(lia)) as (c & s & E & D & V).
    pose proof (str_of_int_short p ltac:(lia)) as Sh.
    rewrite E in *.
    destruct (P (String c s) D ltac:(discriminate) ltac:(lia)) as [P1 _].
    rewrite P1. unfold num. now rewrite V.
  - destruct (str_of_int_nonneg (Zpos p) ltac:(lia)) as (c & s & E & D & V).
    pose proof (str_of_int_short p ltac:(lia)) as Sh.
    assert (E' : str_of_int (Zneg p) = String "-" (String c s)).
    { unfold str_of_int in *. simpl in *. now rewrite E. }
    rewrite E in Sh.
    rewrite E'.
    destruct (P (String c s) D ltac:(discriminate) ltac:(lia)) as [_ P2].
    rewrite P2. unfold num. rewrite V. reflexivity.
Qed.

(** A backup row of a product priced below 2^51 cents converts back to the
    product's price and date. *)
Lemma convert_backup_row (p : Product) (r : csv_row) :
  stored_ok p = true -> product_price p < 2 ^ 51 ->
  backup_row p = Ok r ->
  convert_row r
  = Ok (mk_dict (product_name p) (VStr (str_of_int (product_quantity p)))
          (product_price p) (date_updated p)).
Proof.
  intros S Small E.
  destruct (backup_row_stored p S) as (c & Hc & X & Er).
  specialize (X Small). subst c.
  set (q := product_price p / 100) in *.
  set (m := product_price p mod 100) in *.
  assert (Ept : "$" ++ str_of_int q ++ "." ++ zero_pad 2 (str_of_int m)
                = price_text true (str_of_int q)
                    (Some (zero_pad 2 (str_of_int m)))) by reflexivity.
  rewrite Ept in Er. clear Ept.
  assert (Er' : Ok r = Ok (mk_csv_row (product_name p)
                             (str_of_int (product_quantity p))
                             (price_text true (str_of_int q)
                                (Some (zero_pad 2 (str_of_int m))))
                             (strftime (date_updated p))))
    by (now rewrite <- E, <- Er).
  injection Er' as ->. clear E Er.
  destruct (stored_ok_facts p S) as (_ & _ & _ & V).
  destruct (strftime_valid _ V) as [_ RT].
  pose proof (Z.mod_pos_bound (product_price p) 100 ltac:(lia)) as Hm.
  pose proof (Z.div_pos (product_price p) 100 Hc ltac:(lia)) as Hq.
  fold m in Hm. fold q in Hq.
  destruct (str_of_int_nonneg q Hq) as (a & s & Es & D & Vq).
  destruct (two_digits m Hm) as [T Vm].
  assert (Tm : all_chars is_digit (zero_pad 2 (str_of_int m)) = true
               /\ len (zero_pad 2 (str_of_int m)) = 2).
  { destruct (zero_pad 2 (str_of_int m)) as [| d1 [| d2 [| ? ?]]];
      try discriminate T.
    cbn [two_digit_text] in T. apply andb_true_iff in T.
    destruct T as [T1 T2]. cbn [all_chars]. rewrite T1, T2.
    split; reflexivity. }
  destruct Tm as [Dm Lm].
  assert (EC : exact_cents (str_of_int q) (Some (zero_pad 2 (str_of_int m)))
               = product_price p).
  { unfold exact_cents. rewrite Lm, Vm, Es. unfold num at 1. rewrite Vq.
    change (10 ^ (2 - 2)) with 1.
    pose proof (Z.div_mod (product_price p) 100 ltac:(lia)).
    unfold q, m. lia. }
  assert (PC : price_in_cents
                 (price_text true (str_of_int q)
                    (Some (zero_pad 2 (str_of_int m))))
               = Ok (product_price p)).
  { rewrite price_in_cents_price_text.
    - now rewrite EC.
    - rewrite Es. exact D.
    - split; [exact Dm | lia].
    - rewrite Es. discriminate.
    - rewrite EC. lia. }
  unfold convert_row.
  cbv beta iota delta [csv_date_updated csv_product_price csv_product_name
                       csv_product_quantity].
  rewrite RT. unfold rbind at 1.
  match goal with
  | |- rbind ?X _ = _ =>
      change X
        with (price_in_cents
                (price_text true (str_of_int q)
                   (Some (zero_pad 2 (str_of_int m)))))
  end.
  rewrite PC. reflexivity.
Qed.

Lemma datetime_geb_refl (d : datetime) : datetime_geb d d = true.
Proof.
  apply datetime_eqb_geb. unfold datetime_eqb. now rewrite !Z.eqb_refl.
Qed.

Lemma get_by_name_stored (t : table) (p : Product) :
  unique_names t -> In p t -> get_by_name (product_name p) t = Ok p.
Proof.
  intros U Hin. unfold get_by_name.
  destruct (find _ t) as [r |] eqn:F; simpl.
  - apply find_some in F. destruct F as [Hr E]. apply String.eqb_eq in E.
    now rewrite (NoDup_map_eq product_name t r p U Hr Hin E).
  - exfalso. apply (find_none _ _ F) in Hin.
    rewrite String.eqb_refl in Hin. discriminate.
Qed.

Lemma overwrite_self (t : table) (p : Product) :
  ids_ascending t -> In p t -> overwrite p t = t.
Proof.
  intros S Hin. apply ids_ascending_NoDup in S. unfold overwrite.
  rewrite <- (map_id t) at 2. apply map_ext_in. intros r Hr.
  destruct (product_id r =? product_id p) eqn:Q; [| reflexivity].
  apply Z.eqb_eq in Q.
  now rewrite (NoDup_map_eq product_id t r p S Hr Hin Q).
Qed.

(** Read over the table it was written from, a backup row changes
    nothing. *)
Lemma add_csv_row_same (w : world) (p : Product) (r : csv_row) :
  table_ok (db w) -> In p (db w) ->
  stored_ok p = true -> product_price p < 2 ^ 51 ->
  backup_row p = Ok r ->
  add_csv_row r w = (Ok tt, w).
Proof.
  intros T Hin S Small E.
  unfold add_csv_row, bind, lift.
  rewrite (convert_backup_row p r S Small E).
  destruct (stored_ok_facts p S) as (_ & Fp & Fq & _).
  destruct T as [U A].
  set (row := mk_dict (product_name p)
                (VStr (str_of_int (product_quantity p)))
                (product_price p) (date_updated p)).
  rewrite (reconcile_overwrites w row p (product_quantity p) (conj U A)
             (int_of_str_of_int (product_quantity p) Fq) Fq Fp
             (get_by_name_stored _ _ U Hin) (datetime_geb_refl _)).
  unfold row. cbn [d_product_price d_date_updated].
  replace (updated p (product_quantity p) (product_price p) (date_updated p))
    with p by (now destruct p).
  rewrite (overwrite_self _ _ A Hin). now destruct w.
Qed.

Lemma add_csv_same (w : world) (ps : list Product) (rs : list csv_row) :
  table_ok (db w) ->
  Forall2 (fun p r => backup_row p = Ok r) ps rs ->
  (forall p, In p ps ->
     In p (db w) /\ stored_ok p = true /\ product_price p < 2 ^ 51) ->
  add_csv rs w = (Ok tt, w).
Proof.
  intros T R. induction R as [| p r ps rs Hp R IH]; intros H.
  - reflexivity.
  - cbn [add_csv]. unfold bind.
    destruct (H p (or_introl eq_refl)) as (Hin & S & Small).
    rewrite (add_csv_row_same w p r T Hin S Small Hp).
    apply IH. intros p' Hp'. apply H. now right.
Qed.

(** Read into a table that has none of the names, the backup rows are
    inserted one after the other. *)
Lemma add_csv_fresh (ps : list Product) (rs : list csv_row) :
  Forall2 (fun p r => backup_row p = Ok r) ps rs ->
  forall w,
    (forall p, In p ps -> stored_ok p = true /\ product_price p < 2 ^ 51) ->
    NoDup (map product_name (db w) ++ map product_name ps)%list ->
    exists t',
      add_csv rs w = (Ok tt, set_db w t')
      /\ map record_of t' = (map record_of (db w) ++ map record_of ps)%list.
Proof.
  induction 1 as [| p r ps rs Hp R IH]; intros w H N.
  - exists (db w). split; [now destruct w |]. simpl. now rewrite app_nil_r.
  - destruct (H p (or_introl eq_refl)) as (S & Small).
    destruct (stored_ok_facts p S) as (_ & Fp & Fq & _).
    assert (Fresh : has_name (product_name p) (db w) = false).
    { destruct (has_name (product_name p) (db w)) eqn:X; [| reflexivity].
      exfalso. apply has_name_In in X. simpl in N.
      apply NoDup_remove_2 in N. apply N. apply in_or_app. now left. }
    set (new := mk_Product (next_id (db w)) (product_name p)
                  (product_quantity p) (product_price p) (date_updated p)).
    assert (Step : add_csv_row r w = (Ok tt, set_db w (db w ++ [new])%list)).
    { unfold add_csv_row, bind, lift.
      rewrite (convert_backup_row p r S Small Hp).
      unfold reconcile, try_except, add_entry, bind, lift, execute, create.
      cbn [d_product_quantity d_product_name d_product_price d_date_updated
           int].
      rewrite (int_of_str_of_int _ Fq), Fq, Fp, Fresh. reflexivity. }
    destruct (IH (set_db w (db w ++ [new])%list)) as (t' & E & Rec).
    + intros p' Hp'. apply H. now right.
    + cbn [db set_db]. rewrite map_app. simpl in *.
      now rewrite <- app_assoc.
    + exists t'. split.
      * cbn [add_csv]. unfold bind. rewrite Step, E. reflexivity.
      * rewrite Rec. cbn [db set_db]. rewrite map_app. simpl.
        rewrite <- app_assoc. reflexivity.
Qed.

(** C7, as the code has it. For a table with one row per name whose prices
    are from 0 to below 2^51 cents (quantities and dates as the columns hold
    them, dates from the year 1000 on): the backup file, read by the
    importer over the same table, leaves the table, and the whole state, as
    it is; read into an empty table, it gives the same records (name,
    quantity, price, date) in the same order. *)
Theorem C7_backup_then_import (w : world) :
  table_ok (db w) ->
  Forall (fun p => stored_ok p = true /\ product_price p < 2 ^ 51) (db w) ->
  exists file w',
    backup_database w = (Ok tt, w')
    /\ db w' = db w
    /\ backup_inventory w' = Some file
    /\ add_csv (rows file) w' = (Ok tt, w')
    /\ fst (add_csv (rows file) (set_db w' [])) = Ok tt
    /\ map record_of (db (snd (add_csv (rows file) (set_db w' []))))
       = map record_of (db w).
Proof.
  intros T OK.
  assert (OK1 : Forall (fun p => stored_ok p = true) (db w)).
  { eapply Forall_impl; [| exact OK]. simpl. tauto. }
  rewrite Forall_forall in OK.
  destruct (backup_rows_exist (db w) OK1) as [rs R].
  destruct (backup_database_spec w rs R) as (w' & E & Edb & _ & Ef).
  exists (mk_csv_file backup_fieldnames rs), w'.
  split; [exact E |]. split; [exact Edb |]. split; [exact Ef |].
  cbn [rows].
  destruct (add_csv_fresh (db w) rs R (set_db w' [])) as (t' & F & Rec).
  { intros p Hp. now apply OK. }
  { cbn [db set_db map app]. apply T. }
  split.
  - apply (add_csv_same w' (db w) rs).
    + now rewrite Edb.
    + exact R.
    + intros p Hp. rewrite Edb. split; [exact Hp | now apply OK].
  - rewrite F. split; [reflexivity |]. exact Rec.
Qed.

Lemma C7_backup_then_import_witness :
  exists file w',
    backup_database stocked_world = (Ok tt, w')
    /\ db w' = db stocked_world
    /\ backup_inventory w' = Some file
    /\ add_csv (rows file) w' = (Ok tt, w')
    /\ fst (add_csv (rows file) (set_db w' [])) = Ok tt
    /\ map record_of (db (snd (add_csv (rows file) (set_db w' []))))
       = map record_of (db stocked_world).
Proof.
  apply (C7_backup_then_import stocked_world).
  - split.
    + unfold unique_names. simpl.
      constructor; [simpl; intros [H | []]; discriminate H |].
      constructor; [simpl; tauto | constructor].
    + unfold ids_ascending. simpl. repeat constructor.
  - repeat constructor.
Defined.

(** C7 as stated fails for large prices. The row priced "$52542922533879.87"
    is imported as 5254292253387987 cents; the backup writes that price as
    "$52542922533879.88"; read back, over the same table or into an empty
    one, the price is 5254292253387988. *)
Lemma C7_counterexample :
  let w := snd (add_csv [big_price] empty_world) in
  let w' := snd (backup_database w) in
  map record_of (db w)
  = [("Yacht", 1, 5254292253387987, mk_datetime 2020 3 20)]
  /\ option_map rows (backup_inventory w')
     = Some [mk_csv_row "Yacht" "1" "$52542922533879.88" "03/20/2020"]
  /\ map record_of
       (db (snd (add_csv [mk_csv_row "Yacht" "1" "$52542922533879.88"
                            "03/20/2020"] w')))
     = [("Yacht", 1, 5254292253387988, mk_datetime 2020 3 20)]
  /\ map record_of
       (db (snd (add_csv [mk_csv_row "Yacht" "1" "$52542922533879.88"
                            "03/20/2020"] (set_db w' []))))
     = [("Yacht", 1, 5254292253387988, mk_datetime 2020 3 20)].
Proof.
  vm_compute. repeat split; reflexivity.
Qed.

End RoundTrip.

(* ------------------------------------------------------------------------- *)
(** ** Worked examples *)

Section Examples.

(** The end-to-end example of the specification: Widget imported with
    quantity 10 at $5.00, then again with quantity 20 at $6.00 and a later
    date, is stored once, with the later values. *)
Example widget_imported_twice :
  add_csv [mk_csv_row "Widget" "10" "$5.00" "01/01/2020";
           mk_csv_row "Widget" "20" "$6.00" "01/02/2020"] empty_world
  = (Ok tt,
     set_db empty_world [mk_Product 1 "Widget" 20 600 (mk_datetime 2020 1 2)]).
Proof. vm_compute. reflexivity. Qed.

(** The same two rows in the other order: the older one is dropped. *)
Example widget_older_row_dropped :
  add_csv [mk_csv_row "Widget" "20" "$6.00" "01/02/2020";
           mk_csv_row "Widget" "10" "$5.00" "01/01/2020"] empty_world
  = (Ok tt,
     set_db empty_world [mk_Product 1 "Widget" 20 600 (mk_datetime 2020 1 2)]).
Proof. vm_compute. reflexivity. Qed.

(** Values of the float model on inputs whose Python results are well known:
    [float("0.1")] is 0x1.999999999999ap-4, [round(2.5)] is 2,
    [round(3.5)] is 4, ["%.2f" % 1.005] is "1.00", ["%.2f" % 2.675] is
    "2.67", and [round(float("12.345")*100)] is 1234. *)
Example float_one_tenth :
  float_of_str "0.1" = Ok (F_fin false 7205759403792794 (-56)).
Proof. vm_compute. reflexivity. Qed.

Example round_ties_to_even :
  (x <- float_of_str "2.5" ;; round x)%py = Ok 2
  /\ (x <- float_of_str "3.5" ;; round x)%py = Ok 4
  /\ (x <- float_of_str "-2.5" ;; round x)%py = Ok (-2).
Proof. vm_compute. repeat split; reflexivity. Qed.

Example format_two_decimals :
  (x <- float_of_str "1.005" ;; Ok (format_2f x))%py = Ok "1.00"
  /\ (x <- float_of_str "2.675" ;; Ok (format_2f x))%py = Ok "2.67"
  /\ render_price 319 = Ok "$3.19"
  /\ render_price (-5) = Ok "$-0.05".
Proof. vm_compute. repeat split; reflexivity. Qed.

Example price_of_three_decimals : price_in_cents "$12.345" = Ok 1234.
Proof. vm_compute. reflexivity. Qed.

(** What [float] and [round] refuse. *)
Example price_errors :
  price_in_cents "$x.yz" = Raise ValueError
  /\ price_in_cents "" = Raise ValueError
  /\ price_in_cents "nan" = Raise ValueError
  /\ price_in_cents "inf" = Raise OverflowError
  /\ price_in_cents "1e400" = Raise OverflowError.
Proof. vm_compute. repeat split; reflexivity. Qed.

(** Dates: what [strptime] takes and what it refuses. *)
Example dates_read :
  strptime "1/5/2020" = Ok (mk_datetime 2020 1 5)
  /\ strptime "02/29/2020" = Ok (mk_datetime 2020 2 29)
  /\ strptime "02/29/2021" = Raise ValueError
  /\ strptime "13/01/2020" = Raise ValueError
  /\ strptime "2020-01-05" = Raise ValueError.
Proof. vm_compute. repeat split; reflexivity. Qed.

(** One pass of the interactive add: the name is asked again when empty, the
    price when it has no point or three decimals, the quantity when it is not
    a number; the new product is stored under the next id. *)
Example interactive_add :
  let w := mk_world (db widget_world)
             [""; "Gadget"; "5"; "2.505"; "$2.50"; "three"; "3"; "n"]
             [] None in
  fst (add_new_product [mk_datetime 2020 3 15] w) = Ok true
  /\ db (snd (add_new_product [mk_datetime 2020 3 15] w))
     = db stocked_world.
Proof. vm_compute. split; reflexivity. Qed.

End Examples.

(* ------------------------------------------------------------------------- *)
(** ** How the table changes *)

Section Steps.

Lemma create_new (name : string) (quantity price : Z) (date : datetime)
    (t : table) :
  has_name name t = false ->
  fits_int64 quantity = true -> fits_int64 price = true ->
  create name quantity price date t
  = Ok (t ++ [mk_Product (next_id t) name quantity price date])%list.
Proof. intros N Fq Fp. unfold create. now rewrite Fq, Fp, N. Qed.

Lemma save_updated (t : table) (existing : Product) (quantity price : Z)
    (date : datetime) :
  unique_names t -> In existing t ->
  fits_int64 quantity = true -> fits_int64 price = true ->
  save (updated existing quantity price date) t
  = Ok (overwrite (updated existing quantity price date) t).
Proof.
  intros U Hin Fq Fp. unfold save. cbn [updated product_quantity product_price
                                        product_name product_id].
  rewrite Fq, Fp. cbn [andb negb].
  now rewrite (no_other_row_named t existing U Hin).
Qed.

Lemma step_table_ok (t t' : table) : table_ok t -> step t t' -> table_ok t'.
Proof.
  intros T S. destruct S as [name q p d N Fq Fp | existing q p d Hin G Fq Fp].
  - exact (create_table_ok _ _ _ _ _ _ T (create_new name q p d t N Fq Fp)).
  - exact (save_table_ok _ _ _ T
             (save_updated t existing q p d (proj1 T) Hin Fq Fp)).
Qed.

Lemma steps_table_ok (t t' : table) : table_ok t -> steps t t' -> table_ok t'.
Proof.
  intros T S. induction S as [| t1 t2 _ IH S2]; [exact T |].
  exact (step_table_ok _ _ IH S2).
Qed.

Lemma steps_trans (a b c : table) : steps a b -> steps b c -> steps a c.
Proof.
  intros H1 H2. induction H2 as [| t1 t2 _ IH S]; [exact H1 |].
  exact (steps_more a t1 t2 IH S).
Qed.

Lemma steps_one (a b : table) : step a b -> steps a b.
Proof. intros S. exact (steps_more a a b (steps_none a) S). Qed.

Lemma same_rows (t : table) :
  Forall2 (fun old new =>
             product_id new = product_id old
             /\ product_name new = product_name old
             /\ datetime_geb (date_updated new) (date_updated old) = true)
    t t.
Proof.
  induction t as [| p t IH]; constructor; [| exact IH].
  split; [reflexivity |]. split; [reflexivity |].
  apply datetime_eqb_geb. unfold datetime_eqb. now rewrite !Z.eqb_refl.
Qed.

Lemma grown_refl (t : table) : grown t t.
Proof.
  exists t, []. split; [now rewrite app_nil_r | apply same_rows].
Qed.

Lemma datetime_geb_trans (a b c : datetime) :
  datetime_geb a b = true -> datetime_geb b c = true ->
  datetime_geb a c = true.
Proof.
  unfold datetime_geb. rewrite !negb_true_iff. intros H1 H2.
  destruct (datetime_ltb a c) eqn:E; [| reflexivity].
  apply datetime_ltb_spec in E.
  assert (N1 : ~ (datetime_ltb a b = true)) by congruence.
  assert (N2 : ~ (datetime_ltb b c = true)) by congruence.
  rewrite datetime_ltb_spec in N1, N2. lia.
Qed.

Lemma Forall2_app_inv_left {A B} (R : A -> B -> Prop) (l : list A)
    (k1 k2 : list B) :
  Forall2 R l (k1 ++ k2)%list ->
  exists l1 l2, l = (l1 ++ l2)%list /\ Forall2 R l1 k1 /\ Forall2 R l2 k2.
Proof.
  intros H. apply Forall2_app_inv_r in H.
  destruct H as (l1 & l2 & H1 & H2 & E). now exists l1, l2.
Qed.

Lemma grown_trans (a b c : table) : grown a b -> grown b c -> grown a c.
Proof.
  intros (k1 & e1 & E1 & F1) (k2 & e2 & E2 & F2). subst b c.
  apply Forall2_app_inv_l in F2.
  destruct F2 as (k2a & k2b & Fa & Fb & ->).
  exists k2a, (k2b ++ e2)%list. split; [now rewrite app_assoc |].
  clear Fb. revert k2a Fa.
  induction F1 as [| x y l l' Hxy F1 IH]; intros k2a Fa.
  - inversion Fa. constructor.
  - inversion Fa as [| y' z l2 l3 Hyz Fa']; subst. constructor.
    + destruct Hxy as (I1 & N1 & D1). destruct Hyz as (I2 & N2 & D2).
      repeat split; try congruence. exact (datetime_geb_trans _ _ _ D2 D1).
    + now apply IH.
Qed.

Lemma overwrite_grown (t : table) (existing : Product) (quantity price : Z)
    (date : datetime) :
  ids_ascending t -> In existing t ->
  datetime_geb date (date_updated existing) = true ->
  grown t (overwrite (updated existing quantity price date) t).
Proof.
  intros S Hin G. apply ids_ascending_NoDup in S.
  exists (overwrite (updated existing quantity price date) t), [].
  split; [now rewrite app_nil_r |].
  assert (K : forall r, In r t -> product_id r = product_id existing ->
                        r = existing).
  { intros r Hr E. exact (NoDup_map_eq product_id t r existing S Hr Hin E). }
  clear S Hin. unfold overwrite.
  induction t as [| r t IH]; cbn [map]; constructor.
  - cbn [updated product_id].
    destruct (product_id r =? product_id existing) eqn:Q.
    + apply Z.eqb_eq in Q. rewrite (K r (or_introl eq_refl) Q).
      cbn [product_id product_name date_updated]. repeat split. exact G.
    + split; [reflexivity |]. split; [reflexivity |].
      apply datetime_eqb_geb. unfold datetime_eqb. now rewrite !Z.eqb_refl.
  - apply IH. intros r' Hr'. apply K. now right.
Qed.

Lemma step_grown (t t' : table) : table_ok t -> step t t' -> grown t t'.
Proof.
  intros [_ A] S. destruct S as [name q p d N Fq Fp | existing q p d Hin G Fq Fp].
  - exists t, [mk_Product (next_id t) name q p d].
    split; [reflexivity | apply same_rows].
  - now apply overwrite_grown.
Qed.

Lemma steps_grown (t t' : table) : table_ok t -> steps t t' -> grown t t'.
Proof.
  intros T S. induction S as [| t1 t2 S1 IH S2]; [apply grown_refl |].
  apply (grown_trans t t1 t2 IH).
  apply step_grown; [| exact S2]. exact (steps_table_ok _ _ T S1).
Qed.

Lemma next_id_dense (t : table) :
  dense_ids t -> next_id t = Z.of_nat (List.length t) + 1.
Proof.
  unfold dense_ids, next_id. intros D.
  destruct t as [| p t]; [reflexivity |].
  cbn [map List.length seq] in D. injection D as D1 D2.
  rewrite D1, D2. cbn [List.length]. clear D1 D2 p.
  assert (F : forall n s a, a <= Z.of_nat s ->
             fold_left Z.max (map Z.of_nat (seq (S s) n)) a
             = if (n =? 0)%nat then a else Z.of_nat (s + n)).
  { induction n as [| n IH]; intros s a Ha; [reflexivity |].
    cbn [seq map fold_left]. rewrite IH by lia.
    destruct n; cbn [Nat.eqb]; lia. }
  rewrite (F (List.length t) 1%nat 1 ltac:(lia)).
  destruct (List.length t) as [| n]; cbn [Nat.eqb]; lia.
Qed.

Lemma overwrite_ids (p : Product) (t : table) :
  map product_id (overwrite p t) = map product_id t.
Proof.
  unfold overwrite. rewrite map_map. apply map_ext. intros r.
  destruct (product_id r =? product_id p) eqn:Q; [| reflexivity].
  apply Z.eqb_eq in Q. congruence.
Qed.

Lemma step_dense (t t' : table) : dense_ids t -> step t t' -> dense_ids t'.
Proof.
  intros D S. destruct S as [name q p d N Fq Fp | existing q p d Hin G Fq Fp].
  - unfold dense_ids. rewrite map_app, length_app, D.
    cbn [map List.length product_id]. rewrite (next_id_dense t D).
    rewrite Nat.add_1_r, seq_S, map_app. cbn [map]. do 3 f_equal. lia.
  - unfold dense_ids. rewrite overwrite_ids. unfold overwrite.
    rewrite length_map. exact D.
Qed.

Lemma steps_dense (t t' : table) : dense_ids t -> steps t t' -> dense_ids t'.
Proof.
  intros D S. induction S as [| t1 t2 _ IH S2]; [exact D |].
  exact (step_dense _ _ IH S2).
Qed.

Lemma dense_ids_ascending (t : table) : dense_ids t -> ids_ascending t.
Proof.
  unfold dense_ids, ids_ascending. intros ->.
  generalize 1%nat. induction (List.length t) as [| n IH]; intros s.
  - constructor.
  - cbn [seq map]. constructor; [apply IH |].
    rewrite Forall_forall. intros x Hx. apply in_map_iff in Hx.
    destruct Hx as (k & <- & Hk). apply in_seq in Hk. lia.
Qed.

Lemma int_raises (v : pyval) (e : exn) : int v = Raise e -> e = ValueError.
Proof.
  destruct v as [s | n]; [| discriminate]. unfold int, int_of_str.
  destruct (split_sign _) as [neg body].
  destruct (drop_underscores None body) as [ds |]; [| congruence].
  destruct (4300 <? len ds); [congruence |].
  destruct (digits_value ds); congruence.
Qed.

(** What [reconcile] does to the state: nothing, an insertion or an
    overwrite; the table is all it touches. *)
Lemma reconcile_effect (w : world) (row : dict) :
  table_ok (db w) ->
  exists t',
    snd (reconcile row w) = set_db w t'
    /\ (t' = db w
        \/ (exists quantity,
              int (d_product_quantity row) = Ok quantity
              /\ fits_int64 quantity = true
              /\ fits_int64 (d_product_price row) = true
              /\ has_name (d_product_name row) (db w) = false
              /\ fst (reconcile row w) = Ok tt
              /\ t' = (db w
                       ++ [mk_Product (next_id (db w)) (d_product_name row)
                             quantity (d_product_price row)
                             (d_date_updated row)])%list)
        \/ (exists existing quantity,
              int (d_product_quantity row) = Ok quantity
              /\ fits_int64 quantity = true
              /\ fits_int64 (d_product_price row) = true
              /\ get_by_name (d_product_name row) (db w) = Ok existing
              /\ datetime_geb (d_date_updated row) (date_updated existing)
                 = true
              /\ fst (reconcile row w) = Ok tt
              /\ t' = overwrite
                        (updated existing quantity (d_product_price row)
                           (d_date_updated row)) (db w))).
Proof.
  intros T.
  assert (Same : set_db w (db w) = w) by (now destruct w).
  destruct (int (d_product_quantity row)) as [q | e] eqn:Hq.
  2:{ exists (db w). split; [| now left].
      pose proof (int_raises _ _ Hq) as ->.
      unfold reconcile, try_except, add_entry, bind, lift. rewrite Hq.
      cbn. now rewrite Same. }
  destruct (fits_int64 q && fits_int64 (d_product_price row)) eqn:F.
  2:{ exists (db w). split; [| now left].
      unfold reconcile, try_except, add_entry, bind, lift, execute, create.
      rewrite Hq, F. cbn. now rewrite Same. }
  apply andb_true_iff in F. destruct F as [Fq Fp].
  destruct (has_name (d_product_name row) (db w)) eqn:N.
  - destruct (get_by_name (d_product_name row) (db w)) as [existing | e] eqn:G.
    + destruct (datetime_geb (d_date_updated row) (date_updated existing))
        eqn:D.
      * eexists. split.
        -- rewrite (reconcile_overwrites w row existing q T Hq Fq Fp G D).
           reflexivity.
        -- right; right. exists existing, q.
           rewrite (reconcile_overwrites w row existing q T Hq Fq Fp G D).
           repeat split; assumption.
      * exists (db w). split; [| now left].
        destruct (reconcile_older w row existing G D) as [E _].
        now rewrite E, Same.
    + exists (db w). split; [| now left].
      unfold reconcile, try_except, add_entry, bind, lift, execute, create.
      rewrite Hq, Fq, Fp, N. cbn. unfold query. rewrite G. cbn.
      now rewrite Same.
  - eexists. split.
    + unfold reconcile, try_except, add_entry, bind, lift, execute.
      rewrite Hq, (create_new _ _ _ _ _ N Fq Fp). reflexivity.
    + right; left. exists q.
      unfold reconcile, try_except, add_entry, bind, lift, execute.
      rewrite Hq, (create_new _ _ _ _ _ N Fq Fp).
      repeat split; assumption.
Qed.

Lemma reconcile_step (w : world) (row : dict) :
  table_ok (db w) ->
  db (snd (reconcile row w)) = db w
  \/ step (db w) (db (snd (reconcile row w))).
Proof.
  intros T. destruct (reconcile_effect w row T) as (t' & E & C).
  rewrite E. cbn [db set_db].
  destruct C as [-> | [(q & Hq & Fq & Fp & N & _ & ->)
                      | (ex & q & Hq & Fq & Fp & G & D & _ & ->)]].
  - now left.
  - right. now apply step_insert.
  - right. apply step_update; try assumption.
    now destruct (get_by_name_found _ _ _ G).
Qed.

Lemma add_csv_steps (inventory : list csv_row) (w : world) :
  table_ok (db w) -> steps (db w) (db (snd (add_csv inventory w))).
Proof.
  revert w. induction inventory as [| row rest IH]; intros w T.
  - apply steps_none.
  - cbn [add_csv]. unfold bind at 1.
    pose proof (add_csv_row_table_ok row w T) as T1.
    assert (S1 : steps (db w) (db (snd (add_csv_row row w)))).
    { unfold add_csv_row, bind, lift.
      destruct (convert_row row) as [d |]; [| apply steps_none].
      destruct (reconcile_step w d T) as [E | S].
      - rewrite E. apply steps_none.
      - now apply steps_one. }
    destruct (add_csv_row row w) as [[[] | e] w1]; cbn [snd] in *.
    + exact (steps_trans _ _ _ S1 (IH w1 T1)).
    + exact S1.
Qed.

End Steps.

(* ------------------------------------------------------------------------- *)
(** ** Code that leaves the table alone *)

Section Quiet.

Lemma quiet_ret {A} (a : A) : quiet (ret a).
Proof. intros w. split; [reflexivity | discriminate]. Qed.

Lemma quiet_print (s : string) : quiet (print s).
Proof. intros w. split; [reflexivity | discriminate]. Qed.

Lemma quiet_raise {A} (e : exn) :
  is_IntegrityError e = false -> quiet (@raise A e).
Proof.
  intros H w. split; [reflexivity |]. cbn. intros e' E. congruence.
Qed.

Lemma quiet_lift {A} (r : result A) :
  (forall e, r = Raise e -> is_IntegrityError e = false) -> quiet (lift r).
Proof. intros H w. split; [reflexivity | exact H]. Qed.

Lemma quiet_query {A} (f : table -> result A) :
  (forall t e, f t = Raise e -> is_IntegrityError e = false) ->
  quiet (query f).
Proof. intros H w. split; [reflexivity | apply H]. Qed.

Lemma quiet_bind {A B} (m : M A) (k : A -> M B) :
  quiet m -> (forall a, quiet (k a)) -> quiet (bind m k).
Proof.
  intros Hm Hk w. unfold bind. destruct (Hm w) as [D E].
  destruct (m w) as [[a | e] w1]; cbn [fst snd] in *.
  - destruct (Hk a w1) as [D1 E1]. split; [congruence | exact E1].
  - split; [exact D |]. intros e' Q. apply E. congruence.
Qed.

Lemma quiet_if {A} (b : bool) (m1 m2 : M A) :
  quiet m1 -> quiet m2 -> quiet (if b then m1 else m2).
Proof. destruct b; auto. Qed.

Lemma quiet_input_loop {A} (prompt : string) (body : string -> M (option A))
    (lines : list string) :
  (forall l, quiet (body l)) -> quiet (input_loop prompt body lines).
Proof.
  intros Hb. induction lines as [| l rest IH]; intros w; cbn [input_loop].
  - split; [reflexivity |]. cbn. intros e E. now inversion E.
  - destruct (Hb l (echo prompt (set_stdin w rest))) as [D E].
    change (db (echo prompt (set_stdin w rest))) with (db w) in D.
    destruct (body l _) as [[[a |] | e] w1]; cbn [fst snd] in *.
    + split; [exact D | discriminate].
    + destruct (IH w1) as [D1 E1]. split; [congruence | exact E1].
    + split; [exact D |]. intros e' Q. apply E. congruence.
Qed.

Lemma quiet_while_input {A} (prompt : string)
    (body : string -> M (option A)) :
  (forall l, quiet (body l)) -> quiet (while_input prompt body).
Proof. intros Hb w. unfold while_input. now apply quiet_input_loop. Qed.

Lemma quiet_print_heading (heading : string) : quiet (print_heading heading).
Proof.
  unfold print_heading.
  repeat (apply quiet_bind; [apply quiet_print | intros _]).
  apply quiet_print.
Qed.

Lemma get_by_id_raises (id : Z) (t : table) (e : exn) :
  get_by_id id t = Raise e -> is_IntegrityError e = false.
Proof.
  unfold get_by_id. destruct (find _ t); cbn; intros E; now inversion E.
Qed.

Lemma get_last_raises (t : table) (e : exn) :
  get_last t = Raise e -> is_IntegrityError e = false.
Proof. destruct t; cbn; intros E; now inversion E. Qed.

Lemma float_of_int_raises (n : Z) (e : exn) :
  float_of_int n = Raise e -> e = OverflowError.
Proof.
  unfold float_of_int. destruct (RN _ _ _); intros E; now inversion E.
Qed.

Lemma render_price_raises (p : Z) (e : exn) :
  render_price p = Raise e -> is_IntegrityError e = false.
Proof.
  unfold render_price, int_fmul.
  destruct (float_of_int p) as [x | e'] eqn:F; cbn; intros E;
    inversion E; subst.
  now rewrite (float_of_int_raises _ _ F).
Qed.

Lemma quiet_print_product_details (id : Z) : quiet (print_product_details id).
Proof.
  unfold print_product_details.
  apply quiet_bind; [apply quiet_query, get_by_id_raises | intros p].
  apply quiet_bind; [apply quiet_lift, render_price_raises | intros s].
  apply quiet_print.
Qed.

Lemma quiet_back_to_menu (question : string) : quiet (back_to_menu question).
Proof.
  unfold back_to_menu. apply quiet_while_input. intros l.
  destruct (_ || _); [apply quiet_ret |].
  apply quiet_bind; [apply quiet_print | intros _; apply quiet_ret].
Qed.

Lemma quiet_last_product_id : quiet last_product_id.
Proof. apply quiet_query, get_last_raises. Qed.

Lemma quiet_ask_product_name : quiet ask_product_name.
Proof.
  unfold ask_product_name. apply quiet_while_input. intros l.
  destruct (_ =? _)%nat; [| apply quiet_ret].
  apply quiet_bind; [apply quiet_print | intros _; apply quiet_ret].
Qed.

Lemma float_of_str_raises (s : string) (e : exn) :
  float_of_str s = Raise e -> e = ValueError.
Proof.
  unfold float_of_str.
  destruct (drop_underscores None _) as [u |]; [| congruence].
  destruct (split_sign u) as [neg body].
  destruct (_ || _); [discriminate |].
  destruct (String.eqb _ _); [discriminate |].
  destruct (decimal_of neg body); cbn; congruence.
Qed.

Lemma round_raises (x : float) (e : exn) :
  round x = Raise e -> is_IntegrityError e = false.
Proof.
  destruct x as [| neg | neg m ex]; cbn; intros E; inversion E; try reflexivity.
  destruct (scaled m 1 (- ex)). discriminate.
Qed.

Lemma price_in_cents_raises (s : string) (e : exn) :
  price_in_cents s = Raise e -> is_IntegrityError e = false.
Proof.
  unfold price_in_cents.
  destruct (float_of_str _) as [x | e1] eqn:F; cbn [rbind].
  - unfold fmul_int. destruct (float_of_int 100) as [y | e2] eqn:G;
      cbn [rbind].
    + apply round_raises.
    + intros E. inversion E; subst. now rewrite (float_of_int_raises _ _ G).
  - intros E. inversion E; subst. now rewrite (float_of_str_raises _ _ F).
Qed.

Lemma index_chr_raises (c : ascii) (s : string) (e : exn) :
  index_chr c s = Raise e -> e = ValueError.
Proof.
  induction s as [| d s IH]; cbn; [congruence |].
  destruct (chr_eqb d c); [discriminate |].
  destruct (index_chr c s); cbn; [discriminate |].
  intros E. inversion E; subst. now apply IH.
Qed.

Lemma price_attempt_raises (s : string) (e : exn) :
  price_attempt s = Raise e -> is_IntegrityError e = false.
Proof.
  unfold price_attempt, decimal_check.
  destruct (index_chr "." s) as [i | e1] eqn:I; cbn [rbind].
  - destruct (3 <? len (slice_from s i)); cbn.
    + intros E. now inversion E.
    + apply price_in_cents_raises.
  - intros E. inversion E; subst. now rewrite (index_chr_raises _ _ _ I).
Qed.

Lemma quiet_price_pass (s : string) : quiet (price_pass s).
Proof.
  unfold price_pass.
  destruct (price_attempt s) as [c | e] eqn:P; [apply quiet_ret |].
  pose proof (price_attempt_raises s e P) as N.
  destruct e; try (apply quiet_raise; exact N);
    apply quiet_bind; try apply quiet_print; intros _; apply quiet_ret.
Qed.

Lemma quiet_ask_product_price : quiet ask_product_price.
Proof. apply quiet_while_input, quiet_price_pass. Qed.

Lemma quiet_ask_product_quantity : quiet ask_product_quantity.
Proof.
  unfold ask_product_quantity. apply quiet_while_input. intros l.
  destruct (int_of_str l) as [n | e] eqn:E; [apply quiet_ret |].
  pose proof (int_raises (VStr l) e E) as ->.
  apply quiet_bind; [apply quiet_print | intros _; apply quiet_ret].
Qed.

End Quiet.

(* ------------------------------------------------------------------------- *)
(** ** What one pass of add_new_product does to the table *)

Section Interactive.

Lemma bind_db {A B} (m : M A) (k : A -> M B) (Q : table -> Prop) (w : world) :
  quiet m -> Q (db w) ->
  (forall a w1, db w1 = db w -> m w = (Ok a, w1) -> Q (db (snd (k a w1)))) ->
  Q (db (snd (bind m k w))).
Proof.
  intros Hm Q0 Hk. unfold bind. destruct (Hm w) as [D _].
  destruct (m w) as [[a | e] w1] eqn:E; cbn [snd] in *.
  - now apply Hk.
  - now rewrite D.
Qed.

Lemma bind_then_quiet {A B} (m : M A) (k : A -> M B) (w : world) :
  (forall a, quiet (k a)) -> db (snd (bind m k w)) = db (snd (m w)).
Proof.
  intros Hk. unfold bind.
  destruct (m w) as [[a | e] w1]; cbn [snd]; [apply Hk | reflexivity].
Qed.

Lemma bind_some {A B} (m : M A) (k : A -> M (option B)) (w : world) :
  (forall a w1, fst (k a w1) <> Ok None) -> fst (bind m k w) <> Ok None.
Proof.
  intros Hk. unfold bind.
  destruct (m w) as [[a | e] w1]; cbn [fst]; [apply Hk | discriminate].
Qed.

Lemma try_bind {A B} (m : M A) (k : A -> M B) (handles : exn -> bool)
    (h : M B) (w : world) :
  try_except (bind m k) handles h w
  = match m w with
    | (Ok a, w1) => try_except (k a) handles h w1
    | (Raise e, w1) => if handles e then h w1 else (Raise e, w1)
    end.
Proof.
  unfold try_except, bind. now destruct (m w) as [[a | e] w1].
Qed.

Lemma try_quiet {A} (m : M A) (h : M A) (w : world) :
  quiet m -> try_except m is_IntegrityError h w = m w.
Proof.
  intros Hm. unfold try_except. destruct (Hm w) as [_ E].
  destruct (m w) as [[a | e] w1]; [reflexivity |].
  now rewrite (E e eq_refl).
Qed.

Lemma get_by_name_raises (name : string) (t : table) (e : exn) :
  get_by_name name t = Raise e -> is_IntegrityError e = false.
Proof.
  unfold get_by_name. destruct (find _ t); cbn; intros E; now inversion E.
Qed.

Lemma save_unfit (p : Product) (t : table) :
  fits_int64 (product_quantity p) && fits_int64 (product_price p) = false ->
  save p t = Raise OverflowError.
Proof. intros F. unfold save. now rewrite F. Qed.

(** One pass of the update question after the answer [y]. *)
Lemma update_pass (d : dict) (existing : Product) (k : M (option unit))
    (w : world) :
  unique_names (db w) -> In existing (db w) ->
  quiet k -> (forall w', fst (k w') <> Ok None) ->
  fst (bind (update_duplicate d existing) (fun _ => k) w) <> Ok None
  /\ (db (snd (bind (update_duplicate d existing) (fun _ => k) w)) = db w
      \/ exists quantity,
           int (d_product_quantity d) = Ok quantity
           /\ fits_int64 quantity = true
           /\ fits_int64 (d_product_price d) = true
           /\ db (snd (bind (update_duplicate d existing) (fun _ => k) w))
              = overwrite (updated existing quantity (d_product_price d)
                             (d_date_updated d)) (db w)).
Proof.
  intros U Hin Hk Nk. split; [now apply bind_some |].
  rewrite bind_then_quiet by (intros _; exact Hk).
  unfold update_duplicate, bind, lift, execute.
  destruct (int (d_product_quantity d)) as [quantity | e];
    [| now left].
  destruct (fits_int64 quantity && fits_int64 (d_product_price d)) eqn:F.
  - apply andb_true_iff in F. destruct F as [Fq Fp].
    change (mk_Product (product_id existing) (product_name existing) quantity
              (d_product_price d) (d_date_updated d))
      with (updated existing quantity (d_product_price d) (d_date_updated d)).
    rewrite (save_updated _ _ _ _ _ U Hin Fq Fp). right. exists quantity.
    repeat split; assumption.
  - rewrite save_unfit by exact F. now left.
Qed.

Lemma ask_update_effect (d : dict) (existing : Product) (w : world) :
  unique_names (db w) -> In existing (db w) ->
  db (snd (ask_update d existing w)) = db w
  \/ exists quantity,
       int (d_product_quantity d) = Ok quantity
       /\ fits_int64 quantity = true
       /\ fits_int64 (d_product_price d) = true
       /\ db (snd (ask_update d existing w))
          = overwrite (updated existing quantity (d_product_price d)
                         (d_date_updated d)) (db w).
Proof.
  unfold ask_update, while_input.
  remember (db w) as t0 eqn:T. intros U Hin.
  generalize (stdin w). intros lines. revert w T.
  induction lines as [| l rest IH]; intros w T; cbn [input_loop].
  - left. now rewrite T.
  - cbv beta zeta.
    set (w1 := echo _ (set_stdin w rest)).
    assert (T1 : t0 = db w1) by exact T.
    destruct (String.eqb (lower l) "y").
    + match goal with
      | |- context [bind (update_duplicate d existing) (fun _ => ?k) w1] =>
          destruct (update_pass d existing k w1) as [N C]
      end.
      * now rewrite <- T1.
      * now rewrite <- T1.
      * apply quiet_bind; [apply quiet_print | intros _].
        apply quiet_bind; [apply quiet_print_product_details | intros _].
        apply quiet_ret.
      * intros w'. apply bind_some. intros _ w2. apply bind_some.
        intros _ w3. discriminate.
      * rewrite <- T1 in C.
        destruct (bind (update_duplicate d existing) _ w1)
          as [[[a |] | e] w2]; cbn [fst snd] in *;
          [exact C | now elim N | exact C].
    + destruct (String.eqb (lower l) "n").
      * left. now rewrite T.
      * apply IH. exact T.
Qed.

Lemma ask_product_name_nonempty (w w' : world) (name : string) :
  ask_product_name w = (Ok name, w') -> name <> "".
Proof.
  unfold ask_product_name, while_input. generalize (stdin w). intros lines.
  revert w. induction lines as [| l rest IH]; intros w; cbn [input_loop].
  - discriminate.
  - cbv beta. destruct l as [| c l]; cbn.
    + apply IH.
    + intros E. inversion E. discriminate.
Qed.

Lemma add_entry_int (name : string) (quantity price : Z) (date : datetime)
    (w : world) :
  add_entry (mk_dict name (VInt quantity) price date) w
  = match create name quantity price date (db w) with
    | Ok t => (Ok tt, set_db w t)
    | Raise e => (Raise e, w)
    end.
Proof. reflexivity. Qed.

Lemma add_new_product_pass_effect (today : datetime) (w : world) :
  unique_names (db w) ->
  db (snd (add_new_product_pass today w)) = db w
  \/ (exists name quantity price,
        name <> "" /\ has_name name (db w) = false
        /\ fits_int64 quantity = true /\ fits_int64 price = true
        /\ db (snd (add_new_product_pass today w))
           = (db w ++ [mk_Product (next_id (db w)) name quantity price today])
             %list)
  \/ (exists existing quantity price,
        In existing (db w)
        /\ datetime_geb today (date_updated existing) = true
        /\ fits_int64 quantity = true /\ fits_int64 price = true
        /\ db (snd (add_new_product_pass today w))
           = overwrite (updated existing quantity price today) (db w)).
Proof.
  intros U. unfold add_new_product_pass.
  set (Q := fun t' : table =>
    t' = db w
    \/ (exists name quantity price,
          name <> "" /\ has_name name (db w) = false
          /\ fits_int64 quantity = true /\ fits_int64 price = true
          /\ t' = (db w ++ [mk_Product (next_id (db w)) name quantity price
                              today])%list)
    \/ (exists existing quantity price,
          In existing (db w)
          /\ datetime_geb today (date_updated existing) = true
          /\ fits_int64 quantity = true /\ fits_int64 price = true
          /\ t' = overwrite (updated existing quantity price today) (db w))).
  change (Q (db (snd (bind (print_heading "Add A New Product")
     (fun _ => bind ask_product_name (fun name => bind ask_product_price
     (fun price => bind ask_product_quantity (fun quantity =>
      let new_product_details := mk_dict name (VInt quantity) price today in
      try_except
        (bind (add_entry new_product_details) (fun _ =>
         bind (print (nl ++ "This product has been added to the database."))
         (fun _ => bind last_product_id (fun last =>
         bind (print_product_details (product_id last)) (fun _ =>
         bind (back_to_menu
                 (nl ++ "Would you like to add another product (y/n): "))
         (fun stay => ret (negb (String.eqb stay "n"))))))))
        is_IntegrityError
        (bind (query (get_by_name name)) (fun existing_product =>
         bind (if datetime_geb today (date_updated existing_product)
               then bind
                 (print (nl ++ "A product with this name already exists:"))
                 (fun _ => bind
                    (print_product_details (product_id existing_product))
                    (fun _ => ask_update new_product_details
                                existing_product))
               else print
                 ("A product with the same name was added with a more recent "
                    ++ "Updated Date. Therefore, your entry was not added."))
         (fun _ => bind
            (back_to_menu "Would you like to add another product (y/n): ")
            (fun stay => ret (negb (String.eqb stay "n")))))))))) w)))).
  assert (Q0 : forall w', db w' = db w -> Q (db w'))
    by (intros w' D; left; exact D).
  apply bind_db; [apply quiet_print_heading | now apply Q0 |].
  intros _ w1 D1 _.
  apply bind_db; [apply quiet_ask_product_name | now apply Q0 |].
  intros name w2 D2 Ename. rewrite D1 in D2.
  apply ask_product_name_nonempty in Ename.
  apply bind_db; [apply quiet_ask_product_price | now apply Q0 |].
  intros price w3 D3 _. rewrite D2 in D3.
  apply bind_db; [apply quiet_ask_product_quantity | now apply Q0 |].
  intros quantity w4 D4 _. rewrite D3 in D4.
  cbv zeta. rewrite try_bind, add_entry_int. unfold create. rewrite D4.
  destruct (fits_int64 quantity && fits_int64 price) eqn:F; cbn [negb].
  2: { cbn [is_IntegrityError snd]. now apply Q0. }
  apply andb_true_iff in F. destruct F as [Fq Fp].
  destruct (has_name name (db w)) eqn:N.
  - cbn [is_IntegrityError].
    apply bind_db;
      [apply quiet_query, get_by_name_raises | now apply Q0 |].
    intros existing w5 D5 G. unfold query in G. inversion G; subst w5.
    rewrite D4 in H0. apply get_by_name_found in H0. destruct H0 as [Hin _].
    rewrite bind_then_quiet.
    2: { intros _. apply quiet_bind; [apply quiet_back_to_menu |].
         intros stay. apply quiet_ret. }
    destruct (datetime_geb today (date_updated existing)) eqn:Ge.
    + apply bind_db; [apply quiet_print | now apply Q0 |].
      intros _ w6 D6 _. rewrite D4 in D6.
      apply bind_db; [apply quiet_print_product_details | now apply Q0 |].
      intros _ w7 D7 _. rewrite D6 in D7.
      destruct (ask_update_effect
                  (mk_dict name (VInt quantity) price today) existing w7)
        as [Same | [q [Eq [_ [_ Upd]]]]].
      * now rewrite D7.
      * now rewrite D7.
      * apply Q0. now rewrite Same.
      * cbn [int d_product_quantity] in Eq. inversion Eq; subst q.
        cbn [d_product_price d_date_updated] in Upd. rewrite D7 in Upd.
        right. right. exists existing, quantity, price.
        repeat split; assumption.
    + now apply Q0.
  - rewrite try_quiet.
    2: { apply quiet_bind; [apply quiet_print | intros _].
         apply quiet_bind; [apply quiet_last_product_id | intros last].
         apply quiet_bind; [apply quiet_print_product_details | intros _].
         apply quiet_bind; [apply quiet_back_to_menu | intros stay].
         apply quiet_ret. }
    match goal with
    | |- Q (db (snd (?m ?w'))) =>
        assert (Hq : quiet m);
        [| destruct (Hq w') as [D _]; rewrite D ]
    end.
    { apply quiet_bind; [apply quiet_print | intros _].
      apply quiet_bind; [apply quiet_last_product_id | intros last].
      apply quiet_bind; [apply quiet_print_product_details | intros _].
      apply quiet_bind; [apply quiet_back_to_menu | intros stay].
      apply quiet_ret. }
    right. left. exists name, quantity, price. repeat split; assumption.
Qed.

Lemma add_new_product_pass_step (today : datetime) (w : world) :
  unique_names (db w) ->
  db (snd (add_new_product_pass today w)) = db w
  \/ step (db w) (db (snd (add_new_product_pass today w))).
Proof.
  intros U.
  destruct (add_new_product_pass_effect today w U)
    as [Same | [[name [q [p [_ [N [Fq [Fp E]]]]]]]
                | [existing [q [p [Hin [Ge [Fq [Fp E]]]]]]]]].
  - now left.
  - right. rewrite E. now apply step_insert.
  - right. rewrite E. now apply step_update.
Qed.

Lemma add_new_product_steps (clock : list datetime) (w : world) :
  table_ok (db w) -> steps (db w) (db (snd (add_new_product clock w))).
Proof.
  revert w. induction clock as [| today later IH]; intros w Hok;
    cbn [add_new_product].
  - apply steps_none.
  - assert (S1 : steps (db w) (db (snd (add_new_product_pass today w)))).
    { destruct (add_new_product_pass_step today w (proj1 Hok)) as [E | S1].
      - rewrite E. apply steps_none.
      - now apply steps_one. }
    unfold bind.
    destruct (add_new_product_pass today w) as [[[|] | e] w1];
      cbn [snd] in *; try exact S1.
    eapply steps_trans; [exact S1 |]. apply IH.
    eapply steps_table_ok; eassumption.
Qed.

End Interactive.

(* ------------------------------------------------------------------------- *)
(** ** What the import and the dialogue can do to the table *)

Section TableHistory.

Lemma table_ok_empty : table_ok [].
Proof. split; constructor. Qed.

Lemma table_ok_stocked : table_ok (db stocked_world).
Proof.
  split.
  - unfold unique_names. cbn.
    repeat constructor; cbn; intuition discriminate.
  - unfold ids_ascending. cbn. repeat constructor.
Qed.

Lemma dense_ids_stocked : dense_ids (db stocked_world).
Proof. reflexivity. Qed.

(** X1. Whatever rows the file holds and however the import ends, [add_csv]
    changes the table only by a sequence of steps, each of which appends a
    product under a name not yet stored with the next id, or overwrites
    quantity, price and date of a stored product by a date that is not earlier
    than the stored one. *)
Theorem import_changes_by_steps (inventory : list csv_row) (w : world) :
  table_ok (db w) -> steps (db w) (db (snd (add_csv inventory w))).
Proof. apply add_csv_steps. Qed.

Lemma import_changes_by_steps_witness :
  steps (db stocked_world)
    (db (snd (add_csv [gizmo; widget_2021; bad_price] stocked_world))).
Proof. apply import_changes_by_steps. exact table_ok_stocked. Defined.

(** X2. Whatever is typed and however the dialogue ends, [add_new_product]
    changes the table only by the same two kinds of steps. *)
Theorem dialogue_changes_by_steps (clock : list datetime) (w : world) :
  table_ok (db w) -> steps (db w) (db (snd (add_new_product clock w))).
Proof. apply add_new_product_steps. Qed.

Lemma dialogue_changes_by_steps_witness :
  steps (db stocked_world)
    (db (snd (add_new_product [mk_datetime 2021 6 1; mk_datetime 2021 6 2]
                (typing ["Widget"; "$7.50"; "12"; "y"; "y";
                         "Sprocket"; "$0.99"; "40"; "n"])))).
Proof.
  exact (dialogue_changes_by_steps
           [mk_datetime 2021 6 1; mk_datetime 2021 6 2]
           (typing ["Widget"; "$7.50"; "12"; "y"; "y";
                    "Sprocket"; "$0.99"; "40"; "n"])
           table_ok_stocked).
Defined.

(** X3. No product is ever removed, renamed, renumbered or moved by the import
    or by the dialogue, and the date of a stored product never goes back: the
    table afterwards is the old rows, each with its id and name and a date
    that is not earlier, followed by the new ones. *)
Theorem products_stay (inventory : list csv_row) (clock : list datetime)
    (w : world) :
  table_ok (db w) ->
  grown (db w) (db (snd (add_csv inventory w)))
  /\ grown (db w) (db (snd (add_new_product clock w))).
Proof.
  intros Hok. split; apply steps_grown; try exact Hok.
  - now apply add_csv_steps.
  - now apply add_new_product_steps.
Qed.

Lemma products_stay_witness :
  grown (db stocked_world)
    (db (snd (add_csv [gizmo; widget_2021] stocked_world)))
  /\ grown (db stocked_world)
       (db (snd (add_new_product [mk_datetime 2021 6 1]
                   (typing ["Sprocket"; "$0.99"; "40"; "n"])))).
Proof.
  split.
  - exact (proj1 (products_stay [gizmo; widget_2021] [] stocked_world
                    table_ok_stocked)).
  - exact (proj2 (products_stay [] [mk_datetime 2021 6 1]
                    (typing ["Sprocket"; "$0.99"; "40"; "n"])
                    table_ok_stocked)).
Defined.

(** X4. The ids stay 1, 2, ..., n: the program never deletes, and a new row
    takes the largest id plus one. *)
Theorem ids_stay_dense (inventory : list csv_row) (clock : list datetime)
    (w : world) :
  dense_ids (db w) -> unique_names (db w) ->
  dense_ids (db (snd (add_csv inventory w)))
  /\ dense_ids (db (snd (add_new_product clock w))).
Proof.
  intros Hd Hu.
  assert (Hok : table_ok (db w))
    by (split; [exact Hu | now apply dense_ids_ascending]).
  split; apply (steps_dense (db w)); try exact Hd.
  - now apply add_csv_steps.
  - now apply add_new_product_steps.
Qed.

Lemma ids_stay_dense_witness :
  dense_ids (db (snd (add_csv [gizmo; widget_2021] stocked_world)))
  /\ dense_ids
       (db (snd (add_new_product [mk_datetime 2021 6 1]
                   (typing ["Sprocket"; "$0.99"; "40"; "n"])))).
Proof.
  split.
  - exact (proj1 (ids_stay_dense [gizmo; widget_2021] [] stocked_world
                    dense_ids_stocked (proj1 table_ok_stocked))).
  - exact (proj2 (ids_stay_dense [] [mk_datetime 2021 6 1]
                    (typing ["Sprocket"; "$0.99"; "40"; "n"])
                    dense_ids_stocked (proj1 table_ok_stocked))).
Defined.

Lemma overwrite_keeps_other (t : table) (p existing : Product)
    (quantity price : Z) (date : datetime) :
  ids_ascending t -> In p t -> In existing t -> p <> existing ->
  In p (overwrite (updated existing quantity price date) t).
Proof.
  intros Hid Hp He Ne. unfold overwrite. apply in_map_iff. exists p.
  split; [| exact Hp]. cbn [updated product_id].
  destruct (product_id p =? product_id existing) eqn:E; [| reflexivity].
  apply Z.eqb_eq in E. elim Ne.
  exact (NoDup_map_eq product_id t p existing
           (ids_ascending_NoDup t Hid) Hp He E).
Qed.

(** X5. A stored product whose date is later than the day of every pass is
    left as it is by [add_new_product], whatever is typed. *)
Theorem later_dated_product_untouched (clock : list datetime) (p : Product)
    (w : world) :
  table_ok (db w) -> In p (db w) ->
  Forall (fun today => datetime_ltb today (date_updated p) = true) clock ->
  In p (db (snd (add_new_product clock w))).
Proof.
  revert w. induction clock as [| today later IH]; intros w Hok Hin Hc;
    cbn [add_new_product]; [exact Hin |].
  inversion Hc as [| ? ? Ht Hl]; subst.
  assert (K : table_ok (db (snd (add_new_product_pass today w)))
              /\ In p (db (snd (add_new_product_pass today w)))).
  { destruct (add_new_product_pass_effect today w (proj1 Hok))
      as [Same | [[name [q [pr [_ [N [Fq [Fp E]]]]]]]
                  | [existing [q [pr [He [Ge [Fq [Fp E]]]]]]]]].
    - rewrite Same. now split.
    - rewrite E. split.
      + apply (step_table_ok (db w)); [exact Hok | now apply step_insert].
      + apply in_or_app. now left.
    - rewrite E. split.
      + apply (step_table_ok (db w)); [exact Hok | now apply step_update].
      + apply overwrite_keeps_other; [exact (proj2 Hok) | exact Hin
                                      | exact He |].
        intros ->. unfold datetime_geb in Ge. rewrite Ht in Ge.
        discriminate. }
  destruct K as [Hok1 Hin1]. unfold bind.
  destruct (add_new_product_pass today w) as [[[|] | e] w1];
    cbn [snd] in *; try exact Hin1.
  now apply IH.
Qed.

Lemma later_dated_product_untouched_witness :
  In (mk_Product 2 "Gadget" 3 250 (mk_datetime 2020 3 15))
    (db (snd (add_new_product [mk_datetime 2020 2 1]
                (typing ["Gadget"; "$0.99"; "40"; "n"])))).
Proof.
  apply (later_dated_product_untouched [mk_datetime 2020 2 1]
           (mk_Product 2 "Gadget" 3 250 (mk_datetime 2020 3 15))
           (typing ["Gadget"; "$0.99"; "40"; "n"])).
  - exact table_ok_stocked.
  - right. left. reflexivity.
  - constructor; [reflexivity | constructor].
Defined.

End TableHistory.

(* ------------------------------------------------------------------------- *)
(** ** How the import ends *)

Section ImportErrors.

Lemma has_name_found (name : string) (t : table) :
  has_name name t = true -> exists p, get_by_name name t = Ok p.
Proof.
  unfold has_name, get_by_name. intros H.
  apply existsb_exists in H. destruct H as [x [Hin Hx]].
  destruct (find _ t) as [p |] eqn:F.
  - now exists p.
  - apply (find_none _ _ F) in Hin. congruence.
Qed.

(** How one row ends once it is converted. *)
Lemma reconcile_result (w : world) (row : dict) :
  table_ok (db w) ->
  match int (d_product_quantity row) with
  | Ok quantity =>
      if fits_int64 quantity && fits_int64 (d_product_price row)
      then fst (reconcile row w) = Ok tt
      else reconcile row w = (Raise OverflowError, w)
  | Raise _ => reconcile row w = (Raise ValueError, w)
  end.
Proof.
  intros T.
  destruct (int (d_product_quantity row)) as [q | e] eqn:Hq.
  2:{ pose proof (int_raises _ _ Hq) as ->.
      unfold reconcile, try_except, add_entry, bind, lift. now rewrite Hq. }
  destruct (fits_int64 q && fits_int64 (d_product_price row)) eqn:F.
  2:{ unfold reconcile, try_except, add_entry, bind, lift, execute, create.
      now rewrite Hq, F. }
  apply andb_true_iff in F. destruct F as [Fq Fp].
  destruct (has_name (d_product_name row) (db w)) eqn:N.
  - destruct (has_name_found _ _ N) as [existing G].
    destruct (datetime_geb (d_date_updated row) (date_updated existing))
      eqn:D.
    + now rewrite (reconcile_overwrites w row existing q T Hq Fq Fp G D).
    + destruct (reconcile_older w row existing G D) as [_ E].
      now apply (E q).
  - unfold reconcile, try_except, add_entry, bind, lift, execute.
    now rewrite Hq, (create_new _ _ _ _ _ N Fq Fp).
Qed.

Lemma datetime_new_raises (y m d : Z) (e : exn) :
  datetime_new y m d = Raise e -> e = ValueError.
Proof.
  unfold datetime_new. destruct (_ && _); [discriminate | congruence].
Qed.

Lemma strptime_raises (s : string) (e : exn) :
  strptime s = Raise e -> e = ValueError.
Proof.
  unfold strptime.
  destruct (span not_slash s) as [ms r1].
  destruct r1 as [| c1 r1]; [congruence |].
  destruct (span not_slash r1) as [ds r2].
  destruct r2 as [| c2 ys]; [congruence |].
  destruct (directive_m ms); [| congruence].
  destruct (directive_d ds); [| congruence].
  destruct (directive_Y ys); [| congruence].
  apply datetime_new_raises.
Qed.

Lemma price_in_cents_errors (s : string) (e : exn) :
  price_in_cents s = Raise e -> e = ValueError \/ e = OverflowError.
Proof.
  unfold price_in_cents.
  destruct (float_of_str _) as [x | e1] eqn:F; cbn [rbind].
  - unfold fmul_int. destruct (float_of_int 100) as [y | e2] eqn:G;
      cbn [rbind].
    + destruct (fmul x y) as [| neg | neg m ex]; cbn [round].
      * intros E. left. congruence.
      * intros E. right. congruence.
      * destruct (scaled m 1 (- ex)). discriminate.
    + intros E. right. inversion E; subst.
      exact (float_of_int_raises _ _ G).
  - intros E. left. inversion E; subst. exact (float_of_str_raises _ _ F).
Qed.

Lemma convert_row_raises (row : csv_row) (e : exn) :
  convert_row row = Raise e -> e = ValueError \/ e = OverflowError.
Proof.
  unfold convert_row.
  destruct (strptime _) as [date | e1] eqn:S; cbn [rbind].
  - destruct (price_in_cents _) as [price | e2] eqn:P; cbn [rbind];
      [discriminate |].
    intros E. inversion E; subst. exact (price_in_cents_errors _ _ P).
  - intros E. left. inversion E; subst. exact (strptime_raises _ _ S).
Qed.

(** How one row of the file ends. *)
Lemma add_csv_row_result (row : csv_row) (w : world) :
  table_ok (db w) ->
  if importable row then fst (add_csv_row row w) = Ok tt
  else exists e, add_csv_row row w = (Raise e, w)
                 /\ (e = ValueError \/ e = OverflowError).
Proof.
  intros T. unfold importable, add_csv_row, bind, lift.
  destruct (convert_row row) as [d | e] eqn:C.
  - pose proof (reconcile_result w d T) as R.
    assert (Q : d_product_quantity d = VStr (csv_product_quantity row)).
    { unfold convert_row in C.
      destruct (strptime _); cbn [rbind] in C; [| discriminate].
      destruct (price_in_cents _); cbn [rbind] in C; [| discriminate].
      now inversion C. }
    rewrite Q in R. cbn [int] in R.
    destruct (int_of_str (csv_product_quantity row)) as [q | e].
    + destruct (fits_int64 q && fits_int64 (d_product_price d)).
      * exact R.
      * exists OverflowError. split; [exact R | now right].
    + exists ValueError. split; [exact R | now left].
  - exists e. split; [reflexivity | exact (convert_row_raises _ _ C)].
Qed.

(** X6. The import ends well exactly when every row of the file can be stored:
    no state of the table makes a row fail, and none lets a bad row pass. *)
Theorem import_succeeds_iff_rows_importable (inventory : list csv_row)
    (w : world) :
  table_ok (db w) ->
  (fst (add_csv inventory w) = Ok tt <-> forallb importable inventory = true).
Proof.
  revert w. induction inventory as [| row rest IH]; intros w T.
  - cbn. tauto.
  - cbn [add_csv forallb]. unfold bind.
    pose proof (add_csv_row_result row w T) as R.
    pose proof (add_csv_row_table_ok row w T) as T1.
    destruct (importable row); cbn [andb].
    + destruct (add_csv_row row w) as [[[] | e] w1]; cbn [fst snd] in *;
        [now apply IH | discriminate].
    + destruct R as [e [-> _]]. cbn [fst]. split; discriminate.
Qed.

Lemma import_succeeds_iff_rows_importable_witness :
  (fst (add_csv [gizmo; widget_2021] stocked_world) = Ok tt
   <-> forallb importable [gizmo; widget_2021] = true)
  /\ (fst (add_csv [gizmo; bad_price] stocked_world) = Ok tt
      <-> forallb importable [gizmo; bad_price] = true).
Proof.
  split.
  - exact (import_succeeds_iff_rows_importable [gizmo; widget_2021]
             stocked_world table_ok_stocked).
  - exact (import_succeeds_iff_rows_importable [gizmo; bad_price]
             stocked_world table_ok_stocked).
Defined.



Lemma silent_ret {A} (a : A) : silent (ret a).
Proof. intros w. exists (db w). now destruct w. Qed.

Lemma silent_lift {A} (r : result A) : silent (lift r).
Proof. intros w. exists (db w). now destruct w. Qed.

Lemma silent_query {A} (f : table -> result A) : silent (query f).
Proof. intros w. exists (db w). now destruct w. Qed.

Lemma silent_execute (f : table -> result table) : silent (execute f).
Proof.
  intros w. unfold execute. destruct (f (db w)) as [t | e].
  - now exists t.
  - exists (db w). now destruct w.
Qed.

Lemma silent_bind {A B} (m : M A) (k : A -> M B) :
  silent m -> (forall a, silent (k a)) -> silent (bind m k).
Proof.
  intros Hm Hk w. unfold bind. destruct (Hm w) as [t E].
  destruct (m w) as [[a | e] w1]; cbn [snd] in E; subst w1.
  - destruct (Hk a (set_db w t)) as [t' E']. exists t'. now rewrite E'.
  - now exists t.
Qed.

Lemma silent_try_except {A} (m h : M A) (handles : exn -> bool) :
  silent m -> silent h -> silent (try_except m handles h).
Proof.
  intros Hm Hh w. unfold try_except. destruct (Hm w) as [t E].
  destruct (m w) as [[a | e] w1]; cbn [snd] in E; subst w1.
  - now exists t.
  - destruct (handles e).
    + destruct (Hh (set_db w t)) as [t' E']. exists t'. now rewrite E'.
    + now exists t.
Qed.

Lemma silent_add_csv (inventory : list csv_row) : silent (add_csv inventory).
Proof.
  induction inventory as [| row rest IH]; cbn [add_csv].
  - apply silent_ret.
  - apply silent_bind; [| intros _; exact IH].
    unfold add_csv_row. apply silent_bind; [apply silent_lift | intros d].
    unfold reconcile. apply silent_try_except.
    + unfold add_entry. apply silent_bind; [apply silent_lift | intros q].
      apply silent_execute.
    + apply silent_bind; [apply silent_query | intros p].
      destruct (datetime_geb _ _); [| apply silent_ret].
      unfold update_duplicate.
      apply silent_bind; [apply silent_lift | intros q].
      apply silent_execute.
Qed.

(** X8. The import reads nothing from the terminal, prints nothing and leaves
    the backup file alone, whatever its rows are and however it ends: a row
    that is dropped or that overwrites a product is not reported. *)
Theorem import_is_silent (inventory : list csv_row) (w : world) :
  stdin (snd (add_csv inventory w)) = stdin w
  /\ stdout (snd (add_csv inventory w)) = stdout w
  /\ backup_inventory (snd (add_csv inventory w)) = backup_inventory w.
Proof.
  destruct (silent_add_csv inventory w) as [t E]. rewrite E.
  repeat split.
Qed.

End ImportErrors.

(* ------------------------------------------------------------------------- *)
(** ** One pass of add_new_product, from the lines typed *)

Section Dialogue.

Lemma bind_ok {A B} (m : M A) (k : A -> M B) (w w1 : world) (a : A) :
  m w = (Ok a, w1) -> bind m k w = k a w1.
Proof. intros E. unfold bind. now rewrite E. Qed.

Lemma bind_raise {A B} (m : M A) (k : A -> M B) (w w1 : world) (e : exn) :
  m w = (Raise e, w1) -> bind m k w = (Raise e, w1).
Proof. intros E. unfold bind. now rewrite E. Qed.

Lemma try_ok {A} (m h : M A) (handles : exn -> bool) (w w1 : world) (a : A) :
  m w = (Ok a, w1) -> try_except m handles h w = (Ok a, w1).
Proof. intros E. unfold try_except. now rewrite E. Qed.

Lemma ask_product_name_reads (w : world) (l : string) (rest : list string) :
  stdin w = l :: rest -> l <> "" ->
  ask_product_name w
  = (Ok l, echo "Enter a product name: " (set_stdin w rest)).
Proof.
  intros S N. unfold ask_product_name, while_input. rewrite S.
  cbn [input_loop]. destruct l as [| c l]; [now elim N | reflexivity].
Qed.

Lemma ask_product_price_reads (w : world) (l : string) (rest : list string)
    (cents : Z) :
  stdin w = l :: rest -> price_attempt l = Ok cents ->
  ask_product_price w = (Ok cents, echo price_prompt (set_stdin w rest)).
Proof.
  intros S P. unfold ask_product_price, while_input. rewrite S.
  cbn [input_loop]. unfold price_pass. now rewrite P.
Qed.

Lemma ask_product_quantity_reads (w : world) (l : string)
    (rest : list string) (n : Z) :
  stdin w = l :: rest -> int_of_str l = Ok n ->
  ask_product_quantity w
  = (Ok n, echo "Enter a product quantity: " (set_stdin w rest)).
Proof.
  intros S P. unfold ask_product_quantity, while_input. rewrite S.
  cbn [input_loop]. now rewrite P.
Qed.

Lemma back_to_menu_reads (question : string) (w : world) (l : string)
    (rest : list string) :
  stdin w = l :: rest -> lower l = "y" \/ lower l = "n" ->
  back_to_menu question w = (Ok (lower l), echo question (set_stdin w rest)).
Proof.
  intros S P. unfold back_to_menu, while_input. rewrite S.
  cbn [input_loop]. cbv zeta.
  now destruct P as [-> | ->].
Qed.

Lemma pick_last_in (l : list Product) (a : Product) :
  let last :=
    fold_left (fun a b => if product_id a <? product_id b then b else a) l a in
  (last = a \/ In last l)
  /\ product_id a <= product_id last
  /\ forall q, In q l -> product_id q <= product_id last.
Proof.
  revert a. induction l as [| b l IH]; intros a; cbn [fold_left].
  - cbn. repeat split; try lia; auto; tauto.
  - cbv zeta in IH.
    destruct (product_id a <? product_id b) eqn:E.
    + apply Z.ltb_lt in E. destruct (IH b) as [H1 [H2 H3]].
      repeat split.
      * right. destruct H1 as [-> | H1]; [now left | now right].
      * lia.
      * intros q [<- | Hq]; [exact H2 | now apply H3].
    + apply Z.ltb_ge in E. destruct (IH a) as [H1 [H2 H3]].
      repeat split.
      * destruct H1 as [-> | H1]; [now left | right; now right].
      * exact H2.
      * intros q [<- | Hq]; [lia | now apply H3].
Qed.

Lemma get_last_largest (t : table) (p : Product) :
  get_last t = Ok p ->
  In p t /\ forall q, In q t -> product_id q <= product_id p.
Proof.
  destruct t as [| a l]; [discriminate |]. cbn [get_last].
  intros E. inversion E as [E1]. clear E.
  destruct (pick_last_in l a) as [H1 [H2 H3]]. cbv zeta in *.
  rewrite E1 in *. split.
  - destruct H1 as [-> | H1]; [now left | now right].
  - intros q [<- | Hq]; [exact H2 | now apply H3].
Qed.

Lemma get_last_snoc (t : table) (p : Product) :
  (forall q, In q t -> product_id q < product_id p) ->
  get_last (t ++ [p])%list = Ok p.
Proof.
  intros Lt.
  destruct (get_last (t ++ [p])%list) as [r | e] eqn:G.
  - destruct (get_last_largest _ _ G) as [Hin Hmax].
    apply in_app_or in Hin. destruct Hin as [Hin | [<- | []]];
      [| reflexivity].
    specialize (Lt r Hin).
    assert (Hp : In p (t ++ [p])%list)
      by (apply in_or_app; right; now left).
    specialize (Hmax p Hp). lia.
  - destruct t; discriminate.
Qed.

Lemma get_by_id_snoc (t : table) (p : Product) :
  (forall q, In q t -> product_id q < product_id p) ->
  get_by_id (product_id p) (t ++ [p])%list = Ok p.
Proof.
  intros Lt. unfold get_by_id.
  induction t as [| a t IH]; cbn [app find].
  - now rewrite Z.eqb_refl.
  - destruct (product_id a =? product_id p) eqn:E.
    + apply Z.eqb_eq in E. specialize (Lt a (or_introl eq_refl)). lia.
    + apply IH. intros q Hq. apply Lt. now right.
Qed.

Lemma get_by_name_snoc (t : table) (p : Product) :
  has_name (product_name p) t = false ->
  get_by_name (product_name p) (t ++ [p])%list = Ok p.
Proof.
  unfold get_by_name, has_name.
  induction t as [| a t IH]; cbn [app find existsb].
  - now rewrite String.eqb_refl.
  - intros H. apply orb_false_iff in H. destruct H as [H1 H2].
    rewrite H1. now apply IH.
Qed.

Lemma print_product_details_stored (p : Product) (w : world) :
  get_by_id (product_id p) (db w) = Ok p ->
  fits_int64 (product_price p) = true ->
  exists line, print_product_details (product_id p) w = (Ok tt, echo line w).
Proof.
  intros G F. destruct (render_price_total _ F) as [s R].
  unfold print_product_details, bind, query, lift. rewrite G, R.
  eexists. reflexivity.
Qed.

Ltac read_prompts S N P Q :=
  unfold add_new_product_pass;
  erewrite bind_ok by reflexivity;
  erewrite bind_ok by (eapply ask_product_name_reads; [exact S | exact N]);
  erewrite bind_ok by (eapply ask_product_price_reads; [reflexivity | exact P]);
  erewrite bind_ok
    by (eapply ask_product_quantity_reads; [reflexivity | exact Q]);
  cbv zeta.

(** X10. A product typed under a name that is not stored is appended with the
    next id, the price in cents, the quantity and the day of the pass; the
    answer to the last question decides whether the loop goes on. *)
Theorem new_product_is_stored (today : datetime) (w : world)
    (name price_text quantity_text answer : string) (rest : list string)
    (cents n : Z) :
  stdin w = name :: price_text :: quantity_text :: answer :: rest ->
  name <> "" -> has_name name (db w) = false ->
  price_attempt price_text = Ok cents -> int_of_str quantity_text = Ok n ->
  fits_int64 n = true -> fits_int64 cents = true ->
  lower answer = "y" \/ lower answer = "n" ->
  fst (add_new_product_pass today w)
  = Ok (negb (String.eqb (lower answer) "n"))
  /\ db (snd (add_new_product_pass today w))
     = (db w ++ [mk_Product (next_id (db w)) name n cents today])%list
  /\ stdin (snd (add_new_product_pass today w)) = rest.
Proof.
  intros S N H P Q Fn Fc A.
  set (new := mk_Product (next_id (db w)) name n cents today).
  assert (Lt : forall q, In q (db w) -> product_id q < product_id new)
    by (intros q Hq; now apply next_id_above).
  pose proof (get_last_snoc (db w) new Lt) as L.
  pose proof (get_by_id_snoc (db w) new Lt) as G.
  destruct (render_price_total cents Fc) as [s R].
  read_prompts S N P Q.
  rewrite try_bind, add_entry_int. cbn [db echo set_stdin].
  rewrite (create_new _ _ _ _ _ H Fn Fc). fold new.
  erewrite try_ok.
  2:{ erewrite bind_ok by reflexivity.
      erewrite bind_ok
        by (unfold last_product_id, query; cbn [db echo set_stdin set_db];
            rewrite L; reflexivity).
      unfold print_product_details.
      erewrite bind_ok.
      2:{ erewrite bind_ok
            by (unfold query; cbn [db echo set_stdin set_db];
                rewrite G; reflexivity).
          erewrite bind_ok
            by (unfold lift; cbn [product_price new]; rewrite R; reflexivity).
          reflexivity. }
      erewrite bind_ok
        by (eapply back_to_menu_reads; [reflexivity | exact A]).
      reflexivity. }
  repeat split.
Qed.

Lemma new_product_is_stored_witness :
  fst (add_new_product_pass (mk_datetime 2021 6 1)
         (typing ["Sprocket"; "$0.99"; "40"; "N"; "left over"]))
  = Ok false
  /\ db (snd (add_new_product_pass (mk_datetime 2021 6 1)
                (typing ["Sprocket"; "$0.99"; "40"; "N"; "left over"])))
     = (db stocked_world
          ++ [mk_Product 3 "Sprocket" 40 99 (mk_datetime 2021 6 1)])%list
  /\ stdin (snd (add_new_product_pass (mk_datetime 2021 6 1)
                   (typing ["Sprocket"; "$0.99"; "40"; "N"; "left over"])))
     = ["left over"].
Proof.
  apply (new_product_is_stored (mk_datetime 2021 6 1)
           (typing ["Sprocket"; "$0.99"; "40"; "N"; "left over"])
           "Sprocket" "$0.99" "40" "N" ["left over"] 99 40).
  - reflexivity.
  - discriminate.
  - reflexivity.
  - vm_compute. reflexivity.
  - vm_compute. reflexivity.
  - reflexivity.
  - reflexivity.
  - right. reflexivity.
Defined.

(** X11. A quantity or a price outside the 64-bit range of the columns is
    accepted by the prompts and then ends the dialogue: the insert raises
    OverflowError, which nothing catches, and the table is as before. *)
Theorem unfit_number_ends_dialogue (today : datetime) (later : list datetime)
    (w : world) (name price_text quantity_text : string) (rest : list string)
    (cents n : Z) :
  stdin w = name :: price_text :: quantity_text :: rest ->
  name <> "" ->
  price_attempt price_text = Ok cents -> int_of_str quantity_text = Ok n ->
  fits_int64 n && fits_int64 cents = false ->
  fst (add_new_product (today :: later) w) = Raise OverflowError
  /\ db (snd (add_new_product (today :: later) w)) = db w.
Proof.
  intros S N P Q F. cbn [add_new_product].
  assert (E : exists w1,
             add_new_product_pass today w = (Raise OverflowError, w1)
             /\ db w1 = db w).
  { eexists. split.
    - read_prompts S N P Q.
      rewrite try_bind, add_entry_int. unfold create.
      cbn [db echo set_stdin]. rewrite F. reflexivity.
    - reflexivity. }
  destruct E as [w1 [E D]]. rewrite (bind_raise _ _ _ _ _ E).
  split; [reflexivity | exact D].
Qed.

Lemma unfit_number_ends_dialogue_witness :
  fst (add_new_product [mk_datetime 2021 6 1; mk_datetime 2021 6 1]
         (typing ["Sprocket"; "$0.99"; "9223372036854775808"; "y"]))
  = Raise OverflowError
  /\ db (snd (add_new_product [mk_datetime 2021 6 1; mk_datetime 2021 6 1]
                (typing ["Sprocket"; "$0.99"; "9223372036854775808"; "y"])))
     = db (typing ["Sprocket"; "$0.99"; "9223372036854775808"; "y"]).
Proof.
  apply (unfit_number_ends_dialogue (mk_datetime 2021 6 1)
           [mk_datetime 2021 6 1]
           (typing ["Sprocket"; "$0.99"; "9223372036854775808"; "y"])
           "Sprocket" "$0.99" "9223372036854775808" ["y"]
           99 9223372036854775808).
  - reflexivity.
  - discriminate.
  - vm_compute. reflexivity.
  - vm_compute. reflexivity.
  - reflexivity.
Defined.


Lemma get_by_id_overwritten (t : table) (existing : Product)
    (quantity price : Z) (date : datetime) :
  ids_ascending t -> In existing t ->
  get_by_id (product_id existing)
    (overwrite (updated existing quantity price date) t)
  = Ok (updated existing quantity price date).
Proof.
  intros Hid Hin. pose proof (get_by_id_stored t existing Hid Hin) as G.
  unfold get_by_id in *. rewrite find_by_id_overwrite.
  destruct (find _ t) as [r |]; [| discriminate].
  cbn in G. inversion G; subst r. cbn [option_map of_option updated product_id].
  now rewrite Z.eqb_refl.
Qed.

(** The start of the except branch of [add_new_product] once the name typed
    is stored. *)
Ltac stored_name G Fn Fc :=
  rewrite try_bind, add_entry_int; unfold create;
  cbn [db echo set_stdin];
  rewrite Fn, Fc, (get_by_name_has_name _ _ _ G);
  cbn [andb negb is_IntegrityError];
  erewrite bind_ok
    by (unfold query; cbn [db echo set_stdin]; rewrite G; reflexivity).

(** X12. A product typed under a stored name whose date is not later than
    today: after the answer y the stored product has the quantity and price
    typed and today's date, and keeps its id and name. *)
Theorem stored_product_updated_on_yes (today : datetime) (w : world)
    (existing : Product)
    (name price_text quantity_text answer stay : string)
    (rest : list string) (cents n : Z) :
  stdin w = name :: price_text :: quantity_text :: answer :: stay :: rest ->
  name <> "" -> table_ok (db w) ->
  get_by_name name (db w) = Ok existing ->
  fits_int64 (product_price existing) = true ->
  datetime_geb today (date_updated existing) = true ->
  price_attempt price_text = Ok cents -> int_of_str quantity_text = Ok n ->
  fits_int64 n = true -> fits_int64 cents = true ->
  lower answer = "y" ->
  lower stay = "y" \/ lower stay = "n" ->
  fst (add_new_product_pass today w)
  = Ok (negb (String.eqb (lower stay) "n"))
  /\ db (snd (add_new_product_pass today w))
     = overwrite (updated existing n cents today) (db w)
  /\ stdin (snd (add_new_product_pass today w)) = rest.
Proof.
  intros S N [U I] G Fe Ge P Q Fn Fc Y A.
  destruct (get_by_name_found _ _ _ G) as [Hin _].
  pose proof (get_by_id_stored _ _ I Hin) as G1.
  pose proof (get_by_id_overwritten (db w) existing n cents today I Hin) as G2.
  destruct (render_price_total _ Fe) as [s1 R1].
  destruct (render_price_total _ Fc) as [s2 R2].
  pose proof (save_updated (db w) existing n cents today U Hin Fn Fc) as Sv.
  read_prompts S N P Q.
  stored_name G Fn Fc.
  rewrite Ge.
  erewrite bind_ok.
  2:{ erewrite bind_ok by reflexivity.
      unfold print_product_details.
      erewrite bind_ok.
      2:{ erewrite bind_ok
            by (unfold query; cbn [db echo set_stdin]; rewrite G1;
                reflexivity).
          erewrite bind_ok by (unfold lift; rewrite R1; reflexivity).
          reflexivity. }
      unfold ask_update, while_input. cbn [stdin echo set_stdin].
      cbn [input_loop]. cbv zeta. rewrite Y.
      change (String.eqb "y" "y") with true. cbv iota.
      erewrite bind_ok.
      2:{ unfold update_duplicate.
          erewrite bind_ok by reflexivity.
          unfold execute. cbn [db echo set_stdin d_product_price
                                 d_date_updated].
          change (mk_Product (product_id existing) (product_name existing)
                    n cents today)
            with (updated existing n cents today).
          rewrite Sv. reflexivity. }
      erewrite bind_ok by reflexivity.
      erewrite bind_ok.
      2:{ unfold print_product_details.
          erewrite bind_ok
            by (unfold query; cbn [db echo set_stdin set_db]; rewrite G2;
                reflexivity).
          erewrite bind_ok
            by (unfold lift; cbn [product_price updated]; rewrite R2;
                reflexivity).
          reflexivity. }
      reflexivity. }
  erewrite bind_ok by (eapply back_to_menu_reads; [reflexivity | exact A]).
  repeat split.
Qed.


Lemma stored_product_updated_on_yes_witness :
  fst (add_new_product_pass (mk_datetime 2021 6 1)
         (typing ["Widget"; "$7.50"; "12"; "Y"; "n"; "left over"]))
  = Ok false
  /\ db (snd (add_new_product_pass (mk_datetime 2021 6 1)
                (typing ["Widget"; "$7.50"; "12"; "Y"; "n"; "left over"])))
     = [mk_Product 1 "Widget" 12 750 (mk_datetime 2021 6 1);
        mk_Product 2 "Gadget" 3 250 (mk_datetime 2020 3 15)]
  /\ stdin (snd (add_new_product_pass (mk_datetime 2021 6 1)
                   (typing ["Widget"; "$7.50"; "12"; "Y"; "n";
                            "left over"])))
     = ["left over"].
Proof.
  apply (stored_product_updated_on_yes (mk_datetime 2021 6 1)
           (typing ["Widget"; "$7.50"; "12"; "Y"; "n"; "left over"])
           (mk_Product 1 "Widget" 10 500 (mk_datetime 2020 1 1))
           "Widget" "$7.50" "12" "Y" "n" ["left over"] 750 12).
  - reflexivity.
  - discriminate.
  - exact table_ok_stocked.
  - reflexivity.
  - reflexivity.
  - reflexivity.
  - vm_compute. reflexivity.
  - vm_compute. reflexivity.
  - reflexivity.
  - reflexivity.
  - reflexivity.
  - right. reflexivity.
Defined.

(** X13. After the answer n to the update question the table is as it was. *)
Theorem stored_product_kept_on_no (today : datetime) (w : world)
    (existing : Product)
    (name price_text quantity_text answer stay : string)
    (rest : list string) (cents n : Z) :
  stdin w = name :: price_text :: quantity_text :: answer :: stay :: rest ->
  name <> "" -> ids_ascending (db w) ->
  get_by_name name (db w) = Ok existing ->
  fits_int64 (product_price existing) = true ->
  datetime_geb today (date_updated existing) = true ->
  price_attempt price_text = Ok cents -> int_of_str quantity_text = Ok n ->
  fits_int64 n = true -> fits_int64 cents = true ->
  lower answer = "n" ->
  lower stay = "y" \/ lower stay = "n" ->
  fst (add_new_product_pass today w)
  = Ok (negb (String.eqb (lower stay) "n"))
  /\ db (snd (add_new_product_pass today w)) = db w
  /\ stdin (snd (add_new_product_pass today w)) = rest.
Proof.
  intros S N I G Fe Ge P Q Fn Fc No A.
  destruct (get_by_name_found _ _ _ G) as [Hin _].
  pose proof (get_by_id_stored _ _ I Hin) as G1.
  destruct (render_price_total _ Fe) as [s1 R1].
  read_prompts S N P Q.
  stored_name G Fn Fc.
  rewrite Ge.
  erewrite bind_ok.
  2:{ erewrite bind_ok by reflexivity.
      unfold print_product_details.
      erewrite bind_ok.
      2:{ erewrite bind_ok
            by (unfold query; cbn [db echo set_stdin]; rewrite G1;
                reflexivity).
          erewrite bind_ok by (unfold lift; rewrite R1; reflexivity).
          reflexivity. }
      unfold ask_update, while_input. cbn [stdin echo set_stdin].
      cbn [input_loop]. cbv zeta. rewrite No.
      change (String.eqb "n" "y") with false.
      change (String.eqb "n" "n") with true. cbv iota.
      reflexivity. }
  erewrite bind_ok by (eapply back_to_menu_reads; [reflexivity | exact A]).
  repeat split.
Qed.

Lemma stored_product_kept_on_no_witness :
  fst (add_new_product_pass (mk_datetime 2021 6 1)
         (typing ["Widget"; "$7.50"; "12"; "n"; "n"; "left over"]))
  = Ok false
  /\ db (snd (add_new_product_pass (mk_datetime 2021 6 1)
                (typing ["Widget"; "$7.50"; "12"; "n"; "n"; "left over"])))
     = db (typing ["Widget"; "$7.50"; "12"; "n"; "n"; "left over"])
  /\ stdin (snd (add_new_product_pass (mk_datetime 2021 6 1)
                   (typing ["Widget"; "$7.50"; "12"; "n"; "n";
                            "left over"])))
     = ["left over"].
Proof.
  apply (stored_product_kept_on_no (mk_datetime 2021 6 1)
           (typing ["Widget"; "$7.50"; "12"; "n"; "n"; "left over"])
           (mk_Product 1 "Widget" 10 500 (mk_datetime 2020 1 1))
           "Widget" "$7.50" "12" "n" "n" ["left over"] 750 12).
  - reflexivity.
  - discriminate.
  - exact (proj2 table_ok_stocked).
  - reflexivity.
  - reflexivity.
  - reflexivity.
  - vm_compute. reflexivity.
  - vm_compute. reflexivity.
  - reflexivity.
  - reflexivity.
  - reflexivity.
  - right. reflexivity.
Defined.

(** X14. A product typed under a stored name whose date is later than today is
    refused without a question: the refusal is printed, the next line read is
    the answer to "add another product", and the table is as it was. *)
Theorem newer_stored_product_refused (today : datetime) (w : world)
    (existing : Product)
    (name price_text quantity_text stay : string)
    (rest : list string) (cents n : Z) :
  stdin w = name :: price_text :: quantity_text :: stay :: rest ->
  name <> "" ->
  get_by_name name (db w) = Ok existing ->
  datetime_geb today (date_updated existing) = false ->
  price_attempt price_text = Ok cents -> int_of_str quantity_text = Ok n ->
  fits_int64 n = true -> fits_int64 cents = true ->
  lower stay = "y" \/ lower stay = "n" ->
  fst (add_new_product_pass today w)
  = Ok (negb (String.eqb (lower stay) "n"))
  /\ db (snd (add_new_product_pass today w)) = db w
  /\ stdin (snd (add_new_product_pass today w)) = rest
  /\ In ("A product with the same name was added with a more recent "
           ++ "Updated Date. Therefore, your entry was not added.")
       (stdout (snd (add_new_product_pass today w))).
Proof.
  intros S N G Ge P Q Fn Fc A.
  read_prompts S N P Q.
  stored_name G Fn Fc.
  rewrite Ge.
  erewrite bind_ok by reflexivity.
  erewrite bind_ok by (eapply back_to_menu_reads; [reflexivity | exact A]).
  repeat split.
  cbn [stdout echo set_stdin snd ret]. rewrite !in_app_iff. cbn [In].
  tauto.
Qed.

Lemma newer_stored_product_refused_witness :
  fst (add_new_product_pass (mk_datetime 2020 2 1)
         (typing ["Gadget"; "$0.99"; "40"; "n"; "left over"]))
  = Ok false
  /\ db (snd (add_new_product_pass (mk_datetime 2020 2 1)
                (typing ["Gadget"; "$0.99"; "40"; "n"; "left over"])))
     = db (typing ["Gadget"; "$0.99"; "40"; "n"; "left over"])
  /\ stdin (snd (add_new_product_pass (mk_datetime 2020 2 1)
                   (typing ["Gadget"; "$0.99"; "40"; "n"; "left over"])))
     = ["left over"]
  /\ In ("A product with the same name was added with a more recent "
           ++ "Updated Date. Therefore, your entry was not added.")
       (stdout (snd (add_new_product_pass (mk_datetime 2020 2 1)
                       (typing ["Gadget"; "$0.99"; "40"; "n";
                                "left over"])))).
Proof.
  apply (newer_stored_product_refused (mk_datetime 2020 2 1)
           (typing ["Gadget"; "$0.99"; "40"; "n"; "left over"])
           (mk_Product 2 "Gadget" 3 250 (mk_datetime 2020 3 15))
           "Gadget" "$0.99" "40" "n" ["left over"] 99 40).
  - reflexivity.
  - discriminate.
  - reflexivity.
  - reflexivity.
  - vm_compute. reflexivity.
  - vm_compute. reflexivity.
  - reflexivity.
  - reflexivity.
  - right. reflexivity.
Defined.

End Dialogue.

(* ------------------------------------------------------------------------- *)
(** ** The prompts and the lookups *)

Section Prompts.

(** A loop that refuses the lines [skipped] with the message [msg] and
    takes the line [l]. *)
Lemma input_loop_skips {A} (prompt msg : string)
    (body : string -> M (option A)) (a : A) (skipped : list string)
    (l : string) (rest : list string) :
  (forall s, In s skipped -> forall w', body s w' = (Ok None, echo msg w')) ->
  (forall w', body l w' = (Ok (Some a), w')) ->
  forall w,
    input_loop prompt body (skipped ++ l :: rest)%list w
    = (Ok a,
       mk_world (db w) rest
         (stdout w ++ flat_map (fun _ => [prompt; msg]) skipped ++ [prompt])
         (backup_inventory w)).
Proof.
  intros Hs Hl. induction skipped as [| s skipped IH]; intros w;
    cbn [app input_loop flat_map].
  - rewrite Hl. reflexivity.
  - rewrite (Hs s (or_introl eq_refl)).
    rewrite IH by (intros s' Hin; apply Hs; now right).
    unfold echo, set_stdin.
    cbn [db stdin stdout backup_inventory].
    now rewrite <- !app_assoc.
Qed.

(** X15. [back_to_menu] takes the first line that reads y or n in either
    letter case and returns it in lower case; every line before it is answered
    with the same message, and the lines after it stay unread. The table and
    the backup file are not touched. *)
Theorem back_to_menu_takes_first_answer (question : string)
    (skipped : list string) (l : string) (rest : list string) (w : world) :
  stdin w = (skipped ++ l :: rest)%list ->
  Forall (fun s => lower s <> "y" /\ lower s <> "n") skipped ->
  lower l = "y" \/ lower l = "n" ->
  back_to_menu question w
  = (Ok (lower l),
     mk_world (db w) rest
       (stdout w
          ++ flat_map
               (fun _ => [question;
                          nl ++ "Invalid Entry. Please try again with "
                             ++ "'y' or 'n'."])
               skipped
          ++ [question])
       (backup_inventory w)).
Proof.
  intros S Hs Hl. unfold back_to_menu, while_input. rewrite S.
  apply input_loop_skips.
  - intros s Hin w'. rewrite Forall_forall in Hs.
    destruct (Hs s Hin) as [Ny Nn]. cbv zeta.
    apply String.eqb_neq in Ny. apply String.eqb_neq in Nn.
    now rewrite Ny, Nn.
  - intros w'. cbv zeta. now destruct Hl as [-> | ->].
Qed.

Lemma back_to_menu_takes_first_answer_witness :
  back_to_menu "Again? " (typing ["yes"; ""; "N"; "left over"])
  = (Ok "n",
     mk_world (db stocked_world) ["left over"]
       ["Again? ";
        nl ++ "Invalid Entry. Please try again with 'y' or 'n'.";
        "Again? ";
        nl ++ "Invalid Entry. Please try again with 'y' or 'n'.";
        "Again? "]
       None).
Proof.
  apply (back_to_menu_takes_first_answer "Again? " ["yes"; ""] "N"
           ["left over"] (typing ["yes"; ""; "N"; "left over"])).
  - reflexivity.
  - repeat constructor; discriminate.
  - right. reflexivity.
Defined.

(** X16. The name prompt takes the first line that is not empty, as it is
    typed: nothing is stripped, so a name of blanks is accepted. Every empty
    line before it is answered with "Product Name is a required field." *)
Theorem name_prompt_takes_first_nonempty_line (skipped : list string)
    (l : string) (rest : list string) (w : world) :
  stdin w = (skipped ++ l :: rest)%list ->
  Forall (fun s => s = "") skipped -> l <> "" ->
  ask_product_name w
  = (Ok l,
     mk_world (db w) rest
       (stdout w
          ++ flat_map
               (fun _ => ["Enter a product name: ";
                          "Product Name is a required field."])
               skipped
          ++ ["Enter a product name: "])
       (backup_inventory w)).
Proof.
  intros S Hs Hl. unfold ask_product_name, while_input. rewrite S.
  apply input_loop_skips.
  - intros s Hin w'. rewrite Forall_forall in Hs. now rewrite (Hs s Hin).
  - intros w'. destruct l; [now elim Hl | reflexivity].
Qed.

Lemma name_prompt_takes_first_nonempty_line_witness :
  ask_product_name (typing [""; "  "; "left over"])
  = (Ok "  ",
     mk_world (db stocked_world) ["left over"]
       ["Enter a product name: "; "Product Name is a required field.";
        "Enter a product name: "]
       None).
Proof.
  apply (name_prompt_takes_first_nonempty_line [""] "  " ["left over"]
           (typing [""; "  "; "left over"])).
  - reflexivity.
  - repeat constructor.
  - discriminate.
Defined.

(** X17. [last_product_id] raises DoesNotExist on an empty table; otherwise it
    returns a stored product whose id no other id exceeds, and changes
    nothing. *)
Theorem last_product_id_is_largest (w : world) :
  match db w with
  | [] => last_product_id w = (Raise DoesNotExist, w)
  | _ :: _ =>
      exists p,
        last_product_id w = (Ok p, w)
        /\ In p (db w)
        /\ forall q, In q (db w) -> product_id q <= product_id p
  end.
Proof.
  unfold last_product_id, query.
  destruct (db w) as [| a t] eqn:E; [reflexivity |].
  destruct (get_last (a :: t)) as [p | e] eqn:G; [| discriminate].
  exists p. split; [reflexivity |]. now apply get_last_largest.
Qed.

(** X18. A product that [add_entry] has stored is the last row of the table,
    has the next id, which is larger than every id before, and is the product
    that [last_product_id], a lookup by its name and a lookup by its id
    return. *)
Theorem added_product_is_found (dictionary : dict) (w w' : world) :
  add_entry dictionary w = (Ok tt, w') ->
  exists p,
    db w' = (db w ++ [p])%list
    /\ product_id p = next_id (db w)
    /\ (forall q, In q (db w) -> product_id q < product_id p)
    /\ product_name p = d_product_name dictionary
    /\ int (d_product_quantity dictionary) = Ok (product_quantity p)
    /\ product_price p = d_product_price dictionary
    /\ date_updated p = d_date_updated dictionary
    /\ last_product_id w' = (Ok p, w')
    /\ query (get_by_name (d_product_name dictionary)) w' = (Ok p, w')
    /\ query (get_by_id (product_id p)) w' = (Ok p, w').
Proof.
  unfold add_entry, bind, lift, execute, create.
  destruct (int (d_product_quantity dictionary)) as [q | e] eqn:Q;
    [| discriminate].
  destruct (negb _); [discriminate |].
  destruct (has_name _ (db w)) eqn:N; [discriminate |].
  intros E. inversion E; subst w'. clear E.
  set (p := mk_Product (next_id (db w)) (d_product_name dictionary) q
              (d_product_price dictionary) (d_date_updated dictionary)).
  assert (Lt : forall r, In r (db w) -> product_id r < product_id p)
    by (intros r Hr; now apply next_id_above).
  exists p. cbn [db set_db]. repeat split; try exact Lt.
  - unfold last_product_id, query. cbn [db set_db].
    now rewrite (get_last_snoc _ _ Lt).
  - unfold query. cbn [db set_db].
    change (d_product_name dictionary) with (product_name p).
    now rewrite (get_by_name_snoc (db w) p N).
  - unfold query. cbn [db set_db].
    now rewrite (get_by_id_snoc _ _ Lt).
Qed.

Lemma added_product_is_found_witness :
  let dictionary :=
    mk_dict "Sprocket" (VStr "40") 99 (mk_datetime 2021 6 1) in
  let w' := snd (add_entry dictionary stocked_world) in
  exists p,
    db w' = (db stocked_world ++ [p])%list
    /\ product_id p = next_id (db stocked_world)
    /\ (forall q, In q (db stocked_world) -> product_id q < product_id p)
    /\ product_name p = d_product_name dictionary
    /\ int (d_product_quantity dictionary) = Ok (product_quantity p)
    /\ product_price p = d_product_price dictionary
    /\ date_updated p = d_date_updated dictionary
    /\ last_product_id w' = (Ok p, w')
    /\ query (get_by_name (d_product_name dictionary)) w' = (Ok p, w')
    /\ query (get_by_id (product_id p)) w' = (Ok p, w').
Proof.
  cbv zeta.
  apply (added_product_is_found
           (mk_dict "Sprocket" (VStr "40") 99 (mk_datetime 2021 6 1))
           stocked_world
           (snd (add_entry
                   (mk_dict "Sprocket" (VStr "40") 99 (mk_datetime 2021 6 1))
                   stocked_world))).
  vm_compute. reflexivity.
Defined.

End Prompts.

(* ------------------------------------------------------------------------- *)
(** ** Dates read and written, and the backup file *)

Section DatesAndBackup.

(** X19. Every date that [strptime] reads is a date of the calendar; from the
    year 1000 on, [strftime] writes it in the layout MM/DD/YYYY and [strptime]
    reads that text back as the same date. *)
Theorem strptime_gives_calendar_dates (s : string) (d : datetime) :
  strptime s = Ok d ->
  (1 <= year d <= 9999 /\ 1 <= month d <= 12
   /\ 1 <= day d <= days_in_month (year d) (month d))
  /\ (1000 <= year d ->
      strftime d = layout_date d /\ strptime (strftime d) = Ok d).
Proof.
  unfold strptime.
  destruct (span not_slash s) as [ms r1].
  destruct r1 as [| c1 r1]; [discriminate |].
  destruct (span not_slash r1) as [ds r2].
  destruct r2 as [| c2 ys]; [discriminate |].
  destruct (directive_m ms) as [m |]; [| discriminate].
  destruct (directive_d ds) as [dd |]; [| discriminate].
  destruct (directive_Y ys) as [y |]; [| discriminate].
  unfold datetime_new.
  destruct (_ && _) eqn:C; [| discriminate].
  intros E. inversion E; subst d. clear E. cbn [year month day].
  rewrite !andb_true_iff, !Z.leb_le in C.
  split; [lia |]. intros Y.
  assert (V : valid_date (mk_datetime y m dd) = true).
  { unfold valid_date. cbn [year month day].
    rewrite !andb_true_iff, !Z.leb_le. lia. }
  split; [now apply strftime_layout | now apply strftime_valid].
Qed.

Lemma strptime_gives_calendar_dates_witness :
  (1 <= 2020 <= 9999 /\ 1 <= 1 <= 12 /\ 1 <= 5 <= days_in_month 2020 1)
  /\ (1000 <= 2020 ->
      strftime (mk_datetime 2020 1 5) = layout_date (mk_datetime 2020 1 5)
      /\ strptime (strftime (mk_datetime 2020 1 5))
         = Ok (mk_datetime 2020 1 5)).
Proof.
  apply (strptime_gives_calendar_dates "1/5/2020" (mk_datetime 2020 1 5)).
  vm_compute. reflexivity.
Defined.

Lemma early_year_text (y : Z) :
  1 <= y <= 999 -> directive_Y (str_of_int y) = None.
Proof.
  intros H.
  pose (P := fun y => match directive_Y (str_of_int y) with
                      | Some _ => false
                      | None => true
                      end).
  assert (C : holds_from P 1 (Z.to_nat 999) = true)
    by (vm_compute; reflexivity).
  pose proof (holds_from_spec P (Z.to_nat 999) 1 y C ltac:(lia)) as K.
  unfold P in K. now destruct (directive_Y (str_of_int y)).
Qed.

(** What [strftime] writes for a year below 1000 is refused by
    [strptime]. *)
Lemma early_year_not_read_back (d : datetime) :
  1 <= year d <= 999 -> 1 <= month d <= 12 ->
  1 <= day d <= days_in_month (year d) (month d) ->
  strptime (strftime d) = Raise ValueError.
Proof.
  intros Y M D.
  pose proof (days_in_month_le (year d) (month d)) as D31.
  destruct (month_text (month d) M) as [M1 M2].
  destruct (day_text (day d) ltac:(lia)) as [D1 D2].
  unfold strftime.
  destruct (zero_pad 2 (str_of_int (month d))) as [| a [| b [| ? ?]]];
    try discriminate M1.
  destruct (zero_pad 2 (str_of_int (day d))) as [| c [| e [| ? ?]]];
    try discriminate D1.
  cbn [two_digit_text] in M1, D1.
  apply andb_true_iff in M1. destruct M1 as [Ha Hb].
  apply andb_true_iff in D1. destruct D1 as [Hc He].
  cbn [append]. unfold strptime. cbn [span].
  destruct (digit_char_facts a Ha) as (_&_&_&_&_&_&_&_&_& Sa &_).
  destruct (digit_char_facts b Hb) as (_&_&_&_&_&_&_&_&_& Sb &_).
  destruct (digit_char_facts c Hc) as (_&_&_&_&_&_&_&_&_& Sc &_).
  destruct (digit_char_facts e He) as (_&_&_&_&_&_&_&_&_& Se &_).
  rewrite Sa, Sb. change (not_slash "/") with false. cbv iota.
  cbn [span]. rewrite Sc, Se. change (not_slash "/") with false. cbv iota.
  rewrite M2, D2, (early_year_text _ Y). reflexivity.
Qed.

(** X20. A product dated before the year 1000 is written to the backup file,
    but the row written for it cannot be imported again: the year has fewer
    than four digits, [strptime] raises ValueError, and [add_csv] ends at that
    row. *)
Theorem early_year_backup_row_is_refused (p : Product) (r : csv_row)
    (rest : list csv_row) (w : world) :
  backup_row p = Ok r ->
  1 <= year (date_updated p) <= 999 ->
  1 <= month (date_updated p) <= 12 ->
  1 <= day (date_updated p)
    <= days_in_month (year (date_updated p)) (month (date_updated p)) ->
  add_csv (r :: rest) w = (Raise ValueError, w).
Proof.
  intros B Y M D. unfold backup_row in B.
  destruct (render_price _) as [s |]; cbn [rbind] in B; [| discriminate].
  inversion B; subst r. clear B.
  cbn [add_csv]. unfold bind, add_csv_row, lift, convert_row.
  cbn [csv_date_updated].
  now rewrite (early_year_not_read_back _ Y M D).
Qed.

Lemma early_year_backup_row_is_refused_witness :
  add_csv [mk_csv_row "Antique" "1" "$5.00" "01/01/999"; gizmo] empty_world
  = (Raise ValueError, empty_world).
Proof.
  apply (early_year_backup_row_is_refused
           (mk_Product 3 "Antique" 1 500 (mk_datetime 999 1 1))
           (mk_csv_row "Antique" "1" "$5.00" "01/01/999") [gizmo]
           empty_world).
  - vm_compute. reflexivity.
  - cbn. lia.
  - cbn. lia.
  - cbn. lia.
Defined.

(** X21. The backup starts a new file each time: what it writes does not
    depend on an earlier backup, and it changes neither the table nor what is
    still to be read from the terminal. *)
Theorem backup_replaces_previous_file (w : world) (previous : csv_file) :
  Forall (fun p => fits_int64 (product_price p) = true) (db w) ->
  backup_inventory (snd (backup_database (set_backup w previous)))
  = backup_inventory (snd (backup_database w))
  /\ fst (backup_database (set_backup w previous)) = Ok tt
  /\ db (snd (backup_database (set_backup w previous))) = db w
  /\ stdin (snd (backup_database (set_backup w previous))) = stdin w.
Proof.
  intros Fits. destruct (backup_rows_total (db w) Fits) as [rs R].
  destruct (backup_database_spec w rs R) as (w1 & E1 & _ & _ & F1).
  destruct (backup_database_spec (set_backup w previous) rs R)
    as (w2 & E2 & D2 & S2 & F2).
  rewrite E1, E2. cbn [fst snd]. rewrite F1, F2.
  repeat split; assumption.
Qed.

Lemma backup_replaces_previous_file_witness :
  backup_inventory
    (snd (backup_database
            (set_backup mixed_world
               (mk_csv_file ["old"] [widget_2020; gadget]))))
  = backup_inventory (snd (backup_database mixed_world))
  /\ fst (backup_database
            (set_backup mixed_world
               (mk_csv_file ["old"] [widget_2020; gadget]))) = Ok tt
  /\ db (snd (backup_database
                (set_backup mixed_world
                   (mk_csv_file ["old"] [widget_2020; gadget]))))
     = db mixed_world
  /\ stdin (snd (backup_database
                   (set_backup mixed_world
                      (mk_csv_file ["old"] [widget_2020; gadget]))))
     = stdin mixed_world.
Proof.
  apply (backup_replaces_previous_file mixed_world
           (mk_csv_file ["old"] [widget_2020; gadget])).
  repeat constructor.
Defined.

End DatesAndBackup.

(* ------------------------------------------------------------------------- *)
(** ** Importing the same file again *)

Section ImportTwice.

Lemma importable_inv (row : csv_row) :
  importable row = true ->
  exists d quantity,
    convert_row row = Ok d
    /\ int_of_str (csv_product_quantity row) = Ok quantity
    /\ fits_int64 quantity = true
    /\ fits_int64 (d_product_price d) = true
    /\ d_product_name d = csv_product_name row
    /\ d_product_quantity d = VStr (csv_product_quantity row).
Proof.
  unfold importable. destruct (convert_row row) as [d |] eqn:C;
    [| discriminate].
  destruct (int_of_str _) as [q |] eqn:Q; [| discriminate].
  intros F. apply andb_true_iff in F. destruct F as [Fq Fp].
  exists d, q. repeat split; try assumption.
  - unfold convert_row in C.
    destruct (strptime _); cbn [rbind] in C; [| discriminate].
    destruct (price_in_cents _); cbn [rbind] in C; [| discriminate].
    now inversion C.
  - unfold convert_row in C.
    destruct (strptime _); cbn [rbind] in C; [| discriminate].
    destruct (price_in_cents _); cbn [rbind] in C; [| discriminate].
    now inversion C.
Qed.

Lemma set_db_same (w : world) : set_db w (db w) = w.
Proof. now destruct w. Qed.

Lemma touched_by_name (row : csv_row) (r : Product) :
  product_name (touched_by row r) = product_name r
  /\ product_id (touched_by row r) = product_id r
  /\ datetime_geb (date_updated (touched_by row r)) (date_updated r) = true.
Proof.
  unfold touched_by.
  destruct (convert_row row) as [d |];
    [| repeat split; apply datetime_geb_refl].
  destruct (int_of_str _) as [q |];
    [| repeat split; apply datetime_geb_refl].
  destruct (String.eqb _ _ && datetime_geb _ _) eqn:E;
    [| repeat split; apply datetime_geb_refl].
  apply andb_true_iff in E. destruct E as [_ E]. now repeat split.
Qed.

Lemma has_name_map_touched (row : csv_row) (name : string) (t : table) :
  has_name name (map (touched_by row) t) = has_name name t.
Proof.
  unfold has_name. induction t as [| r t IH]; [reflexivity |].
  cbn [map existsb]. rewrite IH.
  now destruct (touched_by_name row r) as [-> _].
Qed.

(** A row whose name is stored: the import applies [touched_by] to every
    product. *)
Lemma add_csv_row_touches (row : csv_row) (w : world) :
  table_ok (db w) -> importable row = true ->
  has_name (csv_product_name row) (db w) = true ->
  add_csv_row row w = (Ok tt, set_db w (map (touched_by row) (db w))).
Proof.
  intros T I N.
  destruct (importable_inv row I) as (d & q & C & Q & Fq & Fp & Nd & Qd).
  destruct (has_name_found _ _ N) as [existing G].
  destruct (get_by_name_found _ _ _ G) as [Hin Hn].
  destruct T as [U A].
  unfold add_csv_row, bind, lift. rewrite C.
  assert (Qi : int (d_product_quantity d) = Ok q)
    by (rewrite Qd; exact Q).
  rewrite <- Nd in G.
  assert (Other : forall r, In r (db w) -> r <> existing ->
                            String.eqb (product_name r) (d_product_name d)
                            = false).
  { intros r Hr Ne. apply String.eqb_neq. intros E. apply Ne.
    apply (NoDup_map_eq product_name (db w) r existing U Hr Hin).
    now rewrite E, Nd, Hn. }
  destruct (datetime_geb (d_date_updated d) (date_updated existing)) eqn:D.
  - rewrite (reconcile_overwrites w d existing q (conj U A) Qi Fq Fp G D).
    f_equal. f_equal. unfold overwrite. apply map_ext_in. intros r Hr.
    unfold touched_by. rewrite C, Q.
    cbn [updated product_id].
    destruct (product_id r =? product_id existing) eqn:E.
    + apply Z.eqb_eq in E.
      assert (r = existing)
        by exact (NoDup_map_eq product_id (db w) r existing
                    (ids_ascending_NoDup _ A) Hr Hin E).
      subst r. rewrite Nd, Hn, String.eqb_refl, D. reflexivity.
    + rewrite Other; [reflexivity | exact Hr |].
      intros ->. now rewrite Z.eqb_refl in E.
  - destruct (reconcile_older w d existing G D) as [Sw Ok1].
    specialize (Ok1 q Qi Fq Fp).
    destruct (reconcile d w) as [res w1]. cbn [fst snd] in *. subst.
    f_equal. rewrite <- (set_db_same w) at 1. f_equal.
    rewrite <- (map_id (db w)) at 1. apply map_ext_in. intros r Hr.
    unfold touched_by. rewrite C, Q.
    destruct (String.eqb (product_name r) (d_product_name d)) eqn:E;
      [| reflexivity].
    destruct (datetime_geb (d_date_updated d) (date_updated r)) eqn:E2;
      [| reflexivity].
    destruct (product_id r =? product_id existing) eqn:E3.
    + apply Z.eqb_eq in E3.
      assert (r = existing)
        by exact (NoDup_map_eq product_id (db w) r existing
                    (ids_ascending_NoDup _ A) Hr Hin E3).
      subst r. congruence.
    + rewrite Other in E; [discriminate | exact Hr |].
      intros ->. now rewrite Z.eqb_refl in E3.
Qed.

(** A row whose name is not stored. *)
Lemma add_csv_row_appends (row : csv_row) (w : world) :
  importable row = true ->
  has_name (csv_product_name row) (db w) = false ->
  exists d quantity,
    convert_row row = Ok d
    /\ int_of_str (csv_product_quantity row) = Ok quantity
    /\ add_csv_row row w
       = (Ok tt,
          set_db w
            (db w ++ [mk_Product (next_id (db w)) (csv_product_name row)
                        quantity (d_product_price d) (d_date_updated d)])
            %list).
Proof.
  intros I N.
  destruct (importable_inv row I) as (d & q & C & Q & Fq & Fp & Nd & Qd).
  exists d, q. split; [exact C |]. split; [exact Q |].
  unfold add_csv_row, bind, lift. rewrite C.
  unfold reconcile, try_except, add_entry, bind, lift, execute.
  rewrite Qd. cbn [int]. rewrite Q, Nd.
  now rewrite (create_new _ _ _ _ _ N Fq Fp).
Qed.

(** The import of a file all of whose names are stored. *)
Lemma add_csv_touches (inventory : list csv_row) (w : world) :
  table_ok (db w) -> forallb importable inventory = true ->
  (forall row, In row inventory ->
               has_name (csv_product_name row) (db w) = true) ->
  add_csv inventory w
  = (Ok tt, set_db w (map (touched_by_all inventory) (db w))).
Proof.
  revert w. induction inventory as [| row rest IH]; intros w T I N.
  - cbn [add_csv]. unfold ret, touched_by_all. cbn [fold_left].
    now rewrite map_id, set_db_same.
  - cbn [forallb] in I. apply andb_true_iff in I. destruct I as [I1 I2].
    cbn [add_csv]. unfold bind.
    pose proof (add_csv_row_table_ok row w T) as T1.
    rewrite (add_csv_row_touches row w T I1 (N row (or_introl eq_refl))) in *.
    cbn [snd db set_db] in T1.
    rewrite (IH (set_db w (map (touched_by row) (db w)))).
    + cbn [db set_db]. rewrite map_map. reflexivity.
    + exact T1.
    + exact I2.
    + intros r Hr. cbn [db set_db]. rewrite has_name_map_touched.
      apply N. now right.
Qed.


Lemma datetime_geb_antisym (a b : datetime) :
  datetime_geb a b = true -> datetime_geb b a = true -> a = b.
Proof.
  unfold datetime_geb. intros H1 H2.
  apply negb_true_iff in H1. apply negb_true_iff in H2.
  assert (N1 : ~ (year a < year b
                  \/ (year a = year b
                      /\ (month a < month b
                          \/ (month a = month b /\ day a < day b)))))
    by (rewrite <- datetime_ltb_spec; congruence).
  assert (N2 : ~ (year b < year a
                  \/ (year b = year a
                      /\ (month b < month a
                          \/ (month b = month a /\ day b < day a)))))
    by (rewrite <- datetime_ltb_spec; congruence).
  destruct a as [ya ma da], b as [yb mb db0]. cbn [year month day] in *.
  f_equal; lia.
Qed.

Lemma touched_by_all_app (a b : list csv_row) (r : Product) :
  touched_by_all (a ++ b) r = touched_by_all b (touched_by_all a r).
Proof. unfold touched_by_all. apply fold_left_app. Qed.

Lemma convert_row_name (row : csv_row) (d : dict) :
  convert_row row = Ok d -> d_product_name d = csv_product_name row.
Proof.
  unfold convert_row.
  destruct (strptime _); cbn [rbind]; [| discriminate].
  destruct (price_in_cents _); cbn [rbind]; [| discriminate].
  intros E. now inversion E.
Qed.

Lemma touched_by_other (row : csv_row) (r : Product) :
  csv_product_name row <> product_name r -> touched_by row r = r.
Proof.
  intros Ne. unfold touched_by.
  destruct (convert_row row) as [d |] eqn:C; [| reflexivity].
  destruct (int_of_str _); [| reflexivity].
  rewrite (convert_row_name _ _ C).
  destruct (String.eqb _ _) eqn:E; [| reflexivity].
  apply String.eqb_eq in E. now elim Ne.
Qed.

Lemma touched_by_all_other (inventory : list csv_row) (r : Product) :
  (forall row, In row inventory -> csv_product_name row <> product_name r) ->
  touched_by_all inventory r = r.
Proof.
  unfold touched_by_all. induction inventory as [| row rest IH]; intros H;
    cbn [fold_left]; [reflexivity |].
  rewrite (touched_by_other row r) by (apply H; now left).
  apply IH. intros row' Hr. apply H. now right.
Qed.

(** Rows that are not later than the product leave its id, name and date. *)
Lemma touched_by_all_keeps (inventory : list csv_row) (r : Product) :
  (forall row d, In row inventory -> convert_row row = Ok d ->
                 csv_product_name row = product_name r ->
                 datetime_geb (date_updated r) (d_date_updated d) = true) ->
  product_id (touched_by_all inventory r) = product_id r
  /\ product_name (touched_by_all inventory r) = product_name r
  /\ date_updated (touched_by_all inventory r) = date_updated r.
Proof.
  unfold touched_by_all. revert r.
  induction inventory as [| row rest IH]; intros r H; cbn [fold_left];
    [repeat split |].
  destruct (touched_by_name row r) as (Hn & Hi & _).
  assert (Hd : date_updated (touched_by row r) = date_updated r).
  { unfold touched_by.
    destruct (convert_row row) as [d |] eqn:C; [| reflexivity].
    destruct (int_of_str _); [| reflexivity].
    destruct (String.eqb _ _) eqn:E; [| reflexivity].
    destruct (datetime_geb _ _) eqn:G; [| reflexivity].
    cbn [andb updated date_updated].
    apply String.eqb_eq in E.
    apply datetime_geb_antisym; [exact G |].
    apply (H row d (or_introl eq_refl) C).
    now rewrite <- (convert_row_name _ _ C). }
  destruct (IH (touched_by row r)) as (I1 & I2 & I3).
  - intros row' d' Hr C' Nm. rewrite Hd. rewrite Hn in Nm.
    apply (H row' d'); [now right | exact C' | exact Nm].
  - rewrite I1, I2, I3. repeat split; assumption.
Qed.

Lemma has_name_app (name : string) (a b : table) :
  has_name name (a ++ b)%list = has_name name a || has_name name b.
Proof. unfold has_name. apply existsb_app. Qed.

Lemma has_name_stored (r : Product) (t : table) :
  In r t -> has_name (product_name r) t = true.
Proof. intros H. apply has_name_In. now apply in_map. Qed.

(** The state of the table after a file was imported with success. *)
Lemma first_pass_settles (inventory : list csv_row) :
  forall w,
    table_ok (db w) -> fst (add_csv inventory w) = Ok tt ->
    forallb importable inventory = true
    /\ (forall row, In row inventory ->
          has_name (csv_product_name row) (db (snd (add_csv inventory w)))
          = true)
    /\ (forall r row d,
          In r (db (snd (add_csv inventory w))) -> In row inventory ->
          convert_row row = Ok d ->
          csv_product_name row = product_name r ->
          datetime_geb (date_updated r) (d_date_updated d) = true)
    /\ (forall r, In r (db (snd (add_csv inventory w))) ->
                  touched_by_all inventory r = r).
Proof.
  induction inventory as [| row inv0 IH] using rev_ind; intros w T S.
  - cbn [add_csv ret snd]. repeat split; try reflexivity;
      intros; contradiction.
  - rewrite add_csv_app in *. unfold bind in *.
    pose proof (add_csv_table_ok inv0 w T) as T0.
    specialize (IH w T).
    destruct (add_csv inv0 w) as [[[] | e] w0]; [| discriminate S].
    cbn [fst snd] in IH, T0.
    destruct (IH eq_refl) as (I0 & N0 & M0 & A0). clear IH.
    cbn [add_csv] in *. unfold bind in *.
    pose proof (add_csv_row_result row w0 T0) as R.
    destruct (importable row) eqn:I.
    2:{ destruct R as [e [E _]]. rewrite E in S. discriminate S. }
    clear R.
    destruct (importable_inv row I) as (d & q & C & Q & Fq & Fp & Nd & Qd).
    assert (Imp : forallb importable (inv0 ++ [row]) = true).
    { rewrite forallb_app, I0. cbn [forallb]. now rewrite I. }
    destruct (has_name (csv_product_name row) (db w0)) eqn:N.
    + rewrite (add_csv_row_touches row w0 T0 I N) in *.
      cbn [ret fst snd db set_db] in *.
      split; [exact Imp |]. split; [| split].
      * intros row' Hr. rewrite has_name_map_touched.
        apply in_app_or in Hr. destruct Hr as [Hr | [<- | []]];
          [now apply N0 | exact N].
      * intros r1 row' d' Hr1 Hr C' Nm.
        apply in_map_iff in Hr1. destruct Hr1 as [r [<- Hr0]].
        destruct (touched_by_name row r) as (Hn & _ & Hg).
        rewrite Hn in Nm.
        apply in_app_or in Hr. destruct Hr as [Hr | [<- | []]].
        -- apply (datetime_geb_trans _ (date_updated r)); [exact Hg |].
           now apply (M0 r row' d').
        -- assert (d' = d) by congruence. subst d'.
           unfold touched_by. rewrite C, Q, Nd, <- Nm, String.eqb_refl.
           cbn [andb].
           destruct (datetime_geb (d_date_updated d) (date_updated r))
             eqn:G.
           ++ cbn [updated date_updated]. apply datetime_geb_refl.
           ++ apply datetime_ltb_geb. unfold datetime_geb in G.
              now apply negb_false_iff in G.
      * intros r1 Hr1. rewrite touched_by_all_app.
        apply in_map_iff in Hr1. destruct Hr1 as [r [<- Hr0]].
        unfold touched_by_all at 1. cbn [fold_left].
        unfold touched_by at 2 3. rewrite C, Q.
        destruct (String.eqb (product_name r) (d_product_name d)
                  && datetime_geb (d_date_updated d) (date_updated r))
          eqn:Cond.
        -- apply andb_true_iff in Cond. destruct Cond as [En Eg].
           set (r1 := updated r q (d_product_price d) (d_date_updated d)).
           destruct (touched_by_all_keeps inv0 r1) as (K1 & K2 & K3).
           { intros row' d' Hr C' Nm. cbn [r1 updated date_updated].
             apply (datetime_geb_trans _ (date_updated r)); [exact Eg |].
             now apply (M0 r row' d'). }
           unfold touched_by. rewrite C, Q, K2, K3.
           cbn [r1 updated product_name date_updated product_id] in *.
           rewrite En, datetime_geb_refl. cbn [andb].
           unfold updated. now rewrite K1, K2.
        -- rewrite (A0 r Hr0). unfold touched_by. now rewrite C, Q, Cond.
    + destruct (add_csv_row_appends row w0 I N) as (d1 & q1 & C1 & Q1 & E).
      assert (d1 = d) by congruence. assert (q1 = q) by congruence.
      subst d1 q1. rewrite E in *. clear E.
      cbn [ret fst snd db set_db] in *.
      set (new := mk_Product (next_id (db w0)) (csv_product_name row) q
                    (d_product_price d) (d_date_updated d)) in *.
      assert (Fresh : forall r, In r (db w0) ->
                                csv_product_name row <> product_name r).
      { intros r Hr En. rewrite En, (has_name_stored r _ Hr) in N.
        discriminate. }
      assert (Unseen : forall row', In row' inv0 ->
                                    csv_product_name row'
                                    <> csv_product_name row).
      { intros row' Hr En. rewrite <- En, (N0 row' Hr) in N.
        discriminate. }
      split; [exact Imp |]. split; [| split].
      * intros row' Hr. rewrite has_name_app.
        apply in_app_or in Hr. destruct Hr as [Hr | [<- | []]].
        -- now rewrite (N0 row' Hr).
        -- unfold has_name at 2. cbn [existsb new product_name].
           rewrite String.eqb_refl. apply orb_true_r.
      * intros r1 row' d' Hr1 Hr C' Nm.
        apply in_app_or in Hr1. apply in_app_or in Hr.
        destruct Hr1 as [Hr1 | [<- | []]];
          destruct Hr as [Hr | [<- | []]].
        -- now apply (M0 r1 row' d').
        -- now elim (Fresh r1 Hr1).
        -- now elim (Unseen row' Hr).
        -- assert (d' = d) by congruence. subst d'. apply datetime_geb_refl.
      * intros r1 Hr1. rewrite touched_by_all_app.
        unfold touched_by_all at 1. cbn [fold_left].
        apply in_app_or in Hr1. destruct Hr1 as [Hr1 | [<- | []]].
        -- rewrite (A0 r1 Hr1). apply touched_by_other. now apply Fresh.
        -- rewrite touched_by_all_other.
           ++ unfold touched_by. rewrite C, Q, Nd.
              cbn [new product_name date_updated].
              now rewrite String.eqb_refl, datetime_geb_refl.
           ++ intros row' Hr. cbn [new product_name]. now apply Unseen.
Qed.

(** X9. Importing a file that was imported with success changes nothing and
    succeeds again: the program reads inventory.csv at every start, and a
    second start with the same file leaves the table as the first left it
    (when two rows of a name have the same date, the later row wins both
    times). *)
Theorem import_twice_is_import_once (inventory : list csv_row) (w : world) :
  table_ok (db w) -> fst (add_csv inventory w) = Ok tt ->
  add_csv inventory (snd (add_csv inventory w))
  = (Ok tt, snd (add_csv inventory w)).
Proof.
  intros T S.
  destruct (first_pass_settles inventory w T S) as (I & N & _ & A).
  pose proof (add_csv_table_ok inventory w T) as T1.
  rewrite (add_csv_touches inventory _ T1 I N).
  f_equal.
  transitivity (set_db (snd (add_csv inventory w))
                  (db (snd (add_csv inventory w))));
    [| apply set_db_same].
  f_equal.
  transitivity (map (fun r => r) (db (snd (add_csv inventory w))));
    [| apply map_id].
  apply map_ext_in. exact A.
Qed.

Lemma import_twice_is_import_once_witness :
  add_csv [widget_2020; gizmo; widget_2021; widget_2021; refund]
    (snd (add_csv [widget_2020; gizmo; widget_2021; widget_2021; refund]
            stocked_world))
  = (Ok tt,
     snd (add_csv [widget_2020; gizmo; widget_2021; widget_2021; refund]
            stocked_world)).
Proof.
  apply (import_twice_is_import_once
           [widget_2020; gizmo; widget_2021; widget_2021; refund]
           stocked_world).
  - exact table_ok_stocked.
  - vm_compute. reflexivity.
Defined.

End ImportTwice.
